(** * Tool functions of the Dataplex and Dataproc agents

    A shallow embedding of the Python tool modules

      - dataplex-agent/utils/dataplex_service_tools.py
      - dataplex-agent/utils/catalog_service_tools.py
      - dataproc-agent/utils/common_tools.py
      - dataproc-agent/utils/cluster_controller_tools.py

    Python objects live in a store indexed by locations, so that the in-place
    updates the tools perform on the dictionaries handed in by the caller are
    visible.  Exceptions are values of an outcome type; [try ... except]
    ladders are lists of handlers tried in order.  The cloud client libraries
    are an oracle [env]: every constructor and API method of the library is a
    field of the record, and every call of an API method written in a tool
    is logged in the trace of the world.  The record also holds the few
    answers of the interpreter that the model does not compute (the Unicode
    case tables, the printed name of a class).  [print] statements only
    write to standard output and are left out, except for the attribute
    reads in their arguments that can raise. *)

From Stdlib Require Import ZArith String Ascii List Bool.
From stdpp Require Import base option strings gmap list pretty.

Set Warnings "-register-all".

Open Scope string_scope.
Open Scope Z_scope.

(** ** Python values, objects and the store *)

Module Py.

Definition loc := positive.

(** Immediate values and references to mutable objects. *)
Inductive pyval :=
| VNone
| VBool (b : bool)
| VInt (z : Z)
| VStr (s : string)
| VRef (l : loc).

(** Mutable objects: dictionaries with string keys and lists. *)
Inductive pyobj :=
| ODict (d : gmap string pyval)
| OList (xs : list pyval).

(** *** Strings *)

Definition lower_ascii (c : ascii) : ascii :=
  let n := nat_of_ascii c in
  if ((65 <=? n) && (n <=? 90))%nat then ascii_of_nat (n + 32) else c.

Definition upper_ascii (c : ascii) : ascii :=
  let n := nat_of_ascii c in
  if ((97 <=? n) && (n <=? 122))%nat then ascii_of_nat (n - 32) else c.

(** [s.lower()] on ASCII letters; every other character is left as it is.
    Python's [str.lower] follows the Unicode tables.  The two agree on text
    without non-ASCII characters; on other text the only code points whose
    lower-case form holds an ASCII letter are U+212A (gives [k]) and U+0130
    (gives [i] followed by U+0307), so for a search of a lower-case ASCII
    phrase without [k], and without [i] at its end, both give the same
    answer.  The tests of cancel_dataplex_job and get_current_time are such
    searches; submit_dataproc_job compares the whole lowered text and uses
    [str_lower] below. *)
Fixpoint lower (s : string) : string :=
  match s with
  | EmptyString => EmptyString
  | String c s' => String (lower_ascii c) (lower s')
  end.

Definition capitalize_ascii (s : string) : string :=
  match s with
  | EmptyString => EmptyString
  | String c s' => String (upper_ascii c) (lower s')
  end.

Fixpoint is_ascii (s : string) : bool :=
  match s with
  | EmptyString => true
  | String c s' => (nat_of_ascii c <? 128)%nat && is_ascii s'
  end.

(** [s.lower()] and [s.capitalize()] on any text (a string holds the UTF-8
    bytes of the Python [str]): computed on ASCII text, and given by the
    Unicode tables of the interpreter, [U], on text with other characters. *)
Definition str_lower (U : string -> string) (s : string) : string :=
  if is_ascii s then lower s else U s.

Definition str_capitalize (U : string -> string) (s : string) : string :=
  if is_ascii s then capitalize_ascii s else U s.

(** [s.replace(a, b)] for one-character [a] and [b]. *)
Fixpoint replace_char (a b : ascii) (s : string) : string :=
  match s with
  | EmptyString => EmptyString
  | String c s' => String (if Ascii.eqb c a then b else c) (replace_char a b s')
  end.

(** [needle in hay] on strings. *)
Fixpoint contains (needle hay : string) : bool :=
  String.prefix needle hay ||
  match hay with
  | EmptyString => false
  | String _ hay' => contains needle hay'
  end.

(** [sep.join(xs)] *)
Fixpoint join (sep : string) (xs : list string) : string :=
  match xs with
  | [] => ""
  | [x] => x
  | x :: xs' => x +:+ sep +:+ join sep xs'
  end.

(** [s[:n]] *)
Fixpoint take_prefix (n : nat) (s : string) : string :=
  match n, s with
  | S n', String c s' => String c (take_prefix n' s')
  | _, _ => EmptyString
  end.

(** *** Exceptions *)

(** The concrete class of a raised exception.  [NotFound] (status 404) and
    [InvalidArgument] (status 400) are the two subclasses of
    [GoogleAPICallError] the tools name; [ApiCallError code] stands for any
    other subclass of [GoogleAPICallError] with its status code;
    [ApiError] for a [GoogleAPIError] that is not a call error;
    [BaseOnly] for [KeyboardInterrupt], [SystemExit] and
    [asyncio.CancelledError], which derive from [BaseException] but not from
    [Exception]. *)
Inductive exc_class :=
| NotFound
| InvalidArgument
| ApiCallError (code : option Z)
| ApiError
| ValueError
| TypeError
| AttributeError
| KeyError
| NameError
| OtherException
| BaseOnly.

Record exc := Exc {
  e_class : exc_class;
  e_message : string;   (* [e.message] of an API error, [str(e)] otherwise *)
  e_details : string    (* rendering of [e.details] of an API error, or empty *)
}.

(** The classes an [except] clause of the tools can name. *)
Inductive catch_class :=
| Catch_NotFound
| Catch_InvalidArgument
| Catch_GoogleAPICallError
| Catch_GoogleAPIError
| Catch_Exception.

Definition is_call_error (c : exc_class) : bool :=
  match c with
  | NotFound | InvalidArgument | ApiCallError _ => true
  | _ => false
  end.

(** [isinstance(e, C)] *)
Definition isinstance (e : exc) (c : catch_class) : bool :=
  match c, e_class e with
  | Catch_NotFound, NotFound => true
  | Catch_NotFound, _ => false
  | Catch_InvalidArgument, InvalidArgument => true
  | Catch_InvalidArgument, _ => false
  | Catch_GoogleAPICallError, k => is_call_error k
  | Catch_GoogleAPIError, ApiError => true
  | Catch_GoogleAPIError, k => is_call_error k
  | Catch_Exception, BaseOnly => false
  | Catch_Exception, _ => true
  end.

(** [e.code] of a [GoogleAPICallError]. *)
Definition e_code (e : exc) : option Z :=
  match e_class e with
  | NotFound => Some 404
  | InvalidArgument => Some 400
  | ApiCallError c => c
  | _ => None
  end.

Definition code_str (c : option Z) : string :=
  match c with
  | Some z => pretty z
  | None => "None"
  end.

(** [str(e)]: an API call error prints as its status code, its message and,
    when present, its details; any other exception as its message. *)
Definition exc_str (e : exc) : string :=
  if is_call_error (e_class e) then
    code_str (e_code e) +:+ " " +:+ e_message e +:+
    (if String.eqb (e_details e) "" then "" else " " +:+ e_details e)
  else e_message e.

(** *** Results handed back to the agent *)

Inductive json :=
| JNull
| JBool (b : bool)
| JNum (z : Z)
| JStr (s : string)
| JObj (kvs : list (string * json))
| JArr (xs : list json).

Definition has_key (k : string) (kvs : list (string * json)) : bool :=
  existsb (fun kv => String.eqb (fst kv) k) kvs.

(** A dictionary with an ["error"] key, or a list holding such a
    dictionary. *)
Definition is_error_shaped (r : json) : bool :=
  match r with
  | JObj kvs => has_key "error" kvs
  | JArr xs =>
      existsb (fun x => match x with JObj kvs => has_key "error" kvs | _ => false end) xs
  | _ => false
  end.

Definition error_dict (msg : string) : json := JObj [("error", JStr msg)].

(** *** Messages, requests and the trace of remote calls *)

(** A proto message built from a dictionary: the keyword arguments (a fresh
    shallow copy, as made by [**details]) and the store at that moment, in
    which the nested dictionaries are read. *)
Record message := Message {
  msg_type : string;
  msg_fields : gmap string pyval;
  msg_store : gmap loc pyobj
}.

Record request := Request {
  req_type : string;
  req_args : list (string * string);
  req_body : option message;
  req_mask : option (list string)
}.

(** One call of an API method of a client, as written in the code of a
    tool: the method and the request it was given.  The trace holds these
    calls only.  What the library sends on its own behind them, the further
    pages fetched while a pager is iterated and the polling inside
    [operation.exception()], is no event; nor are the path helpers of the
    client classes, which format a string locally. *)
Inductive event :=
| EvCall (method : string) (r : request).

Record world := World {
  w_heap : gmap loc pyobj;
  w_trace : list event
}.

(** *** Computations: store and trace passing, with exceptions *)

Inductive outcome (A : Type) :=
| Return (a : A)
| Raise (e : exc).
Arguments Return {A} a.
Arguments Raise {A} e.

Definition M (A : Type) : Type := world -> outcome A * world.

Definition ret {A} (a : A) : M A := fun w => (Return a, w).
Definition raise {A} (e : exc) : M A := fun w => (Raise e, w).

Definition bind {A B} (m : M A) (k : A -> M B) : M B :=
  fun w =>
    match m w with
    | (Return a, w') => k a w'
    | (Raise e, w') => (Raise e, w')
    end.

Notation "'do' x <- m ; k" := (bind m (fun x => k))
  (at level 10, x name, m at level 100, k at level 200).
Notation "'run' m ; k" := (bind m (fun _ => k))
  (at level 10, m at level 100, k at level 200).

Definition lift {A} (o : outcome A) : M A := fun w => (o, w).

Definition get_heap : M (gmap loc pyobj) := fun w => (Return (w_heap w), w).
Definition put_heap (h : gmap loc pyobj) : M unit :=
  fun w => (Return tt, World h (w_trace w)).
Definition log (ev : event) : M unit :=
  fun w => (Return tt, World (w_heap w) (w_trace w ++ [ev])).

(** An [except C as e: ...] clause. *)
Definition handler (A : Type) : Type := catch_class * (exc -> M A).

(** The clauses are tried in order; with none matching the exception goes
    on to the caller. *)
Fixpoint dispatch {A} (hs : list (handler A)) (e : exc) : M A :=
  match hs with
  | [] => raise e
  | (c, h) :: hs' => if isinstance e c then h e else dispatch hs' e
  end.

(** [try: body except ...]: the effects of the body up to the exception
    stay. *)
Definition try_ {A} (body : M A) (hs : list (handler A)) : M A :=
  fun w =>
    match body w with
    | (Return a, w') => (Return a, w')
    | (Raise e, w') => dispatch hs e w'
    end.

(** *** Operations on objects *)

Definition type_error (msg : string) : exc := Exc TypeError msg "".
Definition attribute_error (msg : string) : exc := Exc AttributeError msg "".
Definition key_error (k : string) : exc := Exc KeyError ("'" +:+ k +:+ "'") "".
Definition name_error (n : string) : exc :=
  Exc NameError ("name '" +:+ n +:+ "' is not defined") "".
(** A reference to no object: never met in a store closed under its
    references. *)
Definition dangling : exc := Exc OtherException "dangling reference" "".

Definition is_str (k : string) (v : pyval) : bool :=
  match v with
  | VStr s => String.eqb s k
  | _ => false
  end.

(** [k in v] *)
Definition py_in (k : string) (v : pyval) : M bool :=
  match v with
  | VRef l =>
      do h <- get_heap;
      match h !! l with
      | Some (ODict d) => ret (bool_decide (is_Some (d !! k)))
      | Some (OList xs) => ret (existsb (is_str k) xs)
      | None => raise dangling
      end
  | VStr s => ret (contains k s)
  | _ => raise (type_error "argument is not iterable")
  end.

(** [v[k]] *)
Definition py_getitem (v : pyval) (k : string) : M pyval :=
  match v with
  | VRef l =>
      do h <- get_heap;
      match h !! l with
      | Some (ODict d) =>
          match d !! k with
          | Some x => ret x
          | None => raise (key_error k)
          end
      | Some (OList _) => raise (type_error "list indices must be integers or slices, not str")
      | None => raise dangling
      end
  | VStr _ => raise (type_error "string indices must be integers, not 'str'")
  | _ => raise (type_error "object is not subscriptable")
  end.

(** [v.pop(k)] *)
Definition py_pop (v : pyval) (k : string) : M pyval :=
  match v with
  | VRef l =>
      do h <- get_heap;
      match h !! l with
      | Some (ODict d) =>
          match d !! k with
          | Some x => run put_heap (<[l := ODict (delete k d)]> h); ret x
          | None => raise (key_error k)
          end
      | Some (OList _) => raise (type_error "'str' object cannot be interpreted as an integer")
      | None => raise dangling
      end
  | _ => raise (attribute_error "object has no attribute 'pop'")
  end.

(** [v[k] = x] *)
Definition py_setitem (v : pyval) (k : string) (x : pyval) : M unit :=
  match v with
  | VRef l =>
      do h <- get_heap;
      match h !! l with
      | Some (ODict d) => put_heap (<[l := ODict (<[k := x]> d)]> h)
      | Some (OList _) => raise (type_error "list indices must be integers or slices, not str")
      | None => raise dangling
      end
  | _ => raise (type_error "object does not support item assignment")
  end.

(** [**v]: the keyword arguments of a call, a shallow copy of the
    dictionary. *)
Definition py_kwargs (v : pyval) : M (gmap string pyval) :=
  match v with
  | VRef l =>
      do h <- get_heap;
      match h !! l with
      | Some (ODict d) => ret d
      | Some (OList _) => raise (type_error "argument after ** must be a mapping, not list")
      | None => raise dangling
      end
  | _ => raise (type_error "argument after ** must be a mapping")
  end.

(** [bool(v)] *)
Definition py_truthy (v : pyval) : M bool :=
  match v with
  | VNone => ret false
  | VBool b => ret b
  | VInt z => ret (negb (z =? 0))
  | VStr s => ret (negb (String.eqb s ""))
  | VRef l =>
      do h <- get_heap;
      match h !! l with
      | Some (ODict d) => ret (negb (bool_decide (d = ∅)))
      | Some (OList xs) => ret (negb (bool_decide (xs = [])))
      | None => raise dangling
      end
  end.

End Py.

(** ** The cloud client libraries, as the tools use them *)

Module Gapic.
Import Py.

(** A long-running operation handle.  [operation.exception()] blocks until
    the operation is done, polling the service meanwhile, and gives [None]
    or the error of the operation; the wait itself can raise.
    [op_exception] is what it gives: the polling is the library's and is no
    event of the trace.  [op_operation_type] is the read of
    [operation.metadata.operation_type], which raises [AttributeError] when
    the operation has no metadata; [op_metadata] is [str(operation.metadata)]. *)
Record operation := Operation {
  op_exception : outcome (option exc);
  op_name : string;
  op_metadata : string;
  op_operation_type : outcome string
}.

(** A paged listing, its elements already passed through [MessageToDict]:
    iterating it yields the items and then, when [pg_error] is set, raises
    while fetching a further page. *)
Record pager := Pager {
  pg_items : list json;
  pg_error : option exc
}.

(** What a call of an async client method gives before it is consumed.  A
    coroutine (the value of an [async def] method) can be awaited but not
    iterated; an async pager can be iterated but not awaited; the last case
    is an object that has both protocols. *)
Inductive async_listing :=
| Coroutine (r : outcome pager)
| AsyncPager (p : pager)
| AwaitableAsyncPager (r : outcome pager) (p : pager).

(** The job a [submit_job] call answers with, read field by field.
    [sj_type_case] is the read of [submitted_job.type_case.name], which
    raises [AttributeError] on a job object without that attribute. *)
Record submitted_job := SubmittedJob {
  sj_job_id : string;
  sj_state : string;
  sj_cluster_name : string;
  sj_type_case : outcome string
}.

Record env := Env {
  (* constructing a client of the given class: [None] when it succeeds *)
  client_init : string -> option exc;
  (* constructing a proto message from keyword arguments *)
  proto_init : message -> option exc;
  (* remote calls, by client method *)
  rpc_operation : string -> request -> outcome operation;
  rpc_message : string -> request -> outcome json;
  rpc_pager : string -> request -> outcome pager;
  rpc_empty : string -> request -> option exc;
  rpc_job : string -> request -> outcome submitted_job;
  (* the [n]-th evaluation of [cluster_client.list_clusters(request=...)] on
     the async client within one tool call *)
  async_list_clusters : nat -> request -> async_listing;
  (* [str(uuid.uuid4())] *)
  uuid4 : string;
  (* [urlopen(url).read()] and [json.loads] *)
  urlopen_read : string -> outcome string;
  json_loads : string -> outcome json;
  (* whether the client class has the method: the four service clients of
     the tools have every method called on them; consulted where
     search_dataplex_catalog looks up [search_resources] *)
  has_method : string -> string -> bool;
  (* how the interpreter prints a class in the [TypeError] of a call, its
     qualified name followed by [()] *)
  function_str : string -> string;
  (* [str.lower] and [str.capitalize] on text with non-ASCII characters *)
  unicode_lower : string -> string;
  unicode_capitalize : string -> string
}.

(** *** Resource names: the static path helpers of the client classes, which
    format their arguments into the name template. *)

Definition common_location_path (project location : string) : string :=
  "projects/" +:+ project +:+ "/locations/" +:+ location.

Definition lake_path (project location lake : string) : string :=
  "projects/" +:+ project +:+ "/locations/" +:+ location +:+ "/lakes/" +:+ lake.

Definition zone_path (project location lake zone : string) : string :=
  lake_path project location lake +:+ "/zones/" +:+ zone.

Definition asset_path (project location lake zone asset : string) : string :=
  zone_path project location lake zone +:+ "/assets/" +:+ asset.

Definition task_path (project location lake task : string) : string :=
  lake_path project location lake +:+ "/tasks/" +:+ task.

Definition job_path (project location lake task job : string) : string :=
  task_path project location lake task +:+ "/jobs/" +:+ job.

(** *** Constructors and calls *)

Definition new_client (E : env) (cls : string) : M unit :=
  match client_init E cls with
  | None => ret tt
  | Some e => raise e
  end.

Definition new_message (E : env) (ty : string) (fields : gmap string pyval) : M message :=
  do h <- get_heap;
  let m := Message ty fields h in
  match proto_init E m with
  | None => ret m
  | Some e => raise e
  end.

(** The single positional argument of a message constructor: a mapping, or
    [None] for the empty message. *)
Definition py_mapping (v : pyval) : M (gmap string pyval) :=
  match v with
  | VNone => ret ∅
  | VRef l =>
      do h <- get_heap;
      match h !! l with
      | Some (ODict d) => ret d
      | Some (OList _) => raise (type_error "Invalid constructor input")
      | None => raise dangling
      end
  | _ => raise (type_error "Invalid constructor input")
  end.

(** The message of the [TypeError] for a keyword given twice: the callable
    as the interpreter prints it, then the fixed text. *)
Definition multiple_values (E : env) (cls kw : string) : string :=
  function_str E cls +:+ " got multiple values for keyword argument '" +:+ kw +:+ "'".

(** [Cls(name=n, **details)] *)
Definition kwargs_with_name (E : env) (cls n : string) (details : pyval)
    : M (gmap string pyval) :=
  do d <- py_kwargs details;
  match d !! "name" with
  | Some _ => raise (type_error (multiple_values E cls "name"))
  | None => ret (<["name" := VStr n]> d)
  end.

Definition call_operation (E : env) (method : string) (rq : request) : M operation :=
  run log (EvCall method rq);
  lift (rpc_operation E method rq).

Definition call_message (E : env) (method : string) (rq : request) : M json :=
  run log (EvCall method rq);
  lift (rpc_message E method rq).

Definition call_pager (E : env) (method : string) (rq : request) : M pager :=
  run log (EvCall method rq);
  lift (rpc_pager E method rq).

Definition call_empty (E : env) (method : string) (rq : request) : M unit :=
  run log (EvCall method rq);
  match rpc_empty E method rq with
  | None => ret tt
  | Some e => raise e
  end.

Definition call_job (E : env) (method : string) (rq : request) : M submitted_job :=
  run log (EvCall method rq);
  lift (rpc_job E method rq).

(** [for x in pager: xs.append(MessageToDict(x))] *)
Definition iterate (p : pager) : M (list json) :=
  match pg_error p with
  | None => ret (pg_items p)
  | Some e => raise e
  end.

Definition on {A} (c : catch_class) (h : exc -> M A) : handler A := (c, h).

End Gapic.

(** ** dataplex_service_tools.py *)

Module Dataplex.
Import Py Gapic.

Definition client_class : string := "DataplexServiceClient".

(** [_handle_lro].  [operation.exception()] is called up to three times; it
    blocks on the first call and gives the same answer afterwards, which is
    [op_exception]. *)
Definition _handle_lro (operation : operation) (operation_description : string) : M json :=
  do ex <- lift (op_exception operation);
  match ex with
  | Some err =>
      ret (error_dict ("Error during " +:+ operation_description +:+ ": " +:+ exc_str err))
  | None =>
      ret (JObj [("status", JStr "pending");
                 ("operation_name", JStr (op_name operation));
                 ("metadata", JStr (op_metadata operation))])
  end.

(** The rename written out at the top of the zone functions:
    [if 'type' in details: details['type_'] = details.pop('type')]. *)
Definition rename_type (details : pyval) : M unit :=
  do present <- py_in "type" details;
  if present then
    do v <- py_pop details "type";
    py_setitem details "type_" v
  else ret tt.

(** The rename of the asset and task functions, one level down:
    [if sub in details and 'type' in details[sub]:
         details[sub]['type_'] = details[sub].pop('type')].
    The right-hand side is evaluated before the target of the assignment. *)
Definition rename_nested_type (sub : string) (details : pyval) : M unit :=
  do has_sub <- py_in sub details;
  if has_sub then
    do spec <- py_getitem details sub;
    do present <- py_in "type" spec;
    if present then
      do spec1 <- py_getitem details sub;
      do v <- py_pop spec1 "type";
      do spec2 <- py_getitem details sub;
      py_setitem spec2 "type_" v
    else ret tt
  else ret tt.

(** *** Lakes *)

Definition create_dataplex_lake_body (E : env)
    (project_id location lake_id : string) (lake_details : pyval) : M json :=
  run new_client E client_class;
  let parent := common_location_path project_id location in
  do fields <- py_mapping lake_details;
  do lake_obj <- new_message E "Lake" fields;
  let request := Request "CreateLakeRequest"
                   [("parent", parent); ("lake_id", lake_id)] (Some lake_obj) None in
  do operation <- call_operation E "create_lake" request;
  _handle_lro operation ("lake creation for '" +:+ lake_id +:+ "'").

Definition create_dataplex_lake_handlers : list (handler json) :=
  [ on Catch_InvalidArgument (fun e => ret (error_dict ("Invalid argument: " +:+ e_message e)));
    on Catch_GoogleAPICallError (fun e => ret (error_dict ("API Error creating lake: " +:+ e_message e)));
    on Catch_Exception (fun e => ret (error_dict ("Unexpected error creating lake: " +:+ exc_str e))) ].

Definition create_dataplex_lake (E : env)
    (project_id location lake_id : string) (lake_details : pyval) : M json :=
  try_ (create_dataplex_lake_body E project_id location lake_id lake_details)
       create_dataplex_lake_handlers.

Definition get_dataplex_lake_body (E : env) (project_id location lake_id : string) : M json :=
  run new_client E client_class;
  let name := lake_path project_id location lake_id in
  let request := Request "GetLakeRequest" [("name", name)] None None in
  call_message E "get_lake" request.

Definition get_dataplex_lake_handlers (lake_id : string) : list (handler json) :=
  [ on Catch_NotFound (fun _ => ret (error_dict ("Lake not found: " +:+ lake_id)));
    on Catch_GoogleAPICallError (fun e => ret (error_dict ("API Error getting lake: " +:+ e_message e)));
    on Catch_Exception (fun e => ret (error_dict ("Unexpected error getting lake: " +:+ exc_str e))) ].

Definition get_dataplex_lake (E : env) (project_id location lake_id : string) : M json :=
  try_ (get_dataplex_lake_body E project_id location lake_id)
       (get_dataplex_lake_handlers lake_id).

Definition list_dataplex_lakes_body (E : env) (project_id location filter_str : string) : M json :=
  run new_client E client_class;
  let parent := common_location_path project_id location in
  let request := Request "ListLakesRequest" [("parent", parent); ("filter", filter_str)] None None in
  do pager <- call_pager E "list_lakes" request;
  do lakes_list <- iterate pager;
  ret (JArr lakes_list).

Definition list_dataplex_lakes_handlers : list (handler json) :=
  [ on Catch_GoogleAPICallError (fun e => ret (JArr [error_dict ("API Error listing lakes: " +:+ e_message e)]));
    on Catch_Exception (fun e => ret (error_dict ("Unexpected error listing lakes: " +:+ exc_str e))) ].

Definition list_dataplex_lakes (E : env) (project_id location filter_str : string) : M json :=
  try_ (list_dataplex_lakes_body E project_id location filter_str)
       list_dataplex_lakes_handlers.

Definition update_dataplex_lake_body (E : env) (project_id location lake_id : string)
    (update_mask : list string) (updated_lake_details : pyval) : M json :=
  run new_client E client_class;
  let lake_name := lake_path project_id location lake_id in
  do fields <- kwargs_with_name E "Lake" lake_name updated_lake_details;
  do lake_obj <- new_message E "Lake" fields;
  let request := Request "UpdateLakeRequest" [] (Some lake_obj) (Some update_mask) in
  do operation <- call_operation E "update_lake" request;
  _handle_lro operation ("lake update for '" +:+ lake_id +:+ "'").

Definition update_dataplex_lake_handlers (lake_id : string) : list (handler json) :=
  [ on Catch_NotFound (fun _ => ret (error_dict ("Lake not found for update: " +:+ lake_id)));
    on Catch_InvalidArgument (fun e => ret (error_dict ("Invalid argument: " +:+ e_message e)));
    on Catch_GoogleAPICallError (fun e => ret (error_dict ("API Error updating lake: " +:+ e_message e)));
    on Catch_Exception (fun e => ret (error_dict ("Unexpected error updating lake: " +:+ exc_str e))) ].

Definition update_dataplex_lake (E : env) (project_id location lake_id : string)
    (update_mask : list string) (updated_lake_details : pyval) : M json :=
  try_ (update_dataplex_lake_body E project_id location lake_id update_mask updated_lake_details)
       (update_dataplex_lake_handlers lake_id).

Definition delete_dataplex_lake_body (E : env) (project_id location lake_id : string) : M json :=
  run new_client E client_class;
  let name := lake_path project_id location lake_id in
  let request := Request "DeleteLakeRequest" [("name", name)] None None in
  do operation <- call_operation E "delete_lake" request;
  _handle_lro operation ("lake deletion for '" +:+ lake_id +:+ "'").

Definition delete_dataplex_lake_handlers (lake_id : string) : list (handler json) :=
  [ on Catch_NotFound (fun _ => ret (error_dict ("Lake not found for deletion: " +:+ lake_id)));
    on Catch_GoogleAPICallError (fun e => ret (error_dict ("API Error deleting lake: " +:+ e_message e)));
    on Catch_Exception (fun e => ret (error_dict ("Unexpected error deleting lake: " +:+ exc_str e))) ].

Definition delete_dataplex_lake (E : env) (project_id location lake_id : string) : M json :=
  try_ (delete_dataplex_lake_body E project_id location lake_id)
       (delete_dataplex_lake_handlers lake_id).

(** *** Zones *)

Definition create_dataplex_zone_body (E : env)
    (project_id location lake_id zone_id : string) (zone_details : pyval) : M json :=
  run new_client E client_class;
  let parent := lake_path project_id location lake_id in
  run rename_type zone_details;
  do fields <- py_kwargs zone_details;
  do zone_obj <- new_message E "Zone" fields;
  let request := Request "CreateZoneRequest"
                   [("parent", parent); ("zone_id", zone_id)] (Some zone_obj) None in
  do operation <- call_operation E "create_zone" request;
  _handle_lro operation
    ("zone creation for '" +:+ zone_id +:+ "' in lake '" +:+ lake_id +:+ "'").

Definition create_dataplex_zone_handlers : list (handler json) :=
  [ on Catch_InvalidArgument (fun e => ret (error_dict ("Invalid argument: " +:+ e_message e)));
    on Catch_GoogleAPICallError (fun e => ret (error_dict ("API Error creating zone: " +:+ e_message e)));
    on Catch_Exception (fun e => ret (error_dict ("Unexpected error creating zone: " +:+ exc_str e))) ].

Definition create_dataplex_zone (E : env)
    (project_id location lake_id zone_id : string) (zone_details : pyval) : M json :=
  try_ (create_dataplex_zone_body E project_id location lake_id zone_id zone_details)
       create_dataplex_zone_handlers.

Definition get_dataplex_zone_body (E : env) (project_id location lake_id zone_id : string) : M json :=
  run new_client E client_class;
  let name := zone_path project_id location lake_id zone_id in
  let request := Request "GetZoneRequest" [("name", name)] None None in
  call_message E "get_zone" request.

Definition get_dataplex_zone_handlers (zone_id : string) : list (handler json) :=
  [ on Catch_NotFound (fun _ => ret (error_dict ("Zone not found: " +:+ zone_id)));
    on Catch_GoogleAPICallError (fun e => ret (error_dict ("API Error getting zone: " +:+ e_message e)));
    on Catch_Exception (fun e => ret (error_dict ("Unexpected error getting zone: " +:+ exc_str e))) ].

Definition get_dataplex_zone (E : env) (project_id location lake_id zone_id : string) : M json :=
  try_ (get_dataplex_zone_body E project_id location lake_id zone_id)
       (get_dataplex_zone_handlers zone_id).

Definition list_dataplex_zones_body (E : env)
    (project_id location lake_id filter_str : string) : M json :=
  run new_client E client_class;
  let parent := lake_path project_id location lake_id in
  let request := Request "ListZonesRequest" [("parent", parent); ("filter", filter_str)] None None in
  do pager <- call_pager E "list_zones" request;
  do zones_list <- iterate pager;
  ret (JArr zones_list).

Definition list_dataplex_zones_handlers (lake_id : string) : list (handler json) :=
  [ on Catch_NotFound (fun _ => ret (JArr [error_dict ("Parent lake not found: " +:+ lake_id)]));
    on Catch_GoogleAPICallError (fun e => ret (JArr [error_dict ("API Error listing zones: " +:+ e_message e)]));
    on Catch_Exception (fun e => ret (error_dict ("Unexpected error listing zones: " +:+ exc_str e))) ].

Definition list_dataplex_zones (E : env)
    (project_id location lake_id filter_str : string) : M json :=
  try_ (list_dataplex_zones_body E project_id location lake_id filter_str)
       (list_dataplex_zones_handlers lake_id).

Definition update_dataplex_zone_body (E : env) (project_id location lake_id zone_id : string)
    (update_mask : list string) (updated_zone_details : pyval) : M json :=
  run new_client E client_class;
  let zone_name := zone_path project_id location lake_id zone_id in
  run rename_type updated_zone_details;
  do fields <- kwargs_with_name E "Zone" zone_name updated_zone_details;
  do zone_obj <- new_message E "Zone" fields;
  let request := Request "UpdateZoneRequest" [] (Some zone_obj) (Some update_mask) in
  do operation <- call_operation E "update_zone" request;
  _handle_lro operation ("zone update for '" +:+ zone_id +:+ "'").

Definition update_dataplex_zone_handlers (zone_id : string) : list (handler json) :=
  [ on Catch_NotFound (fun _ => ret (error_dict ("Zone not found for update: " +:+ zone_id)));
    on Catch_InvalidArgument (fun e => ret (error_dict ("Invalid argument: " +:+ e_message e)));
    on Catch_GoogleAPICallError (fun e => ret (error_dict ("API Error updating zone: " +:+ e_message e)));
    on Catch_Exception (fun e => ret (error_dict ("Unexpected error updating zone: " +:+ exc_str e))) ].

Definition update_dataplex_zone (E : env) (project_id location lake_id zone_id : string)
    (update_mask : list string) (updated_zone_details : pyval) : M json :=
  try_ (update_dataplex_zone_body E project_id location lake_id zone_id update_mask
          updated_zone_details)
       (update_dataplex_zone_handlers zone_id).

Definition delete_dataplex_zone_body (E : env) (project_id location lake_id zone_id : string) : M json :=
  run new_client E client_class;
  let name := zone_path project_id location lake_id zone_id in
  let request := Request "DeleteZoneRequest" [("name", name)] None None in
  do operation <- call_operation E "delete_zone" request;
  _handle_lro operation ("zone deletion for '" +:+ zone_id +:+ "'").

Definition delete_dataplex_zone_handlers (zone_id : string) : list (handler json) :=
  [ on Catch_NotFound (fun _ => ret (error_dict ("Zone not found for deletion: " +:+ zone_id)));
    on Catch_GoogleAPICallError (fun e => ret (error_dict ("API Error deleting zone: " +:+ e_message e)));
    on Catch_Exception (fun e => ret (error_dict ("Unexpected error deleting zone: " +:+ exc_str e))) ].

Definition delete_dataplex_zone (E : env) (project_id location lake_id zone_id : string) : M json :=
  try_ (delete_dataplex_zone_body E project_id location lake_id zone_id)
       (delete_dataplex_zone_handlers zone_id).

(** *** Assets *)

Definition create_dataplex_asset_body (E : env)
    (project_id location lake_id zone_id asset_id : string) (asset_details : pyval) : M json :=
  run new_client E client_class;
  let parent := zone_path project_id location lake_id zone_id in
  run rename_nested_type "resource_spec" asset_details;
  do fields <- py_kwargs asset_details;
  do asset_obj <- new_message E "Asset" fields;
  let request := Request "CreateAssetRequest"
                   [("parent", parent); ("asset_id", asset_id)] (Some asset_obj) None in
  do operation <- call_operation E "create_asset" request;
  _handle_lro operation
    ("asset creation for '" +:+ asset_id +:+ "' in zone '" +:+ zone_id +:+ "'").

Definition create_dataplex_asset_handlers : list (handler json) :=
  [ on Catch_InvalidArgument (fun e => ret (error_dict ("Invalid argument: " +:+ e_message e)));
    on Catch_GoogleAPICallError (fun e => ret (error_dict ("API Error creating asset: " +:+ e_message e)));
    on Catch_Exception (fun e => ret (error_dict ("Unexpected error creating asset: " +:+ exc_str e))) ].

Definition create_dataplex_asset (E : env)
    (project_id location lake_id zone_id asset_id : string) (asset_details : pyval) : M json :=
  try_ (create_dataplex_asset_body E project_id location lake_id zone_id asset_id asset_details)
       create_dataplex_asset_handlers.

Definition get_dataplex_asset_body (E : env)
    (project_id location lake_id zone_id asset_id : string) : M json :=
  run new_client E client_class;
  let name := asset_path project_id location lake_id zone_id asset_id in
  let request := Request "GetAssetRequest" [("name", name)] None None in
  call_message E "get_asset" request.

Definition get_dataplex_asset_handlers (asset_id : string) : list (handler json) :=
  [ on Catch_NotFound (fun _ => ret (error_dict ("Asset not found: " +:+ asset_id)));
    on Catch_GoogleAPICallError (fun e => ret (error_dict ("API Error getting asset: " +:+ e_message e)));
    on Catch_Exception (fun e => ret (error_dict ("Unexpected error getting asset: " +:+ exc_str e))) ].

Definition get_dataplex_asset (E : env)
    (project_id location lake_id zone_id asset_id : string) : M json :=
  try_ (get_dataplex_asset_body E project_id location lake_id zone_id asset_id)
       (get_dataplex_asset_handlers asset_id).

Definition list_dataplex_assets_body (E : env)
    (project_id location lake_id zone_id filter_str : string) : M json :=
  run new_client E client_class;
  let parent := zone_path project_id location lake_id zone_id in
  let request := Request "ListAssetsRequest" [("parent", parent); ("filter", filter_str)] None None in
  do pager <- call_pager E "list_assets" request;
  do assets_list <- iterate pager;
  ret (JArr assets_list).

Definition list_dataplex_assets_handlers (zone_id : string) : list (handler json) :=
  [ on Catch_NotFound (fun _ => ret (JArr [error_dict ("Parent zone not found: " +:+ zone_id)]));
    on Catch_GoogleAPICallError (fun e => ret (JArr [error_dict ("API Error listing assets: " +:+ e_message e)]));
    on Catch_Exception (fun e => ret (JArr [error_dict ("Unexpected error listing assets: " +:+ exc_str e)])) ].

Definition list_dataplex_assets (E : env)
    (project_id location lake_id zone_id filter_str : string) : M json :=
  try_ (list_dataplex_assets_body E project_id location lake_id zone_id filter_str)
       (list_dataplex_assets_handlers zone_id).

Definition update_dataplex_asset_body (E : env)
    (project_id location lake_id zone_id asset_id : string)
    (update_mask : list string) (updated_asset_details : pyval) : M json :=
  run new_client E client_class;
  let asset_name := asset_path project_id location lake_id zone_id asset_id in
  run rename_nested_type "resource_spec" updated_asset_details;
  do fields <- kwargs_with_name E "Asset" asset_name updated_asset_details;
  do asset_obj <- new_message E "Asset" fields;
  let request := Request "UpdateAssetRequest" [] (Some asset_obj) (Some update_mask) in
  do operation <- call_operation E "update_asset" request;
  _handle_lro operation ("asset update for '" +:+ asset_id +:+ "'").

Definition update_dataplex_asset_handlers (asset_id : string) : list (handler json) :=
  [ on Catch_NotFound (fun _ => ret (error_dict ("Asset not found for update: " +:+ asset_id)));
    on Catch_InvalidArgument (fun e => ret (error_dict ("Invalid argument: " +:+ e_message e)));
    on Catch_GoogleAPICallError (fun e => ret (error_dict ("API Error updating asset: " +:+ e_message e)));
    on Catch_Exception (fun e => ret (error_dict ("Unexpected error updating asset: " +:+ exc_str e))) ].

Definition update_dataplex_asset (E : env)
    (project_id location lake_id zone_id asset_id : string)
    (update_mask : list string) (updated_asset_details : pyval) : M json :=
  try_ (update_dataplex_asset_body E project_id location lake_id zone_id asset_id update_mask
          updated_asset_details)
       (update_dataplex_asset_handlers asset_id).

Definition delete_dataplex_asset_body (E : env)
    (project_id location lake_id zone_id asset_id : string) : M json :=
  run new_client E client_class;
  let name := asset_path project_id location lake_id zone_id asset_id in
  let request := Request "DeleteAssetRequest" [("name", name)] None None in
  do operation <- call_operation E "delete_asset" request;
  _handle_lro operation ("asset deletion for '" +:+ asset_id +:+ "'").

Definition delete_dataplex_asset_handlers (asset_id : string) : list (handler json) :=
  [ on Catch_NotFound (fun _ => ret (error_dict ("Asset not found for deletion: " +:+ asset_id)));
    on Catch_GoogleAPICallError (fun e => ret (error_dict ("API Error deleting asset: " +:+ e_message e)));
    on Catch_Exception (fun e => ret (error_dict ("Unexpected error deleting asset: " +:+ exc_str e))) ].

Definition delete_dataplex_asset (E : env)
    (project_id location lake_id zone_id asset_id : string) : M json :=
  try_ (delete_dataplex_asset_body E project_id location lake_id zone_id asset_id)
       (delete_dataplex_asset_handlers asset_id).

(** *** Tasks *)

Definition create_dataplex_task_body (E : env)
    (project_id location lake_id task_id : string) (task_details : pyval) : M json :=
  run new_client E client_class;
  let parent := lake_path project_id location lake_id in
  run rename_nested_type "trigger_spec" task_details;
  do fields <- py_kwargs task_details;
  do task_obj <- new_message E "Task" fields;
  let request := Request "CreateTaskRequest"
                   [("parent", parent); ("task_id", task_id)] (Some task_obj) None in
  do operation <- call_operation E "create_task" request;
  _handle_lro operation
    ("task creation for '" +:+ task_id +:+ "' in lake '" +:+ lake_id +:+ "'").

Definition create_dataplex_task_handlers : list (handler json) :=
  [ on Catch_InvalidArgument (fun e => ret (error_dict ("Invalid argument: " +:+ e_message e)));
    on Catch_GoogleAPICallError (fun e => ret (error_dict ("API Error creating task: " +:+ e_message e)));
    on Catch_Exception (fun e => ret (error_dict ("Unexpected error creating task: " +:+ exc_str e))) ].

Definition create_dataplex_task (E : env)
    (project_id location lake_id task_id : string) (task_details : pyval) : M json :=
  try_ (create_dataplex_task_body E project_id location lake_id task_id task_details)
       create_dataplex_task_handlers.

Definition get_dataplex_task_body (E : env) (project_id location lake_id task_id : string) : M json :=
  run new_client E client_class;
  let name := task_path project_id location lake_id task_id in
  let request := Request "GetTaskRequest" [("name", name)] None None in
  call_message E "get_task" request.

Definition get_dataplex_task_handlers (task_id : string) : list (handler json) :=
  [ on Catch_NotFound (fun _ => ret (error_dict ("Task not found: " +:+ task_id)));
    on Catch_GoogleAPICallError (fun e => ret (error_dict ("API Error getting task: " +:+ e_message e)));
    on Catch_Exception (fun e => ret (error_dict ("Unexpected error getting task: " +:+ exc_str e))) ].

Definition get_dataplex_task (E : env) (project_id location lake_id task_id : string) : M json :=
  try_ (get_dataplex_task_body E project_id location lake_id task_id)
       (get_dataplex_task_handlers task_id).

Definition list_dataplex_tasks_body (E : env)
    (project_id location lake_id filter_str : string) : M json :=
  run new_client E client_class;
  let parent := lake_path project_id location lake_id in
  let request := Request "ListTasksRequest" [("parent", parent); ("filter", filter_str)] None None in
  do pager <- call_pager E "list_tasks" request;
  do tasks_list <- iterate pager;
  ret (JArr tasks_list).

Definition list_dataplex_tasks_handlers (lake_id : string) : list (handler json) :=
  [ on Catch_NotFound (fun _ => ret (JArr [error_dict ("Parent lake not found: " +:+ lake_id)]));
    on Catch_GoogleAPICallError (fun e => ret (JArr [error_dict ("API Error listing tasks: " +:+ e_message e)]));
    on Catch_Exception (fun e => ret (JArr [error_dict ("Unexpected error listing tasks: " +:+ exc_str e)])) ].

Definition list_dataplex_tasks (E : env)
    (project_id location lake_id filter_str : string) : M json :=
  try_ (list_dataplex_tasks_body E project_id location lake_id filter_str)
       (list_dataplex_tasks_handlers lake_id).

Definition update_dataplex_task_body (E : env) (project_id location lake_id task_id : string)
    (update_mask : list string) (updated_task_details : pyval) : M json :=
  run new_client E client_class;
  let task_name := task_path project_id location lake_id task_id in
  run rename_nested_type "trigger_spec" updated_task_details;
  do fields <- kwargs_with_name E "Task" task_name updated_task_details;
  do task_obj <- new_message E "Task" fields;
  let request := Request "UpdateTaskRequest" [] (Some task_obj) (Some update_mask) in
  do operation <- call_operation E "update_task" request;
  _handle_lro operation ("task update for '" +:+ task_id +:+ "'").

Definition update_dataplex_task_handlers (task_id : string) : list (handler json) :=
  [ on Catch_NotFound (fun _ => ret (error_dict ("Task not found for update: " +:+ task_id)));
    on Catch_InvalidArgument (fun e => ret (error_dict ("Invalid argument: " +:+ e_message e)));
    on Catch_GoogleAPICallError (fun e => ret (error_dict ("API Error updating task: " +:+ e_message e)));
    on Catch_Exception (fun e => ret (error_dict ("Unexpected error updating task: " +:+ exc_str e))) ].

Definition update_dataplex_task (E : env) (project_id location lake_id task_id : string)
    (update_mask : list string) (updated_task_details : pyval) : M json :=
  try_ (update_dataplex_task_body E project_id location lake_id task_id update_mask
          updated_task_details)
       (update_dataplex_task_handlers task_id).

Definition delete_dataplex_task_body (E : env) (project_id location lake_id task_id : string) : M json :=
  run new_client E client_class;
  let name := task_path project_id location lake_id task_id in
  let request := Request "DeleteTaskRequest" [("name", name)] None None in
  do operation <- call_operation E "delete_task" request;
  _handle_lro operation ("task deletion for '" +:+ task_id +:+ "'").

Definition delete_dataplex_task_handlers (task_id : string) : list (handler json) :=
  [ on Catch_NotFound (fun _ => ret (error_dict ("Task not found for deletion: " +:+ task_id)));
    on Catch_GoogleAPICallError (fun e => ret (error_dict ("API Error deleting task: " +:+ e_message e)));
    on Catch_Exception (fun e => ret (error_dict ("Unexpected error deleting task: " +:+ exc_str e))) ].

Definition delete_dataplex_task (E : env) (project_id location lake_id task_id : string) : M json :=
  try_ (delete_dataplex_task_body E project_id location lake_id task_id)
       (delete_dataplex_task_handlers task_id).

(** [run_task] answers with a response whose [job] field is handed back. *)
Definition run_dataplex_task_body (E : env) (project_id location lake_id task_id : string) : M json :=
  run new_client E client_class;
  let name := task_path project_id location lake_id task_id in
  let request := Request "RunTaskRequest" [("name", name)] None None in
  do job_dict <- call_message E "run_task" request;
  ret (JObj [("status", JStr "started"); ("job", job_dict)]).

Definition run_dataplex_task_handlers (task_id : string) : list (handler json) :=
  [ on Catch_NotFound (fun _ => ret (error_dict ("Task not found for run: " +:+ task_id)));
    on Catch_GoogleAPICallError (fun e => ret (error_dict ("API Error running task: " +:+ e_message e)));
    on Catch_Exception (fun e => ret (error_dict ("Unexpected error running task: " +:+ exc_str e))) ].

Definition run_dataplex_task (E : env) (project_id location lake_id task_id : string) : M json :=
  try_ (run_dataplex_task_body E project_id location lake_id task_id)
       (run_dataplex_task_handlers task_id).

(** *** Jobs *)

Definition get_dataplex_job_body (E : env)
    (project_id location lake_id task_id job_id : string) : M json :=
  run new_client E client_class;
  let name := job_path project_id location lake_id task_id job_id in
  let request := Request "GetJobRequest" [("name", name)] None None in
  call_message E "get_job" request.

Definition get_dataplex_job_handlers (job_id : string) : list (handler json) :=
  [ on Catch_NotFound (fun _ => ret (error_dict ("Job not found: " +:+ job_id)));
    on Catch_GoogleAPICallError (fun e => ret (error_dict ("API Error getting job: " +:+ e_message e)));
    on Catch_Exception (fun e => ret (error_dict ("Unexpected error getting job: " +:+ exc_str e))) ].

Definition get_dataplex_job (E : env)
    (project_id location lake_id task_id job_id : string) : M json :=
  try_ (get_dataplex_job_body E project_id location lake_id task_id job_id)
       (get_dataplex_job_handlers job_id).

Definition list_dataplex_jobs_body (E : env) (project_id location lake_id task_id : string) : M json :=
  run new_client E client_class;
  let parent := task_path project_id location lake_id task_id in
  let request := Request "ListJobsRequest" [("parent", parent)] None None in
  do pager <- call_pager E "list_jobs" request;
  do jobs_list <- iterate pager;
  ret (JArr jobs_list).

Definition list_dataplex_jobs_handlers (task_id : string) : list (handler json) :=
  [ on Catch_NotFound (fun _ => ret (JArr [error_dict ("Parent task not found: " +:+ task_id)]));
    on Catch_GoogleAPICallError (fun e => ret (JArr [error_dict ("API Error listing jobs: " +:+ e_message e)]));
    on Catch_Exception (fun e => ret (JArr [error_dict ("Unexpected error listing jobs: " +:+ exc_str e)])) ].

Definition list_dataplex_jobs (E : env) (project_id location lake_id task_id : string) : M json :=
  try_ (list_dataplex_jobs_body E project_id location lake_id task_id)
       (list_dataplex_jobs_handlers task_id).

Definition cancel_dataplex_job_body (E : env)
    (project_id location lake_id task_id job_id : string) : M json :=
  run new_client E client_class;
  let name := job_path project_id location lake_id task_id job_id in
  let request := Request "CancelJobRequest" [("name", name)] None None in
  run call_empty E "cancel_job" request;
  ret (JObj [("status", JStr "cancellation_requested")]).

(** The result for a job that is already done, and the generic one. *)
Definition terminal_state_result (job_id : string) : json :=
  error_dict ("Job " +:+ job_id +:+ " is already in a terminal state.").

Definition cancel_api_error_result (e : exc) : json :=
  error_dict ("API Error cancelling job: " +:+ e_message e).

(** [e.code == 400 and ("invalid state" in str(e).lower()
                        or "terminal state" in str(e).lower())] *)
Definition already_terminal (e : exc) : bool :=
  bool_decide (e_code e = Some 400) &&
  (contains "invalid state" (lower (exc_str e)) ||
   contains "terminal state" (lower (exc_str e))).

Definition cancel_dataplex_job_handlers (job_id : string) : list (handler json) :=
  [ on Catch_NotFound (fun _ => ret (error_dict ("Job not found for cancellation: " +:+ job_id)));
    on Catch_GoogleAPICallError (fun e =>
      if already_terminal e then ret (terminal_state_result job_id)
      else ret (cancel_api_error_result e));
    on Catch_Exception (fun e => ret (error_dict ("Unexpected error cancelling job: " +:+ exc_str e))) ].

Definition cancel_dataplex_job (E : env)
    (project_id location lake_id task_id job_id : string) : M json :=
  try_ (cancel_dataplex_job_body E project_id location lake_id task_id job_id)
       (cancel_dataplex_job_handlers job_id).

End Dataplex.

(** ** catalog_service_tools.py *)

Module Catalog.
Import Py Gapic.

(** [search_dataplex_catalog].  The guard and the client construction stand
    before the [try]; both handlers answer with the empty list.  Inside the
    [try] the method [search_resources] is looked up on the client first:
    where the client class does not have it, the [AttributeError] of the
    lookup ends the body before any request.  The per-entry enum
    conversions of the loop are part of the iteration: a failure of one
    shows as the error of the pager. *)
Definition search_dataplex_catalog (E : env) (project_id location_id query : string) : M json :=
  if negb (forallb (fun s => negb (String.eqb s "")) [project_id; location_id; query]) then
    raise (Exc ValueError "project_id, location_id, and query must be provided." "")
  else
    let scope := "projects/" +:+ project_id +:+ "/locations/" +:+ location_id in
    run new_client E "MetadataServiceClient";
    try_
      (run (if has_method E "MetadataServiceClient" "search_resources" then ret tt
            else raise (attribute_error
                          "'MetadataServiceClient' object has no attribute 'search_resources'"));
       let request := Request "search_resources" [("name", scope); ("query", query)] None None in
       do pager <- call_pager E "search_resources" request;
       do found_entries <- iterate pager;
       ret (JArr found_entries))
      [ on Catch_GoogleAPIError (fun _ => ret (JArr []));
        on Catch_Exception (fun _ => ret (JArr [])) ].

End Catalog.

(** ** dataproc-agent: common_tools.py and cluster_controller_tools.py *)

Module Dataproc.
Import Py Gapic.

(** *** Module-level names *)

Inductive binding :=
| BModule
| BClass
| BFunction
| BValue (v : pyval).

(** The names bound in common_tools.py once it is imported: its six import
    lines and its six [def]s.  [job_client] is assigned only inside
    [initialize_clients], as a local. *)
Definition common_tools_globals : gmap string binding :=
  list_to_map
    [ ("uuid", BModule); ("dataproc", BModule);
      ("NotFound", BClass); ("GoogleAPICallError", BClass);
      ("Duration", BClass);
      ("Optional", BClass); ("List", BClass); ("Dict", BClass);
      ("MessageToDict", BFunction);
      ("initialize_clients", BFunction);
      ("_parse_cluster_response", BFunction);
      ("_parse_job_response", BFunction);
      ("submit_dataproc_job", BFunction);
      ("get_current_time", BFunction);
      ("get_lichess_rating", BFunction) ].

(** The same names with [job_client] bound to a client, as the docstring
    of submit_dataproc_job assumes. *)
Definition globals_with_job_client : gmap string binding :=
  <["job_client" := BValue (VBool true)]> common_tools_globals.

(** Reading a global that is not a builtin. *)
Definition load_global (G : gmap string binding) (n : string) : M binding :=
  match G !! n with
  | Some b => ret b
  | None => raise (name_error n)
  end.

Definition binding_truthy (b : binding) : M bool :=
  match b with
  | BValue v => py_truthy v
  | _ => ret true
  end.

(** An [except] clause whose class is a global of the module ([Some n]) or
    the builtin [Exception] ([None]).  The class expression is evaluated
    when the clause is reached. *)
Fixpoint dispatch_named {A} (G : gmap string binding)
    (hs : list (option string * handler A)) (e : exc) : M A :=
  match hs with
  | [] => raise e
  | (n, (c, h)) :: hs' =>
      run (match n with
           | Some x => run load_global G x; ret tt
           | None => ret tt
           end);
      if isinstance e c then h e else dispatch_named G hs' e
  end.

Definition try_named {A} (G : gmap string binding) (body : M A)
    (hs : list (option string * handler A)) : M A :=
  fun w =>
    match body w with
    | (Return a, w') => (Return a, w')
    | (Raise e, w') => dispatch_named G hs e w'
    end.

(** *** submit_dataproc_job *)

Definition supported_job_fields : list string :=
  [ "hadoop_job"; "spark_job"; "pyspark_job"; "hive_job"; "pig_job";
    "spark_r_job"; "spark_sql_job"; "presto_job"; "trino_job" ].

(** [f.replace('_job', '')] on the entries of the list above. *)
Definition supported_types_str : string :=
  join ", " [ "hadoop"; "spark"; "pyspark"; "hive"; "pig";
              "spark_r"; "spark_sql"; "presto"; "trino" ].

(** [isinstance(v, dict)] and the printed [type(v)]. *)
Definition dict_of (v : pyval) : M (option (gmap string pyval)) :=
  match v with
  | VRef l =>
      do h <- get_heap;
      match h !! l with
      | Some (ODict d) => ret (Some d)
      | Some (OList _) => ret None
      | None => raise dangling
      end
  | _ => ret None
  end.

Definition type_repr (v : pyval) : string :=
  match v with
  | VNone => "<class 'NoneType'>"
  | VBool _ => "<class 'bool'>"
  | VInt _ => "<class 'int'>"
  | VStr _ => "<class 'str'>"
  | VRef _ => "<class 'list'>"
  end.

Definition in_dict (k : string) (d : gmap string pyval) : bool :=
  bool_decide (is_Some (d !! k)).

(** The three required-key checks; [Some msg] is the error returned. *)
Definition check_job_details (job_type job_type_field : string)
    (d : gmap string pyval) : M (option string) :=
  if String.eqb job_type_field "pyspark_job" && negb (in_dict "main_python_file_uri" d) then
    ret (Some "Missing required key 'main_python_file_uri' in job_details for pyspark job.")
  else if String.eqb job_type_field "spark_job"
          && negb (in_dict "main_class" d || in_dict "main_jar_file_uri" d) then
    ret (Some "Missing required key 'main_class' or 'main_jar_file_uri' in job_details for spark job.")
  else if existsb (String.eqb job_type_field) ["hive_job"; "pig_job"; "spark_sql_job"] then
    do has_queries <-
      (if in_dict "query_file_uri" d then ret true
       else match d !! "query_list" with
            | Some q => py_truthy q
            | None => ret false
            end);
    if has_queries then ret None
    else ret (Some ("Missing required key 'query_file_uri' or non-empty 'query_list' in job_details for "
                    +:+ job_type +:+ " job."))
  else ret None.

Definition submit_dataproc_job (G : gmap string binding) (E : env)
    (project_id region cluster_name job_type : string) (job_details : pyval)
    (job_id_prefix : string) (labels : pyval) : M json :=
  do job_client <- load_global G "job_client";
  do initialized <- binding_truthy job_client;
  if negb initialized then ret (error_dict "Dataproc job client not initialized.")
  else
    run load_global G "uuid";
    let job_uuid := take_prefix 8 (uuid4 E) in
    let job_type_cleaned := replace_char "-" "_" (str_lower (unicode_lower E) job_type) in
    let job_id := job_id_prefix +:+ "-" +:+ job_type_cleaned +:+ "-" +:+ job_uuid in
    do with_labels <- py_truthy labels;
    let job_type_field := job_type_cleaned +:+ "_job" in
    if negb (existsb (String.eqb job_type_field) supported_job_fields) then
      ret (error_dict ("Unsupported job_type: '" +:+ job_type +:+ "'. " +:+
                       "Cleaned type '" +:+ job_type_field +:+ "' is invalid. " +:+
                       "Supported types derive from: " +:+ supported_types_str +:+ "."))
    else
      do details <- dict_of job_details;
      match details with
      | None =>
          ret (error_dict ("job_details must be a dictionary, got " +:+ type_repr job_details +:+ "."))
      | Some d =>
          do missing <- check_job_details job_type job_type_field d;
          match missing with
          | Some msg => ret (error_dict msg)
          | None =>
              let job_fields : gmap string pyval :=
                <[job_type_field := job_details]>
                  (if with_labels then {["labels" := labels]} else ∅) in
              try_named G
                (run load_global G "dataproc";
                 do job <- new_message E "Job" job_fields;
                 let request := Request "SubmitJobRequest"
                                  [("project_id", project_id); ("region", region);
                                   ("job.placement.cluster_name", cluster_name);
                                   ("job.reference.job_id", job_id)]
                                  (Some job) None in
                 do submitted_job <- call_job E "submit_job" request;
                 do type_case_name <- lift (sj_type_case submitted_job);
                 ret (JObj [("message", JStr (str_capitalize (unicode_capitalize E) job_type +:+
                                              " job '" +:+ sj_job_id submitted_job +:+
                                              "' submitted successfully."));
                            ("job_id", JStr (sj_job_id submitted_job));
                            ("status", JStr (sj_state submitted_job));
                            ("cluster_name", JStr (sj_cluster_name submitted_job));
                            ("submitted_job_type", JStr type_case_name)]))
                [ (Some "InvalidArgument",
                   on Catch_InvalidArgument (fun e =>
                     ret (error_dict ("InvalidArgument submitting job: " +:+ e_message e +:+
                                      ". Review the structure of 'job_details' for '" +:+
                                      job_type +:+ "'."))));
                  (Some "GoogleAPICallError",
                   on Catch_GoogleAPICallError (fun e =>
                     ret (error_dict ("API Error submitting job: " +:+ e_message e))));
                  (None,
                   on Catch_Exception (fun e =>
                     ret (error_dict ("Unexpected error submitting job: " +:+ exc_str e)))) ]
          end
      end.

(** *** get_lichess_rating *)

Fixpoint assoc (k : string) (kvs : list (string * json)) : option json :=
  match kvs with
  | [] => None
  | (k', v) :: kvs' => if String.eqb k' k then Some v else assoc k kvs'
  end.

(** [j[k]] for a string key. *)
Definition json_getitem (j : json) (k : string) : M json :=
  match j with
  | JObj kvs =>
      match assoc k kvs with
      | Some v => ret v
      | None => raise (key_error k)
      end
  | JArr _ => raise (type_error "list indices must be integers or slices, not str")
  | JStr _ => raise (type_error "string indices must be integers, not 'str'")
  | _ => raise (type_error "object is not subscriptable")
  end.

(** [xs[i]] for an integer index, negative ones counting from the end. *)
Definition list_index (xs : list json) (i : Z) : M json :=
  let n := Z.of_nat (length xs) in
  let j := if i <? 0 then n + i else i in
  if (0 <=? j) && (j <? n) then
    match xs !! Z.to_nat j with
    | Some x => ret x
    | None => raise (Exc OtherException "list index out of range" "")
    end
  else raise (Exc OtherException "list index out of range" "").

(** [v.get('rating')]: only a dictionary has the method. *)
Definition json_get_rating (v : json) : M unit :=
  match v with
  | JObj _ => ret tt
  | _ => raise (attribute_error "object has no attribute 'get'")
  end.

Fixpoint for_each {A} (f : A -> M unit) (xs : list A) : M unit :=
  match xs with
  | [] => ret tt
  | x :: xs' => run f x; for_each f xs'
  end.

(** [for k in user_perfs: rating = user_perfs[k].get('rating')] *)
Definition perfs_loop (user_perfs : json) : M unit :=
  match user_perfs with
  | JObj kvs =>
      for_each (fun kv => do v <- json_getitem user_perfs (fst kv); json_get_rating v) kvs
  | JArr xs =>
      for_each (fun k =>
                  match k with
                  | JNum i => do v <- list_index xs i; json_get_rating v
                  | JBool b => do v <- list_index xs (if b then 1 else 0); json_get_rating v
                  | _ => raise (type_error "list indices must be integers or slices")
                  end) xs
  | JStr s =>
      if String.eqb s "" then ret tt
      else raise (type_error "string indices must be integers, not 'str'")
  | _ => raise (type_error "object is not iterable")
  end.

Definition get_lichess_rating (E : env) (username : string) : M json :=
  let url := "http://en.lichess.org/api/user/" +:+ username in
  run log (EvCall "urlopen" (Request "GET" [("url", url)] None None));
  do user_json <- lift (urlopen_read E url);
  do parsed <- lift (json_loads E user_json);
  do user_perfs <- json_getitem parsed "perfs";
  run perfs_loop user_perfs;
  ret user_perfs.

(** *** cluster_controller_tools.py *)

Definition async_client_class : string := "ClusterControllerAsyncClient".

(** The answer of the three tools below.  Before it they print
    [operation.metadata.operation_type], inside the [try]: that read is the
    [lift (op_operation_type operation)] of their bodies. *)
Definition lro_result (status : string) (operation : operation) : json :=
  JObj [("status", JStr status);
        ("operation_name", JStr (op_name operation));
        ("metadata", JStr (op_metadata operation))].

Definition create_dataproc_cluster_async_body (E : env)
    (project_id region cluster_name : string) (cluster_config : pyval) : M json :=
  run new_client E async_client_class;
  do h <- get_heap;
  let cluster := Message "Cluster"
                   (<["project_id" := VStr project_id]>
                      (<["cluster_name" := VStr cluster_name]> {["config" := cluster_config]})) h in
  let request := Request "CreateClusterRequest"
                   [("project_id", project_id); ("region", region)] (Some cluster) None in
  do operation <- call_operation E "create_cluster" request;
  run lift (op_operation_type operation);
  ret (lro_result "creating" operation).

Definition create_dataproc_cluster_async_handlers : list (handler json) :=
  [ on Catch_GoogleAPICallError (fun e => ret (error_dict ("API Error creating cluster async: " +:+ e_message e)));
    on Catch_Exception (fun e => ret (error_dict ("Unexpected error creating cluster async: " +:+ exc_str e))) ].

Definition create_dataproc_cluster_async (E : env)
    (project_id region cluster_name : string) (cluster_config : pyval) : M json :=
  try_ (create_dataproc_cluster_async_body E project_id region cluster_name cluster_config)
       create_dataproc_cluster_async_handlers.

Definition get_dataproc_cluster_async_body (E : env)
    (project_id region cluster_name : string) : M json :=
  run new_client E async_client_class;
  let request := Request "GetClusterRequest"
                   [("project_id", project_id); ("region", region);
                    ("cluster_name", cluster_name)] None None in
  call_message E "get_cluster" request.

Definition get_dataproc_cluster_async_handlers (cluster_name : string) : list (handler json) :=
  [ on Catch_NotFound (fun _ => ret (error_dict ("Cluster not found async: " +:+ cluster_name)));
    on Catch_GoogleAPICallError (fun e => ret (error_dict ("API Error getting cluster async: " +:+ e_message e)));
    on Catch_Exception (fun e => ret (error_dict ("Unexpected error getting cluster async: " +:+ exc_str e))) ].

Definition get_dataproc_cluster_async (E : env)
    (project_id region cluster_name : string) : M json :=
  try_ (get_dataproc_cluster_async_body E project_id region cluster_name)
       (get_dataproc_cluster_async_handlers cluster_name).

(** The messages of the two [TypeError]s of the async protocols. *)
Definition aiter_message : string :=
  "'async for' requires an object with __aiter__ method, got coroutine".

Definition await_message : string :=
  "object ListClustersAsyncPager can't be used in 'await' expression".

(** [async for x in obj]: the object must have [__aiter__]. *)
Definition aiter_listing (E : env) (n : nat) (rq : request) : M pager :=
  match async_list_clusters E n rq with
  | Coroutine _ =>
      raise (type_error aiter_message)
  | AsyncPager p | AwaitableAsyncPager _ p =>
      run log (EvCall "list_clusters" rq); ret p
  end.

(** [await obj]: the object must be awaitable; a coroutine runs only now. *)
Definition await_listing (E : env) (n : nat) (rq : request) : M pager :=
  match async_list_clusters E n rq with
  | Coroutine r | AwaitableAsyncPager r _ =>
      run log (EvCall "list_clusters" rq); lift r
  | AsyncPager _ =>
      raise (type_error await_message)
  end.

(** The body of the outer [async for]: for every element of the outer
    listing the request is issued again, awaited, and the whole inner
    listing is appended.  [k] counts the evaluations of [list_clusters]. *)
Fixpoint nested_listing (E : env) (rq : request) (k : nat)
    (outer : list json) (clusters_list : list json) : M (list json) :=
  match outer with
  | [] => ret clusters_list
  | _ :: outer' =>
      do cluster_iterator <- await_listing E (S k) rq;
      do inner <- iterate cluster_iterator;
      nested_listing E rq (S k) outer' (clusters_list ++ inner)
  end.

Definition list_clusters_request (project_id region filter_str : string) : request :=
  Request "ListClustersRequest"
    ([("project_id", project_id); ("region", region)] ++
     (if String.eqb filter_str "" then [] else [("filter", filter_str)]))
    None None.

Definition list_dataproc_clusters_async_body (E : env)
    (project_id region filter_str : string) : M json :=
  run new_client E async_client_class;
  let request := list_clusters_request project_id region filter_str in
  do outer <- aiter_listing E 0 request;
  do clusters_list <- nested_listing E request 0 (pg_items outer) [];
  run (match pg_error outer with
       | Some e => raise e
       | None => ret tt
       end);
  ret (JArr clusters_list).

(** The answer of the last [except] clause for an exception printing as
    [msg]. *)
Definition async_listing_error (msg : string) : json :=
  JArr [error_dict ("Unexpected error listing clusters async: " +:+ msg)].

Definition list_dataproc_clusters_async_handlers : list (handler json) :=
  [ on Catch_GoogleAPICallError (fun e => ret (JArr [error_dict ("API Error listing clusters async: " +:+ e_message e)]));
    on Catch_Exception (fun e => ret (JArr [error_dict ("Unexpected error listing clusters async: " +:+ exc_str e)])) ].

Definition list_dataproc_clusters_async (E : env)
    (project_id region filter_str : string) : M json :=
  try_ (list_dataproc_clusters_async_body E project_id region filter_str)
       list_dataproc_clusters_async_handlers.

Definition update_dataproc_cluster_async_body (E : env)
    (project_id region cluster_name : string) (update_mask : list string)
    (updated_cluster_config : pyval) : M json :=
  run new_client E async_client_class;
  do h <- get_heap;
  let cluster_update_data := Message "Cluster" {["config" := updated_cluster_config]} h in
  let request := Request "UpdateClusterRequest"
                   [("project_id", project_id); ("region", region);
                    ("cluster_name", cluster_name)]
                   (Some cluster_update_data) (Some update_mask) in
  do operation <- call_operation E "update_cluster" request;
  run lift (op_operation_type operation);
  ret (lro_result "updating" operation).

Definition update_dataproc_cluster_async_handlers (cluster_name : string) : list (handler json) :=
  [ on Catch_NotFound (fun _ => ret (error_dict ("Cluster not found for async update: " +:+ cluster_name)));
    on Catch_GoogleAPICallError (fun e => ret (error_dict ("API Error updating cluster async: " +:+ e_message e)));
    on Catch_Exception (fun e => ret (error_dict ("Unexpected error updating cluster async: " +:+ exc_str e))) ].

Definition update_dataproc_cluster_async (E : env)
    (project_id region cluster_name : string) (update_mask : list string)
    (updated_cluster_config : pyval) : M json :=
  try_ (update_dataproc_cluster_async_body E project_id region cluster_name update_mask
          updated_cluster_config)
       (update_dataproc_cluster_async_handlers cluster_name).

Definition delete_dataproc_cluster_async_body (E : env)
    (project_id region cluster_name : string) : M json :=
  run new_client E async_client_class;
  let request := Request "DeleteClusterRequest"
                   [("project_id", project_id); ("region", region);
                    ("cluster_name", cluster_name)] None None in
  do operation <- call_operation E "delete_cluster" request;
  run lift (op_operation_type operation);
  ret (lro_result "deleting" operation).

Definition delete_dataproc_cluster_async_handlers (cluster_name : string) : list (handler json) :=
  [ on Catch_NotFound (fun _ => ret (error_dict ("Cluster not found for async deletion: " +:+ cluster_name)));
    on Catch_GoogleAPICallError (fun e => ret (error_dict ("API Error deleting cluster async: " +:+ e_message e)));
    on Catch_Exception (fun e => ret (error_dict ("Unexpected error deleting cluster async: " +:+ exc_str e))) ].

Definition delete_dataproc_cluster_async (E : env)
    (project_id region cluster_name : string) : M json :=
  try_ (delete_dataproc_cluster_async_body E project_id region cluster_name)
       (delete_dataproc_cluster_async_handlers cluster_name).

(** [initialize_clients]: [true] when both clients were built, [false] for
    the pair [(None, None)]. *)
Definition initialize_clients (E : env) : M bool :=
  try_ (run new_client E "ClusterControllerClient";
        run new_client E "JobControllerClient";
        ret true)
       [ on Catch_Exception (fun _ => ret false) ].

Definition list_dataproc_clusters_body (E : env) (project_id region : string) : M json :=
  let request := Request "ListClustersRequest"
                   [("project_id", project_id); ("region", region)] None None in
  do pager <- call_pager E "list_clusters" request;
  do clusters <- iterate pager;
  ret (JArr clusters).

Definition list_dataproc_clusters_handlers : list (handler json) :=
  [ on Catch_GoogleAPICallError (fun e => ret (JArr [error_dict ("API Error listing clusters: " +:+ e_message e)]));
    on Catch_Exception (fun e => ret (JArr [error_dict ("Unexpected error listing clusters: " +:+ exc_str e)])) ].

Definition list_dataproc_clusters (E : env) (project_id region : string) : M json :=
  do cluster_client <- initialize_clients E;
  if negb cluster_client then
    ret (JArr [error_dict "Dataproc cluster client not initialized."])
  else
    try_ (list_dataproc_clusters_body E project_id region)
         list_dataproc_clusters_handlers.

End Dataproc.

(** ** common_tools.py: the helpers shared by the two agents *)

Module Common.
Import Py Gapic.

(** The names bound in dataplex-agent/utils/common_tools.py: the same six
    import lines, and the [def]s of that file. *)
Definition dataplex_common_globals : gmap string Dataproc.binding :=
  list_to_map
    [ ("uuid", Dataproc.BModule); ("dataproc", Dataproc.BModule);
      ("NotFound", Dataproc.BClass); ("GoogleAPICallError", Dataproc.BClass);
      ("Duration", Dataproc.BClass);
      ("Optional", Dataproc.BClass); ("List", Dataproc.BClass); ("Dict", Dataproc.BClass);
      ("MessageToDict", Dataproc.BFunction);
      ("initialize_clients", Dataproc.BFunction);
      ("_parse_cluster_response", Dataproc.BFunction);
      ("_parse_job_response", Dataproc.BFunction);
      ("get_current_time", Dataproc.BFunction);
      ("get_lichess_rating", Dataproc.BFunction) ].

(** [get_current_time].  [now] stands for what
    [datetime.datetime.now(tz).strftime(...)] prints. *)
Definition get_current_time (G : gmap string Dataproc.binding) (now query : string) : M string :=
  if contains "sf" (lower query) || contains "san francisco" (lower query) then
    let tz_identifier := "America/Los_Angeles" in
    run Dataproc.load_global G "ZoneInfo";
    run Dataproc.load_global G "datetime";
    ret ("The current time for query " +:+ query +:+ " is " +:+ now)
  else
    ret ("Sorry, I don't have timezone information for query: " +:+ query +:+ ".").

Fixpoint has_slash (s : string) : bool :=
  match s with
  | EmptyString => false
  | String c s' => Ascii.eqb c "/" || has_slash s'
  end.

(** [s.split('/')[-1]]: what follows the last slash, or all of [s]. *)
Fixpoint last_segment (s : string) : string :=
  match s with
  | EmptyString => EmptyString
  | String c s' =>
      if has_slash s' then last_segment s'
      else if Ascii.eqb c "/" then s' else String c s'
  end.

(** [uri.split('/')[-1] if uri else None] *)
Definition uri_tail (uri : string) : json :=
  if String.eqb uri "" then JNull else JStr (last_segment uri).

(** The attributes [_parse_cluster_response] reads from a cluster.  The two
    optional ones are what the guards of the source decide:
    [hasattr(cluster.status, 'creation_time')] and the presence of
    ['Web UI'] among the HTTP ports. *)
Record cluster := Cluster {
  cluster_name : string;
  status_state_name : string;
  cluster_uuid : string;
  project_id : string;
  zone_uri : string;
  image_version : string;
  master_num_instances : Z;
  master_machine_type_uri : string;
  worker_num_instances : Z;
  worker_machine_type_uri : string;
  creation_time_rfc3339 : option string;
  web_ui_port : option string
}.

Definition optional_str (o : option string) : json :=
  match o with
  | Some s => JStr s
  | None => JNull
  end.

(** [_parse_cluster_response]; [None] is a falsy argument. *)
Definition _parse_cluster_response (c : option cluster) : json :=
  match c with
  | None => JObj []
  | Some cluster =>
      JObj [ ("name", JStr (cluster_name cluster));
             ("status", JStr (status_state_name cluster));
             ("uuid", JStr (cluster_uuid cluster));
             ("project_id", JStr (project_id cluster));
             ("zone", uri_tail (zone_uri cluster));
             ("image_version", JStr (image_version cluster));
             ("master_nodes", JNum (master_num_instances cluster));
             ("master_machine_type", uri_tail (master_machine_type_uri cluster));
             ("worker_nodes", JNum (worker_num_instances cluster));
             ("worker_machine_type", uri_tail (worker_machine_type_uri cluster));
             ("creation_timestamp", optional_str (creation_time_rfc3339 cluster));
             ("endpoint_uri", optional_str (web_ui_port cluster)) ]
  end.

End Common.

(** ** The tools registered with the two agents (agent.py) *)

Module Agent.
Import Py Gapic.

(** One constructor per registered tool, with its arguments. *)
Inductive tool_call :=
| Create_dataplex_lake (project_id location lake_id : string) (lake_details : pyval)
| Get_dataplex_lake (project_id location lake_id : string)
| List_dataplex_lakes (project_id location filter_str : string)
| Update_dataplex_lake (project_id location lake_id : string)
    (update_mask : list string) (updated_lake_details : pyval)
| Delete_dataplex_lake (project_id location lake_id : string)
| Create_dataplex_zone (project_id location lake_id zone_id : string) (zone_details : pyval)
| Get_dataplex_zone (project_id location lake_id zone_id : string)
| List_dataplex_zones (project_id location lake_id filter_str : string)
| Update_dataplex_zone (project_id location lake_id zone_id : string)
    (update_mask : list string) (updated_zone_details : pyval)
| Delete_dataplex_zone (project_id location lake_id zone_id : string)
| Create_dataplex_asset (project_id location lake_id zone_id asset_id : string)
    (asset_details : pyval)
| Get_dataplex_asset (project_id location lake_id zone_id asset_id : string)
| List_dataplex_assets (project_id location lake_id zone_id filter_str : string)
| Update_dataplex_asset (project_id location lake_id zone_id asset_id : string)
    (update_mask : list string) (updated_asset_details : pyval)
| Delete_dataplex_asset (project_id location lake_id zone_id asset_id : string)
| Create_dataplex_task (project_id location lake_id task_id : string) (task_details : pyval)
| Get_dataplex_task (project_id location lake_id task_id : string)
| List_dataplex_tasks (project_id location lake_id filter_str : string)
| Update_dataplex_task (project_id location lake_id task_id : string)
    (update_mask : list string) (updated_task_details : pyval)
| Delete_dataplex_task (project_id location lake_id task_id : string)
| Run_dataplex_task (project_id location lake_id task_id : string)
| Get_dataplex_job (project_id location lake_id task_id job_id : string)
| List_dataplex_jobs (project_id location lake_id task_id : string)
| Cancel_dataplex_job (project_id location lake_id task_id job_id : string)
| List_dataproc_clusters (project_id region : string)
| Create_dataproc_cluster_async (project_id region cluster_name : string)
    (cluster_config : pyval)
| Get_dataproc_cluster_async (project_id region cluster_name : string)
| List_dataproc_clusters_async (project_id region filter_str : string)
| Update_dataproc_cluster_async (project_id region cluster_name : string)
    (update_mask : list string) (updated_cluster_config : pyval)
| Delete_dataproc_cluster_async (project_id region cluster_name : string).

(** The tool as written. *)
Definition run_tool (E : env) (c : tool_call) : M json :=
  match c with
  | Create_dataplex_lake p l k d => Dataplex.create_dataplex_lake E p l k d
  | Get_dataplex_lake p l k => Dataplex.get_dataplex_lake E p l k
  | List_dataplex_lakes p l f => Dataplex.list_dataplex_lakes E p l f
  | Update_dataplex_lake p l k m d => Dataplex.update_dataplex_lake E p l k m d
  | Delete_dataplex_lake p l k => Dataplex.delete_dataplex_lake E p l k
  | Create_dataplex_zone p l k z d => Dataplex.create_dataplex_zone E p l k z d
  | Get_dataplex_zone p l k z => Dataplex.get_dataplex_zone E p l k z
  | List_dataplex_zones p l k f => Dataplex.list_dataplex_zones E p l k f
  | Update_dataplex_zone p l k z m d => Dataplex.update_dataplex_zone E p l k z m d
  | Delete_dataplex_zone p l k z => Dataplex.delete_dataplex_zone E p l k z
  | Create_dataplex_asset p l k z a d => Dataplex.create_dataplex_asset E p l k z a d
  | Get_dataplex_asset p l k z a => Dataplex.get_dataplex_asset E p l k z a
  | List_dataplex_assets p l k z f => Dataplex.list_dataplex_assets E p l k z f
  | Update_dataplex_asset p l k z a m d => Dataplex.update_dataplex_asset E p l k z a m d
  | Delete_dataplex_asset p l k z a => Dataplex.delete_dataplex_asset E p l k z a
  | Create_dataplex_task p l k t d => Dataplex.create_dataplex_task E p l k t d
  | Get_dataplex_task p l k t => Dataplex.get_dataplex_task E p l k t
  | List_dataplex_tasks p l k f => Dataplex.list_dataplex_tasks E p l k f
  | Update_dataplex_task p l k t m d => Dataplex.update_dataplex_task E p l k t m d
  | Delete_dataplex_task p l k t => Dataplex.delete_dataplex_task E p l k t
  | Run_dataplex_task p l k t => Dataplex.run_dataplex_task E p l k t
  | Get_dataplex_job p l k t j => Dataplex.get_dataplex_job E p l k t j
  | List_dataplex_jobs p l k t => Dataplex.list_dataplex_jobs E p l k t
  | Cancel_dataplex_job p l k t j => Dataplex.cancel_dataplex_job E p l k t j
  | List_dataproc_clusters p r => Dataproc.list_dataproc_clusters E p r
  | Create_dataproc_cluster_async p r n c => Dataproc.create_dataproc_cluster_async E p r n c
  | Get_dataproc_cluster_async p r n => Dataproc.get_dataproc_cluster_async E p r n
  | List_dataproc_clusters_async p r f => Dataproc.list_dataproc_clusters_async E p r f
  | Update_dataproc_cluster_async p r n m c =>
      Dataproc.update_dataproc_cluster_async E p r n m c
  | Delete_dataproc_cluster_async p r n => Dataproc.delete_dataproc_cluster_async E p r n
  end.

(** The statements of the tool with its [except] clauses taken away: what
    runs until something fails. *)
Definition unguarded (E : env) (c : tool_call) : M json :=
  match c with
  | Create_dataplex_lake p l k d => Dataplex.create_dataplex_lake_body E p l k d
  | Get_dataplex_lake p l k => Dataplex.get_dataplex_lake_body E p l k
  | List_dataplex_lakes p l f => Dataplex.list_dataplex_lakes_body E p l f
  | Update_dataplex_lake p l k m d => Dataplex.update_dataplex_lake_body E p l k m d
  | Delete_dataplex_lake p l k => Dataplex.delete_dataplex_lake_body E p l k
  | Create_dataplex_zone p l k z d => Dataplex.create_dataplex_zone_body E p l k z d
  | Get_dataplex_zone p l k z => Dataplex.get_dataplex_zone_body E p l k z
  | List_dataplex_zones p l k f => Dataplex.list_dataplex_zones_body E p l k f
  | Update_dataplex_zone p l k z m d => Dataplex.update_dataplex_zone_body E p l k z m d
  | Delete_dataplex_zone p l k z => Dataplex.delete_dataplex_zone_body E p l k z
  | Create_dataplex_asset p l k z a d => Dataplex.create_dataplex_asset_body E p l k z a d
  | Get_dataplex_asset p l k z a => Dataplex.get_dataplex_asset_body E p l k z a
  | List_dataplex_assets p l k z f => Dataplex.list_dataplex_assets_body E p l k z f
  | Update_dataplex_asset p l k z a m d => Dataplex.update_dataplex_asset_body E p l k z a m d
  | Delete_dataplex_asset p l k z a => Dataplex.delete_dataplex_asset_body E p l k z a
  | Create_dataplex_task p l k t d => Dataplex.create_dataplex_task_body E p l k t d
  | Get_dataplex_task p l k t => Dataplex.get_dataplex_task_body E p l k t
  | List_dataplex_tasks p l k f => Dataplex.list_dataplex_tasks_body E p l k f
  | Update_dataplex_task p l k t m d => Dataplex.update_dataplex_task_body E p l k t m d
  | Delete_dataplex_task p l k t => Dataplex.delete_dataplex_task_body E p l k t
  | Run_dataplex_task p l k t => Dataplex.run_dataplex_task_body E p l k t
  | Get_dataplex_job p l k t j => Dataplex.get_dataplex_job_body E p l k t j
  | List_dataplex_jobs p l k t => Dataplex.list_dataplex_jobs_body E p l k t
  | Cancel_dataplex_job p l k t j => Dataplex.cancel_dataplex_job_body E p l k t j
  | List_dataproc_clusters p r =>
      do cluster_client <- Dataproc.initialize_clients E;
      if negb cluster_client then
        ret (JArr [error_dict "Dataproc cluster client not initialized."])
      else Dataproc.list_dataproc_clusters_body E p r
  | Create_dataproc_cluster_async p r n c =>
      Dataproc.create_dataproc_cluster_async_body E p r n c
  | Get_dataproc_cluster_async p r n => Dataproc.get_dataproc_cluster_async_body E p r n
  | List_dataproc_clusters_async p r f => Dataproc.list_dataproc_clusters_async_body E p r f
  | Update_dataproc_cluster_async p r n m c =>
      Dataproc.update_dataproc_cluster_async_body E p r n m c
  | Delete_dataproc_cluster_async p r n => Dataproc.delete_dataproc_cluster_async_body E p r n
  end.

(** The proto messages that went out with the remote calls of a run. *)
Definition sent_messages (w : world) : list message :=
  omap (fun ev => match ev with EvCall _ rq => req_body rq end) (w_trace w).

(** The names of the client methods called remotely during a run. *)
Definition remote_calls (w : world) : list string :=
  map (fun ev => match ev with EvCall m _ => m end) (w_trace w).

(** The world with one more remote call in its trace. *)
Definition logged (w : world) (ev : event) : world :=
  World (w_heap w) (w_trace w ++ [ev]).

(** The hard-coded rename, on the contents of one dictionary. *)
Definition renamed (d : gmap string pyval) : gmap string pyval :=
  match d !! "type" with
  | Some v => <["type_" := v]> (delete "type" d)
  | None => d
  end.

(** The store after the rename of the zone functions on [details]. *)
Definition renamed_store (details : pyval) (h : gmap loc pyobj) : gmap loc pyobj :=
  match details with
  | VRef l =>
      match h !! l with
      | Some (ODict d) => <[l := ODict (renamed d)]> h
      | _ => h
      end
  | _ => h
  end.

(** The store after the rename of the asset and task functions: the
    dictionary found under [sub] is the one that changes. *)
Definition nested_renamed_store (sub : string) (details : pyval)
    (h : gmap loc pyobj) : gmap loc pyobj :=
  match details with
  | VRef l =>
      match h !! l with
      | Some (ODict d) =>
          match d !! sub with
          | Some spec => renamed_store spec h
          | None => h
          end
      | _ => h
      end
  | _ => h
  end.

(** A dictionary with a ["type"] key can be reached from the fields [d] in
    the store [h] within [n] steps through nested dictionaries. *)
Fixpoint type_within (n : nat) (h : gmap loc pyobj) (d : gmap string pyval) : Prop :=
  is_Some (d !! "type") \/
  match n with
  | O => False
  | S n' =>
      exists k l d', d !! k = Some (VRef l) /\ h !! l = Some (ODict d') /\ type_within n' h d'
  end.

(** No field named ["type"] at any depth of a message. *)
Definition type_free (m : message) : Prop :=
  forall n, ~ type_within n (msg_store m) (msg_fields m).

(** *** What the tools send, described directly *)

(** The contents of the dictionary a configuration argument refers to. *)
Definition config_fields (h : gmap loc pyobj) (v : pyval) : option (gmap string pyval) :=
  match v with
  | VRef l =>
      match h !! l with
      | Some (ODict d) => Some d
      | _ => None
      end
  | _ => None
  end.

(** The sub-object [sub] of a configuration is absent or a dictionary. *)
Definition optional_dict (sub : string) (h : gmap loc pyobj) (d : gmap string pyval) : bool :=
  match d !! sub with
  | None => true
  | Some (VRef l) =>
      match h !! l with
      | Some (ODict _) => true
      | _ => false
      end
  | Some _ => false
  end.

Definition with_name (ty n : string) (d : gmap string pyval)
    (h : gmap loc pyobj) : option message :=
  match d !! "name" with
  | None => Some (Message ty (<["name" := VStr n]> d) h)
  | Some _ => None
  end.

(** The message a create or update call of the Dataplex tools builds from a
    configuration dictionary: its fields are those of the caller's
    dictionary after the one rename of that function, read in the store
    after that rename. *)
Definition tool_message (c : tool_call) (h : gmap loc pyobj) : option message :=
  match c with
  | Create_dataplex_lake _ _ _ v =>
      match config_fields h v with
      | Some d => Some (Message "Lake" d h)
      | None => None
      end
  | Update_dataplex_lake p l k _ v =>
      match config_fields h v with
      | Some d => with_name "Lake" (lake_path p l k) d h
      | None => None
      end
  | Create_dataplex_zone _ _ _ _ v =>
      let h' := renamed_store v h in
      match config_fields h' v with
      | Some d => Some (Message "Zone" d h')
      | None => None
      end
  | Update_dataplex_zone p l k z _ v =>
      let h' := renamed_store v h in
      match config_fields h' v with
      | Some d => with_name "Zone" (zone_path p l k z) d h'
      | None => None
      end
  | Create_dataplex_asset _ _ _ _ _ v =>
      let h' := nested_renamed_store "resource_spec" v h in
      match config_fields h v, config_fields h' v with
      | Some d0, Some d =>
          if optional_dict "resource_spec" h d0 then Some (Message "Asset" d h') else None
      | _, _ => None
      end
  | Update_dataplex_asset p l k z a _ v =>
      let h' := nested_renamed_store "resource_spec" v h in
      match config_fields h v, config_fields h' v with
      | Some d0, Some d =>
          if optional_dict "resource_spec" h d0
          then with_name "Asset" (asset_path p l k z a) d h' else None
      | _, _ => None
      end
  | Create_dataplex_task _ _ _ _ v =>
      let h' := nested_renamed_store "trigger_spec" v h in
      match config_fields h v, config_fields h' v with
      | Some d0, Some d =>
          if optional_dict "trigger_spec" h d0 then Some (Message "Task" d h') else None
      | _, _ => None
      end
  | Update_dataplex_task p l k t _ v =>
      let h' := nested_renamed_store "trigger_spec" v h in
      match config_fields h v, config_fields h' v with
      | Some d0, Some d =>
          if optional_dict "trigger_spec" h d0
          then with_name "Task" (task_path p l k t) d h' else None
      | _, _ => None
      end
  | _ => None
  end.

Definition named_request (ty n : string) : request :=
  Request ty [("name", n)] None None.

(** The remote call of the Dataplex tools that take identifying strings
    only: the client method and the request with the formatted name. *)
Definition plain_call (c : tool_call) : option event :=
  match c with
  | Get_dataplex_lake p l k =>
      Some (EvCall "get_lake" (named_request "GetLakeRequest" (lake_path p l k)))
  | List_dataplex_lakes p l f =>
      Some (EvCall "list_lakes"
              (Request "ListLakesRequest"
                 [("parent", common_location_path p l); ("filter", f)] None None))
  | Delete_dataplex_lake p l k =>
      Some (EvCall "delete_lake" (named_request "DeleteLakeRequest" (lake_path p l k)))
  | Get_dataplex_zone p l k z =>
      Some (EvCall "get_zone" (named_request "GetZoneRequest" (zone_path p l k z)))
  | List_dataplex_zones p l k f =>
      Some (EvCall "list_zones"
              (Request "ListZonesRequest" [("parent", lake_path p l k); ("filter", f)] None None))
  | Delete_dataplex_zone p l k z =>
      Some (EvCall "delete_zone" (named_request "DeleteZoneRequest" (zone_path p l k z)))
  | Get_dataplex_asset p l k z a =>
      Some (EvCall "get_asset" (named_request "GetAssetRequest" (asset_path p l k z a)))
  | List_dataplex_assets p l k z f =>
      Some (EvCall "list_assets"
              (Request "ListAssetsRequest" [("parent", zone_path p l k z); ("filter", f)]
                 None None))
  | Delete_dataplex_asset p l k z a =>
      Some (EvCall "delete_asset" (named_request "DeleteAssetRequest" (asset_path p l k z a)))
  | Get_dataplex_task p l k t =>
      Some (EvCall "get_task" (named_request "GetTaskRequest" (task_path p l k t)))
  | List_dataplex_tasks p l k f =>
      Some (EvCall "list_tasks"
              (Request "ListTasksRequest" [("parent", lake_path p l k); ("filter", f)] None None))
  | Delete_dataplex_task p l k t =>
      Some (EvCall "delete_task" (named_request "DeleteTaskRequest" (task_path p l k t)))
  | Run_dataplex_task p l k t =>
      Some (EvCall "run_task" (named_request "RunTaskRequest" (task_path p l k t)))
  | Get_dataplex_job p l k t j =>
      Some (EvCall "get_job" (named_request "GetJobRequest" (job_path p l k t j)))
  | List_dataplex_jobs p l k t =>
      Some (EvCall "list_jobs"
              (Request "ListJobsRequest" [("parent", task_path p l k t)] None None))
  | Cancel_dataplex_job p l k t j =>
      Some (EvCall "cancel_job" (named_request "CancelJobRequest" (job_path p l k t j)))
  | _ => None
  end.

(** An [except] clause that answers with an error-shaped value. *)
Definition answers_with_error (h : handler json) : Prop :=
  forall e w, exists r, snd h e w = (Return r, w) /\ is_error_shaped r = true.

(** *** What a computation may touch *)

(** The world after the computation is the world before it. *)
Definition no_effect {A} (m : M A) : Prop := forall w, snd (m w) = w.

(** The store after the computation is [f] of the store before it, whether
    it returns or raises. *)
Definition store_effect {A} (f : gmap loc pyobj -> gmap loc pyobj) (m : M A) : Prop :=
  forall w, w_heap (snd (m w)) = f (w_heap w).

Definition keeps_store {A} (m : M A) : Prop := store_effect (fun h => h) m.

(** The store a tool call leaves behind.  The zone functions rename in the
    dictionary they are given, the asset and task functions in the one
    stored under ['resource_spec'] and ['trigger_spec']; all of them only
    once the client has been constructed. *)
Definition tool_store_effect (E : env) (c : tool_call)
    (h : gmap loc pyobj) : gmap loc pyobj :=
  match c with
  | Create_dataplex_zone _ _ _ _ d | Update_dataplex_zone _ _ _ _ _ d =>
      match client_init E Dataplex.client_class with
      | None => renamed_store d h
      | Some _ => h
      end
  | Create_dataplex_asset _ _ _ _ _ d | Update_dataplex_asset _ _ _ _ _ _ d =>
      match client_init E Dataplex.client_class with
      | None => nested_renamed_store "resource_spec" d h
      | Some _ => h
      end
  | Create_dataplex_task _ _ _ _ d | Update_dataplex_task _ _ _ _ _ d =>
      match client_init E Dataplex.client_class with
      | None => nested_renamed_store "trigger_spec" d h
      | Some _ => h
      end
  | _ => h
  end.

End Agent.

(** ** Concrete environments, stores and configurations *)

Module Examples.
Import Py Gapic Agent.

Definition ok_operation : operation :=
  Operation (Return None) "operations/op-1" "OperationMetadata" (Return "CREATE").

Definition two_clusters : list json :=
  [ JObj [("cluster_name", JStr "alpha")]; JObj [("cluster_name", JStr "beta")] ].

Definition url_error : exc := Exc OtherException "<urlopen error timed out>" "".

(** The client classes as the installed library has them:
    [MetadataServiceClient] has no [search_resources]. *)
Definition library_has_method (cls method : string) : bool :=
  negb (String.eqb cls "MetadataServiceClient" && String.eqb method "search_resources").

(** The resource messages of Dataplex, printed with their module. *)
Definition library_function_str (cls : string) : string :=
  "google.cloud.dataplex_v1.types.resources." +:+ cls +:+ "()".

(** Lower-casing of text that has, besides ASCII, the Kelvin sign U+212A
    (bytes 226, 132, 170), whose lower-case form is [k]. *)
Fixpoint lower_with_kelvin (s : string) : string :=
  match s with
  | EmptyString => EmptyString
  | String c s1 =>
      match s1 with
      | String c1 (String c2 s3) =>
          if ((nat_of_ascii c =? 226) && (nat_of_ascii c1 =? 132) && (nat_of_ascii c2 =? 170))%nat
          then String "k" (lower_with_kelvin s3)
          else String (lower_ascii c) (lower_with_kelvin s1)
      | _ => String (lower_ascii c) (lower_with_kelvin s1)
      end
  end.

(** A ['type'] key in the fields [d] or within [n] levels below them. *)
Fixpoint has_type_key (n : nat) (h : gmap loc pyobj) (d : gmap string pyval) : bool :=
  bool_decide (is_Some (d !! "type")) ||
  match n with
  | O => false
  | S n' =>
      existsb (fun kv => match snd kv with
                         | VRef l =>
                             match h !! l with
                             | Some (ODict d') => has_type_key n' h d'
                             | _ => false
                             end
                         | _ => false
                         end) (map_to_list d)
  end.

(** The constructors of the resource messages reject a key that is no field
    of theirs.  No message of Dataplex has a field the Python side calls
    [type]: the proto field of that name is [type_] there. *)
Definition unknown_field : exc := Exc ValueError "Unknown field for ResourceSpec: type" "".

Definition library_proto_init (m : message) : option exc :=
  if has_type_key 3 (msg_store m) (msg_fields m) then Some unknown_field else None.

(** A service that accepts every request, behind the library as it is: the
    message constructors reject a ['type'] key, and the async client is the
    generated one, whose [list_clusters] is a coroutine function. *)
Definition accepting_env : env :=
  {| client_init := fun _ => None;
     proto_init := library_proto_init;
     rpc_operation := fun _ _ => Return ok_operation;
     rpc_message := fun _ _ => Return (JObj [("name", JStr "resource")]);
     rpc_pager := fun _ _ => Return (Pager two_clusters None);
     rpc_empty := fun _ _ => None;
     rpc_job := fun _ _ => Return (SubmittedJob "agent-job-pyspark-12345678" "PENDING" "c1"
                                       (Raise (Exc AttributeError "Unknown field for Job: type_case" "")));
     async_list_clusters := fun _ _ => Coroutine (Return (Pager two_clusters None));
     uuid4 := "12345678-1234-4234-8234-123456789abc";
     urlopen_read := fun _ => Raise url_error;
     json_loads := fun _ => Return JNull;
     has_method := library_has_method;
     function_str := library_function_str;
     unicode_lower := lower_with_kelvin;
     unicode_capitalize := fun s => s |}.

(** The same service behind a client whose listing is an async pager that
    cannot be awaited. *)
Definition pager_env : env :=
  {| client_init := client_init accepting_env;
     proto_init := proto_init accepting_env;
     rpc_operation := rpc_operation accepting_env;
     rpc_message := rpc_message accepting_env;
     rpc_pager := rpc_pager accepting_env;
     rpc_empty := rpc_empty accepting_env;
     rpc_job := rpc_job accepting_env;
     async_list_clusters := fun _ _ => AsyncPager (Pager two_clusters None);
     uuid4 := uuid4 accepting_env;
     urlopen_read := urlopen_read accepting_env;
     json_loads := json_loads accepting_env;
     has_method := has_method accepting_env;
     function_str := function_str accepting_env;
     unicode_lower := unicode_lower accepting_env;
     unicode_capitalize := unicode_capitalize accepting_env |}.

(** ... and behind a listing object that has both protocols. *)
Definition both_env : env :=
  {| client_init := client_init accepting_env;
     proto_init := proto_init accepting_env;
     rpc_operation := rpc_operation accepting_env;
     rpc_message := rpc_message accepting_env;
     rpc_pager := rpc_pager accepting_env;
     rpc_empty := rpc_empty accepting_env;
     rpc_job := rpc_job accepting_env;
     async_list_clusters := fun _ _ =>
       AwaitableAsyncPager (Return (Pager two_clusters None)) (Pager two_clusters None);
     uuid4 := uuid4 accepting_env;
     urlopen_read := urlopen_read accepting_env;
     json_loads := json_loads accepting_env;
     has_method := has_method accepting_env;
     function_str := function_str accepting_env;
     unicode_lower := unicode_lower accepting_env;
     unicode_capitalize := unicode_capitalize accepting_env |}.

Definition failed_precondition : exc :=
  Exc (ApiCallError (Some 400)) "Job is in a Terminal State and cannot be cancelled" "".

Definition invalid_argument : exc :=
  Exc InvalidArgument "resource_spec is required" "".

(** A cancellation refused with status 400 for another reason than the
    state of the job, and a service that answers every cancellation so. *)
Definition malformed_name : exc :=
  Exc InvalidArgument "Job name is malformed" "".

Definition malformed_env : env :=
  {| client_init := fun _ => None;
     proto_init := library_proto_init;
     rpc_operation := fun _ _ => Raise malformed_name;
     rpc_message := fun _ _ => Raise malformed_name;
     rpc_pager := fun _ _ => Raise malformed_name;
     rpc_empty := fun _ _ => Some malformed_name;
     rpc_job := fun _ _ => Raise malformed_name;
     async_list_clusters := fun _ _ => Coroutine (Raise malformed_name);
     uuid4 := "12345678-1234-4234-8234-123456789abc";
     urlopen_read := fun _ => Raise url_error;
     json_loads := fun _ => Return JNull;
     has_method := library_has_method;
     function_str := library_function_str;
     unicode_lower := lower_with_kelvin;
     unicode_capitalize := fun s => s |}.

(** A service that rejects every mutation as invalid and every
    cancellation as too late. *)
Definition rejecting_env : env :=
  {| client_init := fun _ => None;
     proto_init := library_proto_init;
     rpc_operation := fun _ _ => Raise invalid_argument;
     rpc_message := fun _ _ => Raise invalid_argument;
     rpc_pager := fun _ _ => Raise invalid_argument;
     rpc_empty := fun _ _ => Some failed_precondition;
     rpc_job := fun _ _ => Raise invalid_argument;
     async_list_clusters := fun _ _ => Coroutine (Raise invalid_argument);
     uuid4 := "12345678-1234-4234-8234-123456789abc";
     urlopen_read := fun _ => Raise url_error;
     json_loads := fun _ => Return JNull;
     has_method := library_has_method;
     function_str := library_function_str;
     unicode_lower := lower_with_kelvin;
     unicode_capitalize := fun s => s |}.

(** [{'type': 'RAW', 'resource_spec': {'location_type': 'SINGLE_REGION'}}]
    at location 1. *)
Definition zone_store : gmap loc pyobj :=
  <[1%positive := ODict (<["type" := VStr "RAW"]> {["resource_spec" := VRef 2%positive]})]>
    {[2%positive := ODict {["location_type" := VStr "SINGLE_REGION"]}]}.

(** [{'resource_spec': {'type': 'STORAGE_BUCKET'}}] at location 1. *)
Definition asset_store : gmap loc pyobj :=
  <[1%positive := ODict {["resource_spec" := VRef 2%positive]}]>
    {[2%positive := ODict {["type" := VStr "STORAGE_BUCKET"]}]}.

(** [{'display_name': 'no spec'}] at location 1. *)
Definition bare_store : gmap loc pyobj :=
  {[1%positive := ODict {["display_name" := VStr "no spec"]}]}.

(** [{'main_python_file_uri': 'gs://b/job.py'}] at location 1. *)
Definition pyspark_store : gmap loc pyobj :=
  {[1%positive := ODict {["main_python_file_uri" := VStr "gs://b/job.py"]}]}.

(** [{'type_': 'RAW'}] at location 1: a configuration that already uses
    the reserved-safe key. *)
Definition safe_store : gmap loc pyobj :=
  {[1%positive := ODict {["type_" := VStr "RAW"]}]}.

Definition start (h : gmap loc pyobj) : world := World h [].

(** The two example configurations after the calls, and the messages built
    from them. *)
Definition zone_fields_after : gmap string pyval :=
  <["type_" := VStr "RAW"]> {["resource_spec" := VRef 2%positive]}.

Definition zone_store_after : gmap loc pyobj :=
  <[1%positive := ODict zone_fields_after]>
    {[2%positive := ODict {["location_type" := VStr "SINGLE_REGION"]}]}.

Definition zone_message : message := Message "Zone" zone_fields_after zone_store_after.

Definition asset_store_after : gmap loc pyobj :=
  <[1%positive := ODict {["resource_spec" := VRef 2%positive]}]>
    {[2%positive := ODict {["type_" := VStr "STORAGE_BUCKET"]}]}.

Definition asset_message : message :=
  Message "Asset" {["resource_spec" := VRef 2%positive]} asset_store_after.

Definition zone_call : tool_call :=
  Agent.Create_dataplex_zone "p" "l" "lake" "z" (VRef 1%positive).

Definition asset_call : tool_call :=
  Agent.Create_dataplex_asset "p" "l" "lake" "z" "a" (VRef 1%positive).

End Examples.

(** ** The tools, described for the properties below *)

Module Cover.
Import Py Gapic Agent.

(** The client class a tool constructs first. *)
Definition tool_client (c : tool_call) : string :=
  match c with
  | List_dataproc_clusters _ _ => "ClusterControllerClient"
  | Create_dataproc_cluster_async _ _ _ _ | Get_dataproc_cluster_async _ _ _
  | List_dataproc_clusters_async _ _ _ | Update_dataproc_cluster_async _ _ _ _ _
  | Delete_dataproc_cluster_async _ _ _ => Dataproc.async_client_class
  | _ => Dataplex.client_class
  end.

(** The one API method a tool calls on its client. *)
Definition tool_method (c : tool_call) : string :=
  match c with
  | Create_dataplex_lake _ _ _ _ => "create_lake"
  | Get_dataplex_lake _ _ _ => "get_lake"
  | List_dataplex_lakes _ _ _ => "list_lakes"
  | Update_dataplex_lake _ _ _ _ _ => "update_lake"
  | Delete_dataplex_lake _ _ _ => "delete_lake"
  | Create_dataplex_zone _ _ _ _ _ => "create_zone"
  | Get_dataplex_zone _ _ _ _ => "get_zone"
  | List_dataplex_zones _ _ _ _ => "list_zones"
  | Update_dataplex_zone _ _ _ _ _ _ => "update_zone"
  | Delete_dataplex_zone _ _ _ _ => "delete_zone"
  | Create_dataplex_asset _ _ _ _ _ _ => "create_asset"
  | Get_dataplex_asset _ _ _ _ _ => "get_asset"
  | List_dataplex_assets _ _ _ _ _ => "list_assets"
  | Update_dataplex_asset _ _ _ _ _ _ _ => "update_asset"
  | Delete_dataplex_asset _ _ _ _ _ => "delete_asset"
  | Create_dataplex_task _ _ _ _ _ => "create_task"
  | Get_dataplex_task _ _ _ _ => "get_task"
  | List_dataplex_tasks _ _ _ _ => "list_tasks"
  | Update_dataplex_task _ _ _ _ _ _ => "update_task"
  | Delete_dataplex_task _ _ _ _ => "delete_task"
  | Run_dataplex_task _ _ _ _ => "run_task"
  | Get_dataplex_job _ _ _ _ _ => "get_job"
  | List_dataplex_jobs _ _ _ _ => "list_jobs"
  | Cancel_dataplex_job _ _ _ _ _ => "cancel_job"
  | List_dataproc_clusters _ _ => "list_clusters"
  | Create_dataproc_cluster_async _ _ _ _ => "create_cluster"
  | Get_dataproc_cluster_async _ _ _ => "get_cluster"
  | List_dataproc_clusters_async _ _ _ => "list_clusters"
  | Update_dataproc_cluster_async _ _ _ _ _ => "update_cluster"
  | Delete_dataproc_cluster_async _ _ _ => "delete_cluster"
  end.

(** The [except] clauses of a tool. *)
Definition tool_ladder (c : tool_call) : list (handler json) :=
  match c with
  | Create_dataplex_lake _ _ _ _ => Dataplex.create_dataplex_lake_handlers
  | Get_dataplex_lake _ _ k => Dataplex.get_dataplex_lake_handlers k
  | List_dataplex_lakes _ _ _ => Dataplex.list_dataplex_lakes_handlers
  | Update_dataplex_lake _ _ k _ _ => Dataplex.update_dataplex_lake_handlers k
  | Delete_dataplex_lake _ _ k => Dataplex.delete_dataplex_lake_handlers k
  | Create_dataplex_zone _ _ _ _ _ => Dataplex.create_dataplex_zone_handlers
  | Get_dataplex_zone _ _ _ z => Dataplex.get_dataplex_zone_handlers z
  | List_dataplex_zones _ _ k _ => Dataplex.list_dataplex_zones_handlers k
  | Update_dataplex_zone _ _ _ z _ _ => Dataplex.update_dataplex_zone_handlers z
  | Delete_dataplex_zone _ _ _ z => Dataplex.delete_dataplex_zone_handlers z
  | Create_dataplex_asset _ _ _ _ _ _ => Dataplex.create_dataplex_asset_handlers
  | Get_dataplex_asset _ _ _ _ a => Dataplex.get_dataplex_asset_handlers a
  | List_dataplex_assets _ _ _ z _ => Dataplex.list_dataplex_assets_handlers z
  | Update_dataplex_asset _ _ _ _ a _ _ => Dataplex.update_dataplex_asset_handlers a
  | Delete_dataplex_asset _ _ _ _ a => Dataplex.delete_dataplex_asset_handlers a
  | Create_dataplex_task _ _ _ _ _ => Dataplex.create_dataplex_task_handlers
  | Get_dataplex_task _ _ _ t => Dataplex.get_dataplex_task_handlers t
  | List_dataplex_tasks _ _ k _ => Dataplex.list_dataplex_tasks_handlers k
  | Update_dataplex_task _ _ _ t _ _ => Dataplex.update_dataplex_task_handlers t
  | Delete_dataplex_task _ _ _ t => Dataplex.delete_dataplex_task_handlers t
  | Run_dataplex_task _ _ _ t => Dataplex.run_dataplex_task_handlers t
  | Get_dataplex_job _ _ _ _ j => Dataplex.get_dataplex_job_handlers j
  | List_dataplex_jobs _ _ _ t => Dataplex.list_dataplex_jobs_handlers t
  | Cancel_dataplex_job _ _ _ _ j => Dataplex.cancel_dataplex_job_handlers j
  | List_dataproc_clusters _ _ => Dataproc.list_dataproc_clusters_handlers
  | Create_dataproc_cluster_async _ _ _ _ => Dataproc.create_dataproc_cluster_async_handlers
  | Get_dataproc_cluster_async _ _ n => Dataproc.get_dataproc_cluster_async_handlers n
  | List_dataproc_clusters_async _ _ _ => Dataproc.list_dataproc_clusters_async_handlers
  | Update_dataproc_cluster_async _ _ n _ _ => Dataproc.update_dataproc_cluster_async_handlers n
  | Delete_dataproc_cluster_async _ _ n => Dataproc.delete_dataproc_cluster_async_handlers n
  end.

(** The position of the clause that catches [e], if any. *)
Fixpoint catching_clause {A} (hs : list (handler A)) (e : exc) : option nat :=
  match hs with
  | [] => None
  | (c, _) :: hs' =>
      if isinstance e c then Some O
      else match catching_clause hs' e with
           | Some n => Some (S n)
           | None => None
           end
  end.

Definition has_clause {A} (c : catch_class) (hs : list (handler A)) : bool :=
  existsb (fun h => match fst h, c with
                    | Catch_NotFound, Catch_NotFound => true
                    | Catch_InvalidArgument, Catch_InvalidArgument => true
                    | Catch_GoogleAPICallError, Catch_GoogleAPICallError => true
                    | Catch_GoogleAPIError, Catch_GoogleAPIError => true
                    | Catch_Exception, Catch_Exception => true
                    | _, _ => false
                    end) hs.

(** The computation leaves the trace as it was. *)
Definition quiet {A} (m : M A) : Prop := forall w, w_trace (snd (m w)) = w_trace w.

(** The computation calls no API method of a client, or the method [meth]
    once. *)
Definition calls_only {A} (meth : string) (m : M A) : Prop :=
  forall w,
    w_trace (snd (m w)) = w_trace w \/
    exists rq, w_trace (snd (m w)) = (w_trace w ++ [EvCall meth rq])%list.

Definition is_list (r : json) : bool :=
  match r with
  | JArr _ => true
  | _ => false
  end.

(** The configuration argument of the tools that unpack one with [**]. *)
Definition unpacked_config (c : tool_call) : option pyval :=
  match c with
  | Update_dataplex_lake _ _ _ _ v
  | Create_dataplex_zone _ _ _ _ v | Update_dataplex_zone _ _ _ _ _ v
  | Create_dataplex_asset _ _ _ _ _ v | Update_dataplex_asset _ _ _ _ _ _ v
  | Create_dataplex_task _ _ _ _ v | Update_dataplex_task _ _ _ _ _ v => Some v
  | _ => None
  end.

(** The one tool that repeats its request: [list_dataproc_clusters_async]. *)
Definition repeats_request (c : tool_call) : bool :=
  match c with
  | List_dataproc_clusters_async _ _ _ => true
  | _ => false
  end.

(** An environment without credentials: no client can be constructed. *)
Definition no_credentials : exc :=
  Exc OtherException "Your default credentials were not found." "".

Definition offline_env : env :=
  {| client_init := fun _ => Some no_credentials;
     proto_init := Examples.library_proto_init;
     rpc_operation := fun _ _ => Return Examples.ok_operation;
     rpc_message := fun _ _ => Return (JObj []);
     rpc_pager := fun _ _ => Return (Pager [] None);
     rpc_empty := fun _ _ => None;
     rpc_job := fun _ _ => Raise no_credentials;
     async_list_clusters := fun _ _ => Coroutine (Return (Pager [] None));
     uuid4 := "12345678-1234-4234-8234-123456789abc";
     urlopen_read := fun _ => Raise Examples.url_error;
     json_loads := fun _ => Return JNull;
     has_method := Examples.library_has_method;
     function_str := Examples.library_function_str;
     unicode_lower := Examples.lower_with_kelvin;
     unicode_capitalize := fun s => s |}.

(** A service on which nothing exists: every request fails with [NotFound]
    and the text [msg]. *)
Definition not_found (msg : string) : exc := Exc NotFound msg "".

Definition missing_env (msg : string) : env :=
  {| client_init := fun _ => None;
     proto_init := Examples.library_proto_init;
     rpc_operation := fun _ _ => Raise (not_found msg);
     rpc_message := fun _ _ => Raise (not_found msg);
     rpc_pager := fun _ _ => Raise (not_found msg);
     rpc_empty := fun _ _ => Some (not_found msg);
     rpc_job := fun _ _ => Raise (not_found msg);
     async_list_clusters := fun _ _ => Coroutine (Raise (not_found msg));
     uuid4 := "12345678-1234-4234-8234-123456789abc";
     urlopen_read := fun _ => Raise Examples.url_error;
     json_loads := fun _ => Return JNull;
     has_method := Examples.library_has_method;
     function_str := Examples.library_function_str;
     unicode_lower := Examples.lower_with_kelvin;
     unicode_capitalize := fun s => s |}.

(** What a computation hands back when it returns. *)
Definition returns {A} (P : A -> Prop) (m : M A) : Prop :=
  forall w, match fst (m w) with
            | Return r => P r
            | Raise _ => True
            end.

(** The listing tools whose clauses all answer with a list, and the two
    whose last clause answers with a bare dictionary. *)
Definition list_in_every_clause (c : tool_call) : bool :=
  match c with
  | List_dataplex_assets _ _ _ _ _ | List_dataplex_tasks _ _ _ _
  | List_dataplex_jobs _ _ _ _ | List_dataproc_clusters _ _
  | List_dataproc_clusters_async _ _ _ => true
  | _ => false
  end.

Definition dict_in_last_clause (c : tool_call) : bool :=
  match c with
  | List_dataplex_lakes _ _ _ | List_dataplex_zones _ _ _ _ => true
  | _ => false
  end.

(** The request of the tools that iterate over a pager. *)
Definition listing_call (c : tool_call) : option event :=
  match c with
  | List_dataplex_lakes _ _ _ | List_dataplex_zones _ _ _ _
  | List_dataplex_assets _ _ _ _ _ | List_dataplex_tasks _ _ _ _
  | List_dataplex_jobs _ _ _ _ => plain_call c
  | List_dataproc_clusters p r =>
      Some (EvCall "list_clusters"
              (Request "ListClustersRequest" [("project_id", p); ("region", r)] None None))
  | _ => None
  end.

(** A service whose listings break off after the first page. *)
Definition unavailable : exc :=
  Exc (ApiCallError (Some 503)) "The service is currently unavailable." "".

Definition broken_page_env : env :=
  {| client_init := fun _ => None;
     proto_init := Examples.library_proto_init;
     rpc_operation := fun _ _ => Raise unavailable;
     rpc_message := fun _ _ => Raise unavailable;
     rpc_pager := fun _ _ => Return (Pager Examples.two_clusters (Some unavailable));
     rpc_empty := fun _ _ => Some unavailable;
     rpc_job := fun _ _ => Raise unavailable;
     async_list_clusters := fun _ _ => Coroutine (Raise unavailable);
     uuid4 := "12345678-1234-4234-8234-123456789abc";
     urlopen_read := fun _ => Raise Examples.url_error;
     json_loads := fun _ => Return JNull;
     has_method := Examples.library_has_method;
     function_str := Examples.library_function_str;
     unicode_lower := Examples.lower_with_kelvin;
     unicode_capitalize := fun s => s |}.

(** The computation stops at [w] with an exception, having changed
    nothing. *)
Definition refuses {A} (m : M A) (w : world) : Prop :=
  exists e, m w = (Raise e, w) /\ isinstance e Catch_Exception = true.

(** [{'name': 'mine', 'type': 'RAW'}] at location 1. *)
Definition named_store : gmap loc pyobj :=
  {[1%positive := ODict (<["name" := VStr "mine"]> {["type" := VStr "RAW"]})]}.

(** [{'type': 'RAW', 'type_': 'CURATED'}] at location 1. *)
Definition both_keys_store : gmap loc pyobj :=
  {[1%positive := ODict (<["type" := VStr "RAW"]> {["type_" := VStr "CURATED"]})]}.

(** An environment in which only the job client cannot be constructed. *)
Definition no_job_client_env : env :=
  {| client_init := fun cls =>
       if String.eqb cls "JobControllerClient" then Some no_credentials else None;
     proto_init := Examples.library_proto_init;
     rpc_operation := fun _ _ => Return Examples.ok_operation;
     rpc_message := fun _ _ => Return (JObj []);
     rpc_pager := fun _ _ => Return (Pager Examples.two_clusters None);
     rpc_empty := fun _ _ => None;
     rpc_job := fun _ _ => Raise no_credentials;
     async_list_clusters := fun _ _ => Coroutine (Return (Pager [] None));
     uuid4 := "12345678-1234-4234-8234-123456789abc";
     urlopen_read := fun _ => Raise Examples.url_error;
     json_loads := fun _ => Return JNull;
     has_method := Examples.library_has_method;
     function_str := Examples.library_function_str;
     unicode_lower := Examples.lower_with_kelvin;
     unicode_capitalize := fun s => s |}.

(** The description the four delete tools of Dataplex pass to
    [_handle_lro]. *)
Definition deletion_description (c : tool_call) : option string :=
  match c with
  | Delete_dataplex_lake _ _ k => Some ("lake deletion for '" +:+ k +:+ "'")
  | Delete_dataplex_zone _ _ _ z => Some ("zone deletion for '" +:+ z +:+ "'")
  | Delete_dataplex_asset _ _ _ _ a => Some ("asset deletion for '" +:+ a +:+ "'")
  | Delete_dataplex_task _ _ _ t => Some ("task deletion for '" +:+ t +:+ "'")
  | _ => None
  end.


(** An operation that ended with the resource gone, and a service that
    answers every mutation with it. *)
Definition gone_operation : operation :=
  Operation (Return (Some (not_found "Resource not found"))) "operations/op-2"
    "OperationMetadata" (Return "DELETE").

Definition gone_env : env :=
  {| client_init := fun _ => None;
     proto_init := Examples.library_proto_init;
     rpc_operation := fun _ _ => Return gone_operation;
     rpc_message := fun _ _ => Return (JObj []);
     rpc_pager := fun _ _ => Return (Pager [] None);
     rpc_empty := fun _ _ => None;
     rpc_job := fun _ _ => Raise no_credentials;
     async_list_clusters := fun _ _ => Coroutine (Return (Pager [] None));
     uuid4 := "12345678-1234-4234-8234-123456789abc";
     urlopen_read := fun _ => Raise Examples.url_error;
     json_loads := fun _ => Return JNull;
     has_method := Examples.library_has_method;
     function_str := Examples.library_function_str;
     unicode_lower := Examples.lower_with_kelvin;
     unicode_capitalize := fun s => s |}.

(** [isinstance(v, dict)] on a parsed JSON value. *)
Definition is_object (v : json) : bool :=
  match v with
  | JObj _ => true
  | _ => false
  end.

(** The answer of the Lichess API for a user with two ratings, and an
    environment that serves it. *)
Definition lichess_perfs : list (string * json) :=
  [ ("blitz", JObj [("games", JNum 120); ("rating", JNum 1510)]);
    ("rapid", JObj [("games", JNum 14); ("rating", JNum 1622)]) ].

Definition lichess_env : env :=
  {| client_init := fun _ => None;
     proto_init := Examples.library_proto_init;
     rpc_operation := fun _ _ => Return Examples.ok_operation;
     rpc_message := fun _ _ => Return (JObj []);
     rpc_pager := fun _ _ => Return (Pager [] None);
     rpc_empty := fun _ _ => None;
     rpc_job := fun _ _ => Raise no_credentials;
     async_list_clusters := fun _ _ => Coroutine (Return (Pager [] None));
     uuid4 := "12345678-1234-4234-8234-123456789abc";
     urlopen_read := fun _ => Return "{...}";
     json_loads := fun _ => Return (JObj [("id", JStr "someone"); ("perfs", JObj lichess_perfs)]);
     has_method := Examples.library_has_method;
     function_str := Examples.library_function_str;
     unicode_lower := Examples.lower_with_kelvin;
     unicode_capitalize := fun s => s |}.

(** A cluster as the service describes it, with full resource addresses. *)
Definition example_cluster : Common.cluster :=
  Common.Cluster "alpha" "RUNNING" "0b2c" "p"
    "https://www.googleapis.com/compute/v1/projects/p/zones/us-central1-a"
    "2.1-debian11" 1 "n1-standard-4" 2 "" (Some "2024-05-01T10:00:00Z") None.

(** The three entries [_parse_cluster_response] cuts at the last slash. *)
Definition shortened_entries (c : Common.cluster) : list (string * string) :=
  [ ("zone", Common.zone_uri c);
    ("master_machine_type", Common.master_machine_type_uri c);
    ("worker_machine_type", Common.worker_machine_type_uri c) ].

(** The computation changes nothing at [w] and does not succeed: it hands
    back an error-shaped value or raises. *)
Definition rejects (m : M json) (w : world) : Prop :=
  snd (m w) = w /\
  match fst (m w) with
  | Return r => is_error_shaped r = true
  | Raise _ => True
  end.

(** The computation sends one request to [meth], or raises without having
    sent any. *)
Definition sends_or_raises {A} (meth : string) (m : M A) : Prop :=
  forall w,
    (exists rq, w_trace (snd (m w)) = (w_trace w ++ [EvCall meth rq])%list) \/
    (w_trace (snd (m w)) = w_trace w /\ exists e, fst (m w) = Raise e).

(** The computation adds to the trace nothing but copies of the call
    [ev]. *)
Definition repeats {A} (ev : event) (m : M A) : Prop :=
  forall w, exists n, w_trace (snd (m w)) = (w_trace w ++ repeat ev n)%list.



End Cover.

Import Py Gapic Agent Examples.

(** * Properties *)

(** ** Running computations *)

Section Running.
Context {A B : Type}.

Lemma bind_return (m : M A) (k : A -> M B) w a w' :
  m w = (Return a, w') -> bind m k w = k a w'.
Proof. intros H. unfold bind. now rewrite H. Qed.

Lemma bind_raise (m : M A) (k : A -> M B) w e w' :
  m w = (Raise e, w') -> bind m k w = (Raise e, w').
Proof. intros H. unfold bind. now rewrite H. Qed.

Lemma try_return (m : M A) hs w a w' :
  m w = (Return a, w') -> try_ m hs w = (Return a, w').
Proof. intros H. unfold try_. now rewrite H. Qed.

Lemma try_raise (m : M A) hs w e w' :
  m w = (Raise e, w') -> try_ m hs w = dispatch hs e w'.
Proof. intros H. unfold try_. now rewrite H. Qed.

End Running.

(** ** Operations on dictionaries in the store *)

Section DictOps.
Variables (h : gmap loc pyobj) (tr : list event) (l : loc) (d : gmap string pyval).
Hypothesis Hl : h !! l = Some (ODict d).

Lemma py_in_dict k :
  py_in k (VRef l) (World h tr) = (Return (bool_decide (is_Some (d !! k))), World h tr).
Proof. unfold py_in, bind, get_heap, ret; simpl. now rewrite Hl. Qed.

Lemma py_getitem_dict k x :
  d !! k = Some x -> py_getitem (VRef l) k (World h tr) = (Return x, World h tr).
Proof. intros Hk. unfold py_getitem, bind, get_heap, ret; simpl. now rewrite Hl, Hk. Qed.

Lemma py_pop_dict k x :
  d !! k = Some x ->
  py_pop (VRef l) k (World h tr) = (Return x, World (<[l := ODict (delete k d)]> h) tr).
Proof. intros Hk. unfold py_pop, bind, get_heap, put_heap, ret; simpl. now rewrite Hl, Hk. Qed.

Lemma py_setitem_dict k x :
  py_setitem (VRef l) k x (World h tr) = (Return tt, World (<[l := ODict (<[k := x]> d)]> h) tr).
Proof. unfold py_setitem, bind, get_heap, put_heap, ret; simpl. now rewrite Hl. Qed.

Lemma py_kwargs_dict :
  py_kwargs (VRef l) (World h tr) = (Return d, World h tr).
Proof. unfold py_kwargs, bind, get_heap, ret; simpl. now rewrite Hl. Qed.

End DictOps.

(** ** The rename steps *)

Import Dataplex.

Ltac py_unfold :=
  repeat (progress (unfold bind, py_in, py_pop, py_setitem, py_getitem, py_kwargs,
                      get_heap, put_heap, ret, raise, lift;
                    cbn [w_heap w_trace fst snd])).

Lemma rename_type_world v w :
  snd (rename_type v w) = World (renamed_store v (w_heap w)) (w_trace w).
Proof.
  destruct w as [h tr]. unfold rename_type.
  destruct v as [| b | z | s | l]; try reflexivity.
  - unfold bind, py_in, ret. simpl. destruct (contains "type" s); reflexivity.
  - simpl renamed_store. destruct (h !! l) as [[d | xs] |] eqn:Hl.
    + erewrite bind_return by (apply py_in_dict; eassumption).
      unfold renamed. destruct (d !! "type") as [x |] eqn:Hx.
      * rewrite bool_decide_eq_true_2 by eauto.
        erewrite bind_return by (eapply py_pop_dict; eassumption).
        erewrite py_setitem_dict by apply lookup_insert_eq.
        simpl. now rewrite insert_insert_eq.
      * rewrite bool_decide_eq_false_2 by (intros [? ?]; congruence).
        unfold ret; simpl. now rewrite insert_id.
    + py_unfold. rewrite Hl.
      destruct (existsb _ xs); py_unfold; try rewrite Hl; reflexivity.
    + py_unfold. rewrite Hl. reflexivity.
Qed.

Lemma renamed_no_type d : renamed d !! "type" = None.
Proof.
  unfold renamed. destruct (d !! "type") eqn:E; [|exact E].
  rewrite lookup_insert_ne by discriminate. apply lookup_delete_eq.
Qed.

Lemma renamed_idem d : renamed (renamed d) = renamed d.
Proof. unfold renamed at 1. now rewrite renamed_no_type. Qed.

Lemma renamed_other d k : k <> "type" -> k <> "type_" -> renamed d !! k = d !! k.
Proof.
  intros H1 H2. unfold renamed. destruct (d !! "type"); [|reflexivity].
  rewrite lookup_insert_ne by congruence. now rewrite lookup_delete_ne by congruence.
Qed.

Lemma rename_nested_type_world sub v w :
  sub <> "type" ->
  snd (rename_nested_type sub v w)
  = World (nested_renamed_store sub v (w_heap w)) (w_trace w).
Proof.
  intros Hsub. destruct w as [h tr]. unfold rename_nested_type.
  destruct v as [| b | z | s | l]; try reflexivity.
  - py_unfold. destruct (contains sub s); reflexivity.
  - cbn [nested_renamed_store w_heap w_trace].
    destruct (h !! l) as [[d | xs] |] eqn:Hl.
    + erewrite bind_return by (apply py_in_dict; eassumption).
      destruct (d !! sub) as [spec |] eqn:Hs.
      2:{ rewrite bool_decide_eq_false_2 by (intros [? ?]; congruence). reflexivity. }
      rewrite bool_decide_eq_true_2 by eauto.
      erewrite bind_return by (eapply py_getitem_dict; eassumption).
      destruct spec as [| b2 | z2 | s2 | l2]; try reflexivity.
      * unfold bind at 1. unfold py_in at 1, ret at 1.
        destruct (contains "type" s2); [|reflexivity].
        erewrite bind_return by (eapply py_getitem_dict; eassumption).
        reflexivity.
      * cbn [renamed_store].
        destruct (h !! l2) as [[d2 | xs2] |] eqn:Hl2.
        -- erewrite bind_return by (apply py_in_dict; eassumption).
           unfold renamed. destruct (d2 !! "type") as [x |] eqn:Hx.
           ++ rewrite bool_decide_eq_true_2 by eauto.
              erewrite bind_return by (eapply py_getitem_dict; eassumption).
              erewrite bind_return by (eapply py_pop_dict; eassumption).
              assert ((<[l2 := ODict (delete "type" d2)]> h) !! l
                      = Some (ODict (if decide (l2 = l) then delete "type" d2 else d))) as Hl'.
              { destruct (decide (l2 = l)) as [->|Hne].
                - apply lookup_insert_eq.
                - now rewrite lookup_insert_ne. }
              erewrite bind_return.
              2:{ eapply py_getitem_dict; [exact Hl'|].
                  destruct (decide (l2 = l)) as [->|Hne]; [|exact Hs].
                  rewrite lookup_delete_ne by congruence. congruence. }
              erewrite py_setitem_dict by apply lookup_insert_eq.
              cbn [snd]. now rewrite insert_insert_eq.
           ++ rewrite bool_decide_eq_false_2 by (intros [? ?]; congruence).
              unfold ret; cbn [snd]. now rewrite insert_id.
        -- unfold bind at 1. unfold py_in at 1. py_unfold. rewrite Hl2.
           destruct (existsb _ xs2); py_unfold; rewrite ?Hl, ?Hs; cbn beta iota;
             py_unfold; rewrite ?Hl2; reflexivity.
        -- py_unfold. rewrite Hl2. reflexivity.
    + py_unfold. rewrite Hl.
      destruct (existsb _ xs); py_unfold; try rewrite Hl; reflexivity.
    + py_unfold. rewrite Hl. reflexivity.
Qed.

Lemma rename_type_dict h tr l d :
  h !! l = Some (ODict d) ->
  rename_type (VRef l) (World h tr)
  = (Return tt, World (<[l := ODict (renamed d)]> h) tr).
Proof.
  intros Hl.
  pose proof (rename_type_world (VRef l) (World h tr)) as Hw.
  cbn [renamed_store w_heap w_trace] in Hw. rewrite Hl in Hw.
  destruct (rename_type (VRef l) (World h tr)) as [o w'] eqn:E.
  cbn [snd] in Hw. subst w'. f_equal.
  revert E. unfold rename_type.
  erewrite bind_return by (apply py_in_dict; eassumption).
  destruct (d !! "type") as [x |] eqn:Hx.
  - rewrite bool_decide_eq_true_2 by eauto.
    erewrite bind_return by (eapply py_pop_dict; eassumption).
    erewrite py_setitem_dict by apply lookup_insert_eq. congruence.
  - rewrite bool_decide_eq_false_2 by (intros [? ?]; congruence).
    unfold ret. congruence.
Qed.

Lemma rename_type_idem v w :
  rename_type v (snd (rename_type v w)) = rename_type v w.
Proof.
  destruct w as [h tr].
  destruct v as [| b | z | s | l];
    try (rewrite rename_type_world; reflexivity).
  destruct (h !! l) as [[d | xs] |] eqn:Hl.
  - rewrite (rename_type_dict h tr l d Hl). cbn [snd].
    rewrite (rename_type_dict _ tr l (renamed d)) by apply lookup_insert_eq.
    now rewrite renamed_idem, insert_insert_eq.
  - rewrite rename_type_world. cbn [renamed_store w_heap w_trace]. now rewrite Hl.
  - rewrite rename_type_world. cbn [renamed_store w_heap w_trace]. now rewrite Hl.
Qed.

Lemma rename_nested_type_absent sub h tr l d :
  h !! l = Some (ODict d) -> d !! sub = None ->
  rename_nested_type sub (VRef l) (World h tr) = (Return tt, World h tr).
Proof.
  intros Hl Hs. unfold rename_nested_type.
  erewrite bind_return by (apply py_in_dict; eassumption).
  rewrite bool_decide_eq_false_2 by (intros [? ?]; congruence). reflexivity.
Qed.

Lemma rename_nested_type_dict sub h tr l d l2 d2 :
  sub <> "type" ->
  h !! l = Some (ODict d) -> d !! sub = Some (VRef l2) -> h !! l2 = Some (ODict d2) ->
  rename_nested_type sub (VRef l) (World h tr)
  = (Return tt, World (<[l2 := ODict (renamed d2)]> h) tr).
Proof.
  intros Hsub Hl Hs Hl2.
  pose proof (rename_nested_type_world sub (VRef l) (World h tr) Hsub) as Hw.
  cbn [nested_renamed_store renamed_store w_heap w_trace] in Hw.
  rewrite Hl, Hs in Hw. cbn [renamed_store] in Hw. rewrite Hl2 in Hw.
  destruct (rename_nested_type sub (VRef l) (World h tr)) as [o w'] eqn:E.
  cbn [snd] in Hw. subst w'. f_equal.
  revert E. unfold rename_nested_type.
  erewrite bind_return by (apply py_in_dict; eassumption).
  rewrite bool_decide_eq_true_2 by eauto.
  erewrite bind_return by (eapply py_getitem_dict; eassumption).
  erewrite bind_return by (apply py_in_dict; eassumption).
  destruct (d2 !! "type") as [x |] eqn:Hx.
  - rewrite bool_decide_eq_true_2 by eauto.
    erewrite bind_return by (eapply py_getitem_dict; eassumption).
    erewrite bind_return by (eapply py_pop_dict; eassumption).
    assert ((<[l2 := ODict (delete "type" d2)]> h) !! l
            = Some (ODict (if decide (l2 = l) then delete "type" d2 else d))) as Hl'.
    { destruct (decide (l2 = l)) as [->|Hne].
      - apply lookup_insert_eq.
      - now rewrite lookup_insert_ne. }
    erewrite bind_return.
    2:{ eapply py_getitem_dict; [exact Hl'|].
        destruct (decide (l2 = l)) as [->|Hne]; [|exact Hs].
        rewrite lookup_delete_ne by congruence. congruence. }
    erewrite py_setitem_dict by apply lookup_insert_eq. congruence.
  - rewrite bool_decide_eq_false_2 by (intros [? ?]; congruence).
    unfold ret. congruence.
Qed.

Lemma rename_nested_type_idem sub v w :
  sub <> "type" -> sub <> "type_" ->
  rename_nested_type sub v (snd (rename_nested_type sub v w))
  = rename_nested_type sub v w.
Proof.
  intros H1 H2. destruct w as [h tr].
  assert (nested_renamed_store sub v h = h ->
          rename_nested_type sub v (snd (rename_nested_type sub v (World h tr)))
          = rename_nested_type sub v (World h tr)) as Hsame.
  { intros E. rewrite rename_nested_type_world by assumption.
    cbn [w_heap w_trace]. now rewrite E. }
  destruct v as [| b | z | s | l]; try (apply Hsame; reflexivity).
  destruct (h !! l) as [[d | xs] |] eqn:Hl;
    try (apply Hsame; cbn [nested_renamed_store]; rewrite Hl; reflexivity).
  destruct (d !! sub) as [spec |] eqn:Hs;
    try (apply Hsame; cbn [nested_renamed_store]; rewrite Hl, Hs; reflexivity).
  destruct spec as [| b2 | z2 | s2 | l2];
    try (apply Hsame; cbn [nested_renamed_store]; rewrite Hl, Hs; reflexivity).
  destruct (h !! l2) as [[d2 | xs2] |] eqn:Hl2;
    try (apply Hsame; cbn [nested_renamed_store]; rewrite Hl, Hs;
         cbn [renamed_store]; rewrite Hl2; reflexivity).
  rewrite (rename_nested_type_dict sub h tr l d l2 d2) by assumption. cbn [snd].
  rewrite (rename_nested_type_dict sub _ tr l
             (if decide (l2 = l) then renamed d2 else d) l2 (renamed d2)); trivial.
  - now rewrite renamed_idem, insert_insert_eq.
  - destruct (decide (l2 = l)) as [->|Hne].
    + apply lookup_insert_eq.
    + rewrite lookup_insert_ne by assumption. exact Hl.
  - destruct (decide (l2 = l)) as [->|Hne]; [|exact Hs].
    rewrite renamed_other by assumption. congruence.
  - apply lookup_insert_eq.
Qed.

(** ** Frame lemmas: what the building blocks leave untouched *)

Section Frame.
Context {A B : Type}.

Lemma no_effect_ret (a : A) : no_effect (ret a).
Proof. now intros w. Qed.

Lemma no_effect_raise e : no_effect (@raise A e).
Proof. now intros w. Qed.

Lemma no_effect_lift (o : outcome A) : no_effect (lift o).
Proof. now intros w. Qed.

Lemma no_effect_bind (m : M A) (k : A -> M B) :
  no_effect m -> (forall a, no_effect (k a)) -> no_effect (bind m k).
Proof.
  intros Hm Hk w. unfold bind. specialize (Hm w).
  destruct (m w) as [[a | e] w']; cbn [snd] in *; subst; [apply Hk | reflexivity].
Qed.

Lemma no_effect_dispatch (hs : list (handler A)) e :
  Forall (fun h => forall e, no_effect (snd h e)) hs -> no_effect (dispatch hs e).
Proof.
  induction 1 as [| [c h] hs Hh _ IH]; cbn [dispatch].
  - apply no_effect_raise.
  - destruct (isinstance e c); [apply Hh | exact IH].
Qed.

Lemma no_effect_try (m : M A) hs :
  no_effect m -> Forall (fun h => forall e, no_effect (snd h e)) hs -> no_effect (try_ m hs).
Proof.
  intros Hm Hhs w. unfold try_. specialize (Hm w).
  destruct (m w) as [[a | e] w']; cbn [snd] in *; subst; [reflexivity |].
  now apply no_effect_dispatch.
Qed.

Lemma no_effect_keeps (m : M A) : no_effect m -> keeps_store m.
Proof. intros Hm w. now rewrite Hm. Qed.

Lemma store_effect_bind f (m : M A) (k : A -> M B) :
  store_effect f m -> (forall a, keeps_store (k a)) -> store_effect f (bind m k).
Proof.
  intros Hm Hk w. unfold bind. specialize (Hm w).
  destruct (m w) as [[a | e] w']; cbn [snd] in *; [|exact Hm].
  now rewrite (Hk a w').
Qed.

Lemma keeps_store_bind (m : M A) (k : A -> M B) :
  keeps_store m -> (forall a, keeps_store (k a)) -> keeps_store (bind m k).
Proof. apply store_effect_bind. Qed.

Lemma keeps_store_dispatch (hs : list (handler A)) e :
  Forall (fun h => forall e, keeps_store (snd h e)) hs -> keeps_store (dispatch hs e).
Proof.
  induction 1 as [| [c h] hs Hh _ IH]; cbn [dispatch].
  - apply no_effect_keeps, no_effect_raise.
  - destruct (isinstance e c); [apply Hh | exact IH].
Qed.

Lemma store_effect_try f (m : M A) hs :
  store_effect f m -> Forall (fun h => forall e, keeps_store (snd h e)) hs ->
  store_effect f (try_ m hs).
Proof.
  intros Hm Hhs w. unfold try_. specialize (Hm w).
  destruct (m w) as [[a | e] w']; cbn [snd] in *; [exact Hm |].
  now rewrite (keeps_store_dispatch hs e Hhs w').
Qed.

End Frame.

Lemma keeps_store_log ev : keeps_store (log ev).
Proof. now intros w. Qed.

Lemma no_effect_get_heap : no_effect get_heap.
Proof. now intros w. Qed.

Lemma no_effect_py_in k v : no_effect (py_in k v).
Proof.
  intros [h tr]. destruct v as [| | | | l]; try reflexivity.
  py_unfold. now destruct (h !! l) as [[?|?]|].
Qed.

Lemma no_effect_py_getitem v k : no_effect (py_getitem v k).
Proof.
  intros [h tr]. destruct v as [| | | | l]; try reflexivity.
  py_unfold. destruct (h !! l) as [[d|?]|]; try reflexivity. now destruct (d !! k).
Qed.

Lemma no_effect_py_kwargs v : no_effect (py_kwargs v).
Proof.
  intros [h tr]. destruct v as [| | | | l]; try reflexivity.
  py_unfold. now destruct (h !! l) as [[?|?]|].
Qed.

Lemma no_effect_py_truthy v : no_effect (py_truthy v).
Proof.
  intros [h tr]. destruct v as [| | | | l]; try reflexivity.
  unfold py_truthy. py_unfold. now destruct (h !! l) as [[?|?]|].
Qed.

Lemma no_effect_py_mapping v : no_effect (py_mapping v).
Proof.
  intros [h tr]. destruct v as [| | | | l]; try reflexivity.
  unfold py_mapping. py_unfold. now destruct (h !! l) as [[?|?]|].
Qed.

Lemma no_effect_kwargs_with_name E cls n v : no_effect (kwargs_with_name E cls n v).
Proof.
  apply no_effect_bind; [apply no_effect_py_kwargs |].
  intros d. destruct (d !! "name"); [apply no_effect_raise | apply no_effect_ret].
Qed.

Lemma no_effect_new_client E cls : no_effect (new_client E cls).
Proof. unfold new_client. destruct (client_init E cls); now intros w. Qed.

Lemma no_effect_new_message E ty fields : no_effect (new_message E ty fields).
Proof.
  apply no_effect_bind; [apply no_effect_get_heap |].
  intros h. cbv zeta. destruct (proto_init E _); now intros w.
Qed.

Lemma no_effect_iterate p : no_effect (iterate p).
Proof. unfold iterate. destruct (pg_error p); now intros w. Qed.

Lemma no_effect_handle_lro op desc : no_effect (_handle_lro op desc).
Proof.
  apply no_effect_bind; [apply no_effect_lift |].
  intros [err |]; apply no_effect_ret.
Qed.

Lemma keeps_store_call_operation E m rq : keeps_store (call_operation E m rq).
Proof.
  apply keeps_store_bind; [apply keeps_store_log |].
  intros _. apply no_effect_keeps, no_effect_lift.
Qed.

Lemma keeps_store_call_message E m rq : keeps_store (call_message E m rq).
Proof.
  apply keeps_store_bind; [apply keeps_store_log |].
  intros _. apply no_effect_keeps, no_effect_lift.
Qed.

Lemma keeps_store_call_pager E m rq : keeps_store (call_pager E m rq).
Proof.
  apply keeps_store_bind; [apply keeps_store_log |].
  intros _. apply no_effect_keeps, no_effect_lift.
Qed.

Lemma keeps_store_call_empty E m rq : keeps_store (call_empty E m rq).
Proof.
  apply keeps_store_bind; [apply keeps_store_log |].
  intros _. destruct (rpc_empty E m rq); now intros w.
Qed.

Lemma store_effect_rename_type v : store_effect (renamed_store v) (rename_type v).
Proof. intros w. now rewrite rename_type_world. Qed.

Lemma store_effect_rename_nested_type sub v :
  sub <> "type" -> store_effect (nested_renamed_store sub v) (rename_nested_type sub v).
Proof. intros Hs w. now rewrite rename_nested_type_world. Qed.

Lemma store_effect_after_client {A} E cls f (k : M A) :
  store_effect f k ->
  store_effect (fun h => match client_init E cls with None => f h | Some _ => h end)
               (bind (new_client E cls) (fun _ => k)).
Proof.
  intros Hk w. unfold bind, new_client.
  destruct (client_init E cls); [reflexivity | apply Hk].
Qed.

Create HintDb tools.

#[local] Hint Unfold
  create_dataplex_lake create_dataplex_lake_body create_dataplex_lake_handlers
  get_dataplex_lake get_dataplex_lake_body get_dataplex_lake_handlers
  list_dataplex_lakes list_dataplex_lakes_body list_dataplex_lakes_handlers
  update_dataplex_lake update_dataplex_lake_body update_dataplex_lake_handlers
  delete_dataplex_lake delete_dataplex_lake_body delete_dataplex_lake_handlers
  create_dataplex_zone create_dataplex_zone_body create_dataplex_zone_handlers
  get_dataplex_zone get_dataplex_zone_body get_dataplex_zone_handlers
  list_dataplex_zones list_dataplex_zones_body list_dataplex_zones_handlers
  update_dataplex_zone update_dataplex_zone_body update_dataplex_zone_handlers
  delete_dataplex_zone delete_dataplex_zone_body delete_dataplex_zone_handlers
  create_dataplex_asset create_dataplex_asset_body create_dataplex_asset_handlers
  get_dataplex_asset get_dataplex_asset_body get_dataplex_asset_handlers
  list_dataplex_assets list_dataplex_assets_body list_dataplex_assets_handlers
  update_dataplex_asset update_dataplex_asset_body update_dataplex_asset_handlers
  delete_dataplex_asset delete_dataplex_asset_body delete_dataplex_asset_handlers
  create_dataplex_task create_dataplex_task_body create_dataplex_task_handlers
  get_dataplex_task get_dataplex_task_body get_dataplex_task_handlers
  list_dataplex_tasks list_dataplex_tasks_body list_dataplex_tasks_handlers
  update_dataplex_task update_dataplex_task_body update_dataplex_task_handlers
  delete_dataplex_task delete_dataplex_task_body delete_dataplex_task_handlers
  run_dataplex_task run_dataplex_task_body run_dataplex_task_handlers
  get_dataplex_job get_dataplex_job_body get_dataplex_job_handlers
  list_dataplex_jobs list_dataplex_jobs_body list_dataplex_jobs_handlers
  cancel_dataplex_job cancel_dataplex_job_body cancel_dataplex_job_handlers
  Dataproc.create_dataproc_cluster_async Dataproc.create_dataproc_cluster_async_body
  Dataproc.create_dataproc_cluster_async_handlers
  Dataproc.get_dataproc_cluster_async Dataproc.get_dataproc_cluster_async_body
  Dataproc.get_dataproc_cluster_async_handlers
  Dataproc.list_dataproc_clusters_async Dataproc.list_dataproc_clusters_async_body
  Dataproc.list_dataproc_clusters_async_handlers
  Dataproc.update_dataproc_cluster_async Dataproc.update_dataproc_cluster_async_body
  Dataproc.update_dataproc_cluster_async_handlers
  Dataproc.delete_dataproc_cluster_async Dataproc.delete_dataproc_cluster_async_body
  Dataproc.delete_dataproc_cluster_async_handlers
  Dataproc.list_dataproc_clusters Dataproc.list_dataproc_clusters_body
  Dataproc.list_dataproc_clusters_handlers Dataproc.initialize_clients
  on : tools.

(** Every handler of the tools only builds its answer. *)
Ltac handlers_keep :=
  repeat (apply List.Forall_cons;
          [ intros ?; cbn [snd];
            repeat match goal with
                   | |- keeps_store (if ?b then _ else _) => destruct b
                   end;
            apply no_effect_keeps, no_effect_ret |]);
  apply List.Forall_nil.

Ltac keeps :=
  repeat first
    [ progress cbv zeta
    | apply keeps_store_bind; [| intros ?]
    | apply keeps_store_log
    | apply keeps_store_call_operation
    | apply keeps_store_call_message
    | apply keeps_store_call_pager
    | apply keeps_store_call_empty
    | apply no_effect_keeps;
      first [ apply no_effect_ret | apply no_effect_raise | apply no_effect_lift
            | apply no_effect_new_client | apply no_effect_new_message
            | apply no_effect_py_kwargs | apply no_effect_py_mapping
            | apply no_effect_kwargs_with_name | apply no_effect_iterate
            | apply no_effect_handle_lro | apply no_effect_get_heap ]
    | match goal with
      | |- keeps_store (match ?x with _ => _ end) => destruct x
      end ].

Lemma keeps_store_nested_listing E rq outer : forall k acc,
  keeps_store (Dataproc.nested_listing E rq k outer acc).
Proof.
  induction outer as [| x outer IH]; intros k acc; cbn [Dataproc.nested_listing].
  - keeps.
  - apply keeps_store_bind.
    + unfold Dataproc.await_listing. keeps.
    + intros q. apply keeps_store_bind; [keeps |]. intros inner. apply IH.
Qed.

Lemma tool_store E c : store_effect (tool_store_effect E c) (run_tool E c).
Proof.
  destruct c; cbn [run_tool tool_store_effect]; autounfold with tools;
    try (apply store_effect_try; [| handlers_keep]).
  all: try (apply store_effect_after_client;
            apply store_effect_bind;
            [ first [ apply store_effect_rename_type
                    | apply store_effect_rename_nested_type; discriminate ]
            | intros ?; keeps ]).
  all: try (keeps; fail).
  - (* list_dataproc_clusters *)
    apply keeps_store_bind.
    + apply (store_effect_try (fun h => h)); [keeps | handlers_keep].
    + intros [|]; cbn [negb]; [| keeps].
      apply (store_effect_try (fun h => h)); [keeps | handlers_keep].
  - (* list_dataproc_clusters_async *)
    keeps.
    + unfold Dataproc.aiter_listing. keeps.
    + apply keeps_store_nested_listing.
Qed.

(** ** Running the create and update functions *)

(** Building the message, sending it and reading the operation: the common
    tail of the create and update functions. *)
Lemma send_message E ty fields method (rqf : message -> request) desc h tr :
  proto_init E (Message ty fields h) = None ->
  bind (new_message E ty fields)
       (fun obj => bind (call_operation E method (rqf obj))
                        (fun op => _handle_lro op desc)) (World h tr)
  = bind (lift (rpc_operation E method (rqf (Message ty fields h))))
         (fun op => _handle_lro op desc)
         (World h (tr ++ [EvCall method (rqf (Message ty fields h))])).
Proof.
  intros Hp. unfold new_message, call_operation.
  unfold bind at 1. unfold bind at 1. unfold get_heap at 1. cbn [w_heap].
  rewrite Hp. unfold ret at 1. cbv beta iota.
  unfold bind at 1. unfold bind at 1. unfold log at 1. cbn [w_heap w_trace].
  reflexivity.
Qed.

(** A constructor that rejects the message ends the body there. *)
Lemma reject_message {A} E ty fields (k : message -> M A) h tr e :
  proto_init E (Message ty fields h) = Some e ->
  bind (new_message E ty fields) k (World h tr) = (Raise e, World h tr).
Proof.
  intros Hp. unfold new_message. unfold bind at 1. unfold bind at 1.
  unfold get_heap at 1. cbn [w_heap]. rewrite Hp. reflexivity.
Qed.

Lemma snd_lift_handle_lro o desc w :
  snd (bind (lift o) (fun op => _handle_lro op desc) w) = w.
Proof.
  apply (no_effect_bind (lift o)); [apply no_effect_lift |].
  intros op. apply no_effect_handle_lro.
Qed.

Lemma snd_try {A} (m : M A) hs w :
  Forall (fun h => forall e, no_effect (snd h e)) hs ->
  snd (try_ m hs w) = snd (m w).
Proof.
  intros Hhs. unfold try_. destruct (m w) as [[a | e] w']; [reflexivity |].
  cbn [snd]. now apply no_effect_dispatch.
Qed.

Ltac handlers_pure :=
  repeat (apply List.Forall_cons;
          [ intros ?; cbn [snd];
            repeat match goal with
                   | |- no_effect (if ?b then _ else _) => destruct b
                   end;
            apply no_effect_ret |]);
  apply List.Forall_nil.

Lemma new_client_ok {A} E cls (k : unit -> M A) w :
  client_init E cls = None -> bind (new_client E cls) k w = k tt w.
Proof. intros H. unfold bind, new_client. now rewrite H. Qed.

Lemma new_client_fails {A} E cls (k : unit -> M A) w e :
  client_init E cls = Some e -> bind (new_client E cls) k w = (Raise e, w).
Proof. intros H. unfold bind, new_client. now rewrite H. Qed.

Lemma py_mapping_dict h tr l d :
  h !! l = Some (ODict d) -> py_mapping (VRef l) (World h tr) = (Return d, World h tr).
Proof. intros Hl. unfold py_mapping. py_unfold. now rewrite Hl. Qed.

Lemma kwargs_with_name_dict E cls n h tr l d :
  h !! l = Some (ODict d) -> d !! "name" = None ->
  kwargs_with_name E cls n (VRef l) (World h tr)
  = (Return (<["name" := VStr n]> d), World h tr).
Proof.
  intros Hl Hn. unfold kwargs_with_name.
  erewrite bind_return by (apply py_kwargs_dict; eassumption).
  now rewrite Hn.
Qed.

(** The configurations on which the nested rename goes through: the
    sub-object is absent, or it is a dictionary. *)
Lemma rename_nested_type_ok sub h tr l d :
  sub <> "type" ->
  h !! l = Some (ODict d) ->
  (d !! sub = None \/ exists l2 d2, d !! sub = Some (VRef l2) /\ h !! l2 = Some (ODict d2)) ->
  rename_nested_type sub (VRef l) (World h tr)
  = (Return tt, World (nested_renamed_store sub (VRef l) h) tr).
Proof.
  intros Hsub Hl [Hs | (l2 & d2 & Hs & Hl2)].
  - rewrite (rename_nested_type_absent sub h tr l d) by assumption.
    cbn [nested_renamed_store]. now rewrite Hl, Hs.
  - rewrite (rename_nested_type_dict sub h tr l d l2 d2) by assumption.
    cbn [nested_renamed_store]. rewrite Hl, Hs. cbn [renamed_store]. now rewrite Hl2.
Qed.

Section Bodies.
Variables (E : env) (h : gmap loc pyobj) (tr : list event) (lz : loc) (d : gmap string pyval).
Hypothesis Hclient : client_init E client_class = None.
Hypothesis Hdetails : h !! lz = Some (ODict d).

Lemma create_lake_body p l k :
  proto_init E (Message "Lake" d h) = None ->
  let rq := Request "CreateLakeRequest" [("parent", common_location_path p l); ("lake_id", k)]
              (Some (Message "Lake" d h)) None in
  create_dataplex_lake_body E p l k (VRef lz) (World h tr)
  = bind (lift (rpc_operation E "create_lake" rq))
         (fun op => _handle_lro op ("lake creation for '" +:+ k +:+ "'"))
         (World h (tr ++ [EvCall "create_lake" rq])).
Proof.
  intros Hp rq. unfold create_dataplex_lake_body. cbv zeta.
  rewrite new_client_ok by assumption.
  erewrite bind_return by (apply py_mapping_dict; eassumption).
  now rewrite (send_message E "Lake" d "create_lake"
                 (fun obj => Request "CreateLakeRequest"
                               [("parent", common_location_path p l); ("lake_id", k)]
                               (Some obj) None)) by assumption.
Qed.

Lemma update_lake_body p l k mask :
  d !! "name" = None ->
  let fields := <["name" := VStr (lake_path p l k)]> d in
  proto_init E (Message "Lake" fields h) = None ->
  let rq := Request "UpdateLakeRequest" [] (Some (Message "Lake" fields h)) (Some mask) in
  update_dataplex_lake_body E p l k mask (VRef lz) (World h tr)
  = bind (lift (rpc_operation E "update_lake" rq))
         (fun op => _handle_lro op ("lake update for '" +:+ k +:+ "'"))
         (World h (tr ++ [EvCall "update_lake" rq])).
Proof.
  intros Hn fields Hp rq. unfold update_dataplex_lake_body. cbv zeta.
  rewrite new_client_ok by assumption.
  erewrite bind_return by (apply kwargs_with_name_dict; eassumption).
  now rewrite (send_message E "Lake" fields "update_lake"
                 (fun obj => Request "UpdateLakeRequest" [] (Some obj) (Some mask)))
    by assumption.
Qed.

Lemma create_zone_body p l k z :
  let h' := <[lz := ODict (renamed d)]> h in
  proto_init E (Message "Zone" (renamed d) h') = None ->
  let rq := Request "CreateZoneRequest" [("parent", lake_path p l k); ("zone_id", z)]
              (Some (Message "Zone" (renamed d) h')) None in
  create_dataplex_zone_body E p l k z (VRef lz) (World h tr)
  = bind (lift (rpc_operation E "create_zone" rq))
         (fun op => _handle_lro op
                      ("zone creation for '" +:+ z +:+ "' in lake '" +:+ k +:+ "'"))
         (World h' (tr ++ [EvCall "create_zone" rq])).
Proof.
  intros h' Hp rq. unfold create_dataplex_zone_body. cbv zeta.
  rewrite new_client_ok by assumption.
  erewrite bind_return by (apply rename_type_dict; eassumption).
  erewrite bind_return by (apply py_kwargs_dict; apply lookup_insert_eq).
  now rewrite (send_message E "Zone" (renamed d) "create_zone"
                 (fun obj => Request "CreateZoneRequest"
                               [("parent", lake_path p l k); ("zone_id", z)] (Some obj) None))
    by assumption.
Qed.

Lemma update_zone_body p l k z mask :
  renamed d !! "name" = None ->
  let h' := <[lz := ODict (renamed d)]> h in
  let fields := <["name" := VStr (zone_path p l k z)]> (renamed d) in
  proto_init E (Message "Zone" fields h') = None ->
  let rq := Request "UpdateZoneRequest" [] (Some (Message "Zone" fields h')) (Some mask) in
  update_dataplex_zone_body E p l k z mask (VRef lz) (World h tr)
  = bind (lift (rpc_operation E "update_zone" rq))
         (fun op => _handle_lro op ("zone update for '" +:+ z +:+ "'"))
         (World h' (tr ++ [EvCall "update_zone" rq])).
Proof.
  intros Hn h' fields Hp rq. unfold update_dataplex_zone_body. cbv zeta.
  rewrite new_client_ok by assumption.
  erewrite bind_return by (apply rename_type_dict; eassumption).
  erewrite bind_return
    by (apply kwargs_with_name_dict; [apply lookup_insert_eq | assumption]).
  now rewrite (send_message E "Zone" fields "update_zone"
                 (fun obj => Request "UpdateZoneRequest" [] (Some obj) (Some mask)))
    by assumption.
Qed.

Lemma create_lake_rejected p l k e :
  proto_init E (Message "Lake" d h) = Some e ->
  create_dataplex_lake_body E p l k (VRef lz) (World h tr) = (Raise e, World h tr).
Proof.
  intros Hp. unfold create_dataplex_lake_body. cbv zeta.
  rewrite new_client_ok by assumption.
  erewrite bind_return by (apply py_mapping_dict; eassumption).
  now apply reject_message.
Qed.

Lemma update_lake_rejected p l k mask e :
  d !! "name" = None ->
  proto_init E (Message "Lake" (<["name" := VStr (lake_path p l k)]> d) h) = Some e ->
  update_dataplex_lake_body E p l k mask (VRef lz) (World h tr) = (Raise e, World h tr).
Proof.
  intros Hn Hp. unfold update_dataplex_lake_body. cbv zeta.
  rewrite new_client_ok by assumption.
  erewrite bind_return by (apply kwargs_with_name_dict; eassumption).
  now apply reject_message.
Qed.

Lemma create_zone_rejected p l k z e :
  let h' := <[lz := ODict (renamed d)]> h in
  proto_init E (Message "Zone" (renamed d) h') = Some e ->
  create_dataplex_zone_body E p l k z (VRef lz) (World h tr) = (Raise e, World h' tr).
Proof.
  intros h' Hp. unfold create_dataplex_zone_body. cbv zeta.
  rewrite new_client_ok by assumption.
  erewrite bind_return by (apply rename_type_dict; eassumption).
  erewrite bind_return by (apply py_kwargs_dict; apply lookup_insert_eq).
  now apply reject_message.
Qed.

Lemma update_zone_rejected p l k z mask e :
  renamed d !! "name" = None ->
  let h' := <[lz := ODict (renamed d)]> h in
  proto_init E (Message "Zone" (<["name" := VStr (zone_path p l k z)]> (renamed d)) h')
    = Some e ->
  update_dataplex_zone_body E p l k z mask (VRef lz) (World h tr) = (Raise e, World h' tr).
Proof.
  intros Hn h' Hp. unfold update_dataplex_zone_body. cbv zeta.
  rewrite new_client_ok by assumption.
  erewrite bind_return by (apply rename_type_dict; eassumption).
  erewrite bind_return
    by (apply kwargs_with_name_dict; [apply lookup_insert_eq | assumption]).
  now apply reject_message.
Qed.

(** The asset and task functions, on a configuration whose sub-object is
    absent or a dictionary; [fields] is the caller's dictionary after the
    nested rename. *)
Section Nested.
Variables (sub : string) (fields : gmap string pyval).
Hypothesis Hsub : sub <> "type".
Hypothesis Hshape :
  d !! sub = None \/ exists l2 d2, d !! sub = Some (VRef l2) /\ h !! l2 = Some (ODict d2).
Hypothesis Hfields : nested_renamed_store sub (VRef lz) h !! lz = Some (ODict fields).

Lemma create_asset_body p l k z a :
  sub = "resource_spec" ->
  let h' := nested_renamed_store sub (VRef lz) h in
  proto_init E (Message "Asset" fields h') = None ->
  let rq := Request "CreateAssetRequest" [("parent", zone_path p l k z); ("asset_id", a)]
              (Some (Message "Asset" fields h')) None in
  create_dataplex_asset_body E p l k z a (VRef lz) (World h tr)
  = bind (lift (rpc_operation E "create_asset" rq))
         (fun op => _handle_lro op
                      ("asset creation for '" +:+ a +:+ "' in zone '" +:+ z +:+ "'"))
         (World h' (tr ++ [EvCall "create_asset" rq])).
Proof.
  intros Hs h' Hp rq. unfold create_dataplex_asset_body. cbv zeta. subst sub.
  rewrite new_client_ok by assumption.
  erewrite bind_return by (eapply rename_nested_type_ok; eassumption).
  erewrite bind_return by (apply py_kwargs_dict; eassumption).
  now rewrite (send_message E "Asset" fields "create_asset"
                 (fun obj => Request "CreateAssetRequest"
                               [("parent", zone_path p l k z); ("asset_id", a)] (Some obj) None))
    by assumption.
Qed.

Lemma update_asset_body p l k z a mask :
  sub = "resource_spec" ->
  fields !! "name" = None ->
  let h' := nested_renamed_store sub (VRef lz) h in
  let named := <["name" := VStr (asset_path p l k z a)]> fields in
  proto_init E (Message "Asset" named h') = None ->
  let rq := Request "UpdateAssetRequest" [] (Some (Message "Asset" named h')) (Some mask) in
  update_dataplex_asset_body E p l k z a mask (VRef lz) (World h tr)
  = bind (lift (rpc_operation E "update_asset" rq))
         (fun op => _handle_lro op ("asset update for '" +:+ a +:+ "'"))
         (World h' (tr ++ [EvCall "update_asset" rq])).
Proof.
  intros Hs Hn h' named Hp rq. unfold update_dataplex_asset_body. cbv zeta. subst sub.
  rewrite new_client_ok by assumption.
  erewrite bind_return by (eapply rename_nested_type_ok; eassumption).
  erewrite bind_return by (apply kwargs_with_name_dict; eassumption).
  now rewrite (send_message E "Asset" named "update_asset"
                 (fun obj => Request "UpdateAssetRequest" [] (Some obj) (Some mask)))
    by assumption.
Qed.

Lemma create_task_body p l k t :
  sub = "trigger_spec" ->
  let h' := nested_renamed_store sub (VRef lz) h in
  proto_init E (Message "Task" fields h') = None ->
  let rq := Request "CreateTaskRequest" [("parent", lake_path p l k); ("task_id", t)]
              (Some (Message "Task" fields h')) None in
  create_dataplex_task_body E p l k t (VRef lz) (World h tr)
  = bind (lift (rpc_operation E "create_task" rq))
         (fun op => _handle_lro op
                      ("task creation for '" +:+ t +:+ "' in lake '" +:+ k +:+ "'"))
         (World h' (tr ++ [EvCall "create_task" rq])).
Proof.
  intros Hs h' Hp rq. unfold create_dataplex_task_body. cbv zeta. subst sub.
  rewrite new_client_ok by assumption.
  erewrite bind_return by (eapply rename_nested_type_ok; eassumption).
  erewrite bind_return by (apply py_kwargs_dict; eassumption).
  now rewrite (send_message E "Task" fields "create_task"
                 (fun obj => Request "CreateTaskRequest"
                               [("parent", lake_path p l k); ("task_id", t)] (Some obj) None))
    by assumption.
Qed.

Lemma update_task_body p l k t mask :
  sub = "trigger_spec" ->
  fields !! "name" = None ->
  let h' := nested_renamed_store sub (VRef lz) h in
  let named := <["name" := VStr (task_path p l k t)]> fields in
  proto_init E (Message "Task" named h') = None ->
  let rq := Request "UpdateTaskRequest" [] (Some (Message "Task" named h')) (Some mask) in
  update_dataplex_task_body E p l k t mask (VRef lz) (World h tr)
  = bind (lift (rpc_operation E "update_task" rq))
         (fun op => _handle_lro op ("task update for '" +:+ t +:+ "'"))
         (World h' (tr ++ [EvCall "update_task" rq])).
Proof.
  intros Hs Hn h' named Hp rq. unfold update_dataplex_task_body. cbv zeta. subst sub.
  rewrite new_client_ok by assumption.
  erewrite bind_return by (eapply rename_nested_type_ok; eassumption).
  erewrite bind_return by (apply kwargs_with_name_dict; eassumption).
  now rewrite (send_message E "Task" named "update_task"
                 (fun obj => Request "UpdateTaskRequest" [] (Some obj) (Some mask)))
    by assumption.
Qed.

Lemma create_asset_rejected p l k z a e :
  sub = "resource_spec" ->
  let h' := nested_renamed_store sub (VRef lz) h in
  proto_init E (Message "Asset" fields h') = Some e ->
  create_dataplex_asset_body E p l k z a (VRef lz) (World h tr) = (Raise e, World h' tr).
Proof.
  intros Hs h' Hp. unfold create_dataplex_asset_body. cbv zeta. subst sub.
  rewrite new_client_ok by assumption.
  erewrite bind_return by (eapply rename_nested_type_ok; eassumption).
  erewrite bind_return by (apply py_kwargs_dict; eassumption).
  now apply reject_message.
Qed.

Lemma update_asset_rejected p l k z a mask e :
  sub = "resource_spec" ->
  fields !! "name" = None ->
  let h' := nested_renamed_store sub (VRef lz) h in
  proto_init E (Message "Asset" (<["name" := VStr (asset_path p l k z a)]> fields) h')
    = Some e ->
  update_dataplex_asset_body E p l k z a mask (VRef lz) (World h tr) = (Raise e, World h' tr).
Proof.
  intros Hs Hn h' Hp. unfold update_dataplex_asset_body. cbv zeta. subst sub.
  rewrite new_client_ok by assumption.
  erewrite bind_return by (eapply rename_nested_type_ok; eassumption).
  erewrite bind_return by (apply kwargs_with_name_dict; eassumption).
  now apply reject_message.
Qed.

Lemma create_task_rejected p l k t e :
  sub = "trigger_spec" ->
  let h' := nested_renamed_store sub (VRef lz) h in
  proto_init E (Message "Task" fields h') = Some e ->
  create_dataplex_task_body E p l k t (VRef lz) (World h tr) = (Raise e, World h' tr).
Proof.
  intros Hs h' Hp. unfold create_dataplex_task_body. cbv zeta. subst sub.
  rewrite new_client_ok by assumption.
  erewrite bind_return by (eapply rename_nested_type_ok; eassumption).
  erewrite bind_return by (apply py_kwargs_dict; eassumption).
  now apply reject_message.
Qed.

Lemma update_task_rejected p l k t mask e :
  sub = "trigger_spec" ->
  fields !! "name" = None ->
  let h' := nested_renamed_store sub (VRef lz) h in
  proto_init E (Message "Task" (<["name" := VStr (task_path p l k t)]> fields) h')
    = Some e ->
  update_dataplex_task_body E p l k t mask (VRef lz) (World h tr) = (Raise e, World h' tr).
Proof.
  intros Hs Hn h' Hp. unfold update_dataplex_task_body. cbv zeta. subst sub.
  rewrite new_client_ok by assumption.
  erewrite bind_return by (eapply rename_nested_type_ok; eassumption).
  erewrite bind_return by (apply kwargs_with_name_dict; eassumption).
  now apply reject_message.
Qed.

End Nested.
End Bodies.

(** ** Remote calls leave one event in the trace *)

Ltac pure :=
  repeat first
    [ progress cbv zeta
    | apply no_effect_bind; [| intros ?]
    | apply no_effect_ret | apply no_effect_raise | apply no_effect_lift
    | apply no_effect_new_client | apply no_effect_new_message
    | apply no_effect_py_kwargs | apply no_effect_py_mapping
    | apply no_effect_kwargs_with_name | apply no_effect_iterate
    | apply no_effect_handle_lro | apply no_effect_get_heap
    | match goal with
      | |- no_effect (match ?x with _ => _ end) => destruct x
      end ].

Section Calls.
Context {A : Type}.
Variables (E : env) (m : string) (rq : request) (w : world).

Lemma snd_call_operation (k : operation -> M A) :
  (forall a, no_effect (k a)) ->
  snd (bind (call_operation E m rq) k w) = logged w (EvCall m rq).
Proof.
  intros Hk. unfold call_operation, bind at 1 2, log, lift.
  destruct (rpc_operation E m rq); [apply Hk | reflexivity].
Qed.

Lemma snd_call_message (k : json -> M A) :
  (forall a, no_effect (k a)) ->
  snd (bind (call_message E m rq) k w) = logged w (EvCall m rq).
Proof.
  intros Hk. unfold call_message, bind at 1 2, log, lift.
  destruct (rpc_message E m rq); [apply Hk | reflexivity].
Qed.

Lemma snd_call_pager (k : pager -> M A) :
  (forall a, no_effect (k a)) ->
  snd (bind (call_pager E m rq) k w) = logged w (EvCall m rq).
Proof.
  intros Hk. unfold call_pager, bind at 1 2, log, lift.
  destruct (rpc_pager E m rq); [apply Hk | reflexivity].
Qed.

Lemma snd_call_empty (k : unit -> M A) :
  (forall a, no_effect (k a)) ->
  snd (bind (call_empty E m rq) k w) = logged w (EvCall m rq).
Proof.
  intros Hk. unfold call_empty, bind at 1 2, log.
  destruct (rpc_empty E m rq); [reflexivity | apply Hk].
Qed.

End Calls.

Lemma snd_call_message_last E m rq w :
  snd (call_message E m rq w) = logged w (EvCall m rq).
Proof.
  unfold call_message, bind, log, lift. now destruct (rpc_message E m rq).
Qed.

(** A tool that takes identifying strings only sends its request as soon as
    the client is there, whatever the strings are. *)
Lemma plain_call_world E c ev w :
  plain_call c = Some ev ->
  client_init E client_class = None ->
  snd (run_tool E c w) = logged w ev.
Proof.
  intros Hc Hi.
  destruct c; try discriminate; injection Hc as <-;
    cbn [run_tool]; autounfold with tools;
    (rewrite snd_try by handlers_pure); cbv zeta;
    (rewrite new_client_ok by assumption);
    first [ apply snd_call_message_last
          | apply snd_call_operation; intros ?; pure
          | apply snd_call_message; intros ?; pure
          | apply snd_call_pager; intros ?; pure
          | apply snd_call_empty; intros ?; pure ].
Qed.

(** ** The message of a create or update call *)

Lemma config_fields_inv h v d :
  config_fields h v = Some d -> exists l, v = VRef l /\ h !! l = Some (ODict d).
Proof.
  destruct v as [| | | | l]; cbn [config_fields]; try discriminate.
  destruct (h !! l) as [[d' | ?] |] eqn:Hl; try discriminate. intros [= <-]. eauto.
Qed.

Lemma optional_dict_spec sub h d :
  optional_dict sub h d = true ->
  d !! sub = None \/ exists l2 d2, d !! sub = Some (VRef l2) /\ h !! l2 = Some (ODict d2).
Proof.
  unfold optional_dict. destruct (d !! sub) as [[| | | | l2] |]; try discriminate; [| now left].
  destruct (h !! l2) as [[d2 | ?] |] eqn:Hl2; try discriminate. right. eauto.
Qed.

Lemma with_name_inv ty n d h m :
  with_name ty n d h = Some m ->
  d !! "name" = None /\ m = Message ty (<["name" := VStr n]> d) h.
Proof. unfold with_name. destruct (d !! "name"); [discriminate |]. now intros [= <-]. Qed.

Lemma renamed_store_fields l h d :
  renamed_store (VRef l) h !! l = Some (ODict d) ->
  exists d0, h !! l = Some (ODict d0) /\ d = renamed d0 /\
             renamed_store (VRef l) h = <[l := ODict (renamed d0)]> h.
Proof.
  cbn [renamed_store]. destruct (h !! l) as [[d0 | xs] |] eqn:Hl.
  - rewrite lookup_insert_eq. intros [= <-]. eauto.
  - rewrite Hl. discriminate.
  - rewrite Hl. discriminate.
Qed.

Lemma sent_messages_logged_trace h h' tr meth ty args m mask :
  sent_messages (logged (World h' tr) (EvCall meth (Request ty args (Some m) mask)))
  = (sent_messages (World h tr) ++ [m])%list.
Proof. unfold sent_messages, logged. cbn [w_trace]. now rewrite omap_app. Qed.

(** From the equation of a body to the world the tool leaves. *)
Lemma snd_tool_of_body (body : M json) hs o desc w w' :
  Forall (fun h => forall e, no_effect (snd h e)) hs ->
  body w = bind (lift o) (fun op => _handle_lro op desc) w' ->
  snd (try_ body hs w) = w'.
Proof.
  intros Hhs Hb. rewrite snd_try by assumption. rewrite Hb. apply snd_lift_handle_lro.
Qed.

Lemma tool_message_world E c h tr m :
  client_init E client_class = None ->
  tool_message c h = Some m ->
  proto_init E m = None ->
  exists ev, snd (run_tool E c (World h tr)) = logged (World (msg_store m) tr) ev /\
             sent_messages (logged (World (msg_store m) tr) ev)
             = (sent_messages (World h tr) ++ [m])%list.
Proof.
  intros Hi Hm Hp.
  destruct c; try discriminate; cbn [tool_message] in Hm; cbv zeta in Hm.
  - (* create lake *)
    destruct (config_fields h lake_details) as [d |] eqn:Hd; [| discriminate].
    injection Hm as <-. apply config_fields_inv in Hd as (lz & -> & Hl).
    eexists. split; [| apply sent_messages_logged_trace]. cbn [run_tool msg_store].
    eapply snd_tool_of_body; [unfold create_dataplex_lake_handlers, on; handlers_pure |].
    now apply create_lake_body.
  - (* update lake *)
    destruct (config_fields h updated_lake_details) as [d |] eqn:Hd; [| discriminate].
    apply with_name_inv in Hm as [Hn ->]. apply config_fields_inv in Hd as (lz & -> & Hl).
    eexists. split; [| apply sent_messages_logged_trace]. cbn [run_tool msg_store].
    eapply snd_tool_of_body; [unfold update_dataplex_lake_handlers, on; handlers_pure |].
    now apply update_lake_body.
  - (* create zone *)
    destruct (config_fields _ zone_details) as [d |] eqn:Hd; [| discriminate].
    injection Hm as <-. apply config_fields_inv in Hd as (lz & -> & Hl).
    apply renamed_store_fields in Hl as (d0 & Hl & -> & Hs). rewrite Hs in *.
    eexists. split; [| apply sent_messages_logged_trace]. cbn [run_tool msg_store].
    eapply snd_tool_of_body; [unfold create_dataplex_zone_handlers, on; handlers_pure |].
    now apply create_zone_body.
  - (* update zone *)
    destruct (config_fields _ updated_zone_details) as [d |] eqn:Hd; [| discriminate].
    apply with_name_inv in Hm as [Hn ->]. apply config_fields_inv in Hd as (lz & -> & Hl).
    apply renamed_store_fields in Hl as (d0 & Hl & -> & Hs). rewrite Hs in *.
    eexists. split; [| apply sent_messages_logged_trace]. cbn [run_tool msg_store].
    eapply snd_tool_of_body; [unfold update_dataplex_zone_handlers, on; handlers_pure |].
    now apply update_zone_body.
  - (* create asset *)
    destruct (config_fields h asset_details) as [d0 |] eqn:Hd0; [| discriminate].
    destruct (config_fields _ asset_details) as [d |] eqn:Hd in Hm; [| discriminate].
    destruct (optional_dict _ h d0) eqn:Ho; [| discriminate]. injection Hm as <-.
    apply config_fields_inv in Hd0 as (lz & -> & Hl).
    apply config_fields_inv in Hd as (lz' & [= <-] & Hl').
    apply optional_dict_spec in Ho.
    eexists. split; [| apply sent_messages_logged_trace]. cbn [run_tool msg_store].
    eapply snd_tool_of_body; [unfold create_dataplex_asset_handlers, on; handlers_pure |].
    eapply create_asset_body; eauto; discriminate.
  - (* update asset *)
    destruct (config_fields h updated_asset_details) as [d0 |] eqn:Hd0; [| discriminate].
    destruct (config_fields _ updated_asset_details) as [d |] eqn:Hd in Hm; [| discriminate].
    destruct (optional_dict _ h d0) eqn:Ho; [| discriminate].
    apply with_name_inv in Hm as [Hn ->].
    apply config_fields_inv in Hd0 as (lz & -> & Hl).
    apply config_fields_inv in Hd as (lz' & [= <-] & Hl').
    apply optional_dict_spec in Ho.
    eexists. split; [| apply sent_messages_logged_trace]. cbn [run_tool msg_store].
    eapply snd_tool_of_body; [unfold update_dataplex_asset_handlers, on; handlers_pure |].
    eapply update_asset_body; eauto; discriminate.
  - (* create task *)
    destruct (config_fields h task_details) as [d0 |] eqn:Hd0; [| discriminate].
    destruct (config_fields _ task_details) as [d |] eqn:Hd in Hm; [| discriminate].
    destruct (optional_dict _ h d0) eqn:Ho; [| discriminate]. injection Hm as <-.
    apply config_fields_inv in Hd0 as (lz & -> & Hl).
    apply config_fields_inv in Hd as (lz' & [= <-] & Hl').
    apply optional_dict_spec in Ho.
    eexists. split; [| apply sent_messages_logged_trace]. cbn [run_tool msg_store].
    eapply snd_tool_of_body; [unfold create_dataplex_task_handlers, on; handlers_pure |].
    eapply create_task_body; eauto; discriminate.
  - (* update task *)
    destruct (config_fields h updated_task_details) as [d0 |] eqn:Hd0; [| discriminate].
    destruct (config_fields _ updated_task_details) as [d |] eqn:Hd in Hm; [| discriminate].
    destruct (optional_dict _ h d0) eqn:Ho; [| discriminate].
    apply with_name_inv in Hm as [Hn ->].
    apply config_fields_inv in Hd0 as (lz & -> & Hl).
    apply config_fields_inv in Hd as (lz' & [= <-] & Hl').
    apply optional_dict_spec in Ho.
    eexists. split; [| apply sent_messages_logged_trace]. cbn [run_tool msg_store].
    eapply snd_tool_of_body; [unfold update_dataplex_task_handlers, on; handlers_pure |].
    eapply update_task_body; eauto; discriminate.
Qed.

(** ... and when the constructor rejects that message, its exception goes
    to the clauses of the tool, in the store the message was read in and
    with nothing sent. *)
Lemma tool_message_rejected E c h tr m e :
  client_init E client_class = None ->
  tool_message c h = Some m ->
  proto_init E m = Some e ->
  run_tool E c (World h tr) = dispatch (Cover.tool_ladder c) e (World (msg_store m) tr).
Proof.
  intros Hi Hm Hp.
  destruct c; try discriminate; cbn [tool_message] in Hm; cbv zeta in Hm;
    cbn [run_tool Cover.tool_ladder].
  - destruct (config_fields h lake_details) as [d |] eqn:Hd; [| discriminate].
    injection Hm as <-. apply config_fields_inv in Hd as (lz & -> & Hl).
    apply try_raise. eapply create_lake_rejected; eassumption.
  - destruct (config_fields h updated_lake_details) as [d |] eqn:Hd; [| discriminate].
    apply with_name_inv in Hm as [Hn ->]. apply config_fields_inv in Hd as (lz & -> & Hl).
    apply try_raise. eapply update_lake_rejected; eassumption.
  - destruct (config_fields _ zone_details) as [d |] eqn:Hd; [| discriminate].
    injection Hm as <-. apply config_fields_inv in Hd as (lz & -> & Hl).
    apply renamed_store_fields in Hl as (d0 & Hl & -> & Hs). rewrite Hs in *.
    apply try_raise. eapply create_zone_rejected; eassumption.
  - destruct (config_fields _ updated_zone_details) as [d |] eqn:Hd; [| discriminate].
    apply with_name_inv in Hm as [Hn ->]. apply config_fields_inv in Hd as (lz & -> & Hl).
    apply renamed_store_fields in Hl as (d0 & Hl & -> & Hs). rewrite Hs in *.
    apply try_raise. eapply update_zone_rejected; eassumption.
  - destruct (config_fields h asset_details) as [d0 |] eqn:Hd0; [| discriminate].
    destruct (config_fields _ asset_details) as [d |] eqn:Hd in Hm; [| discriminate].
    destruct (optional_dict _ h d0) eqn:Ho; [| discriminate]. injection Hm as <-.
    apply config_fields_inv in Hd0 as (lz & -> & Hl).
    apply config_fields_inv in Hd as (lz' & [= <-] & Hl').
    apply optional_dict_spec in Ho.
    apply try_raise. eapply create_asset_rejected; eauto; discriminate.
  - destruct (config_fields h updated_asset_details) as [d0 |] eqn:Hd0; [| discriminate].
    destruct (config_fields _ updated_asset_details) as [d |] eqn:Hd in Hm; [| discriminate].
    destruct (optional_dict _ h d0) eqn:Ho; [| discriminate].
    apply with_name_inv in Hm as [Hn ->].
    apply config_fields_inv in Hd0 as (lz & -> & Hl).
    apply config_fields_inv in Hd as (lz' & [= <-] & Hl').
    apply optional_dict_spec in Ho.
    apply try_raise. eapply update_asset_rejected; eauto; discriminate.
  - destruct (config_fields h task_details) as [d0 |] eqn:Hd0; [| discriminate].
    destruct (config_fields _ task_details) as [d |] eqn:Hd in Hm; [| discriminate].
    destruct (optional_dict _ h d0) eqn:Ho; [| discriminate]. injection Hm as <-.
    apply config_fields_inv in Hd0 as (lz & -> & Hl).
    apply config_fields_inv in Hd as (lz' & [= <-] & Hl').
    apply optional_dict_spec in Ho.
    apply try_raise. eapply create_task_rejected; eauto; discriminate.
  - destruct (config_fields h updated_task_details) as [d0 |] eqn:Hd0; [| discriminate].
    destruct (config_fields _ updated_task_details) as [d |] eqn:Hd in Hm; [| discriminate].
    destruct (optional_dict _ h d0) eqn:Ho; [| discriminate].
    apply with_name_inv in Hm as [Hn ->].
    apply config_fields_inv in Hd0 as (lz & -> & Hl).
    apply config_fields_inv in Hd as (lz' & [= <-] & Hl').
    apply optional_dict_spec in Ho.
    apply try_raise. eapply update_task_rejected; eauto; discriminate.
Qed.

(** * The properties of the specification *)

Lemma renamed_store_single v h :
  exists l0, forall l, l <> l0 -> renamed_store v h !! l = h !! l.
Proof.
  destruct v as [| | | | l0]; try (exists 1%positive; reflexivity).
  exists l0. intros l Hne. cbn [renamed_store].
  destruct (h !! l0) as [[d | ?] |]; try reflexivity.
  now rewrite lookup_insert_ne.
Qed.

Lemma nested_renamed_store_single sub v h :
  exists l0, forall l, l <> l0 -> nested_renamed_store sub v h !! l = h !! l.
Proof.
  destruct v as [| | | | lz]; try (exists 1%positive; reflexivity).
  cbn [nested_renamed_store].
  destruct (h !! lz) as [[d | ?] |]; try (exists 1%positive; reflexivity).
  destruct (d !! sub) as [spec |]; [apply renamed_store_single | exists 1%positive; reflexivity].
Qed.

Lemma tool_message_store c h m :
  tool_message c h = Some m ->
  exists l0, forall l, l <> l0 -> msg_store m !! l = h !! l.
Proof.
  intros Hm.
  assert (forall ty n d h' m', with_name ty n d h' = Some m' -> msg_store m' = h') as Hwn.
  { intros ty n d h' m' H. apply with_name_inv in H as [_ ->]. reflexivity. }
  destruct c; try discriminate; cbn [tool_message] in Hm; cbv zeta in Hm;
    repeat match type of Hm with
           | match ?x with _ => _ end = Some _ => destruct x eqn:?; try discriminate
           end;
    first [ injection Hm as <- | apply Hwn in Hm; rewrite Hm ]; cbn [msg_store];
    first [ apply renamed_store_single | apply nested_renamed_store_single
          | exists 1%positive; reflexivity ].
Qed.

Lemma tool_ladder_pure c :
  Forall (fun h : handler json => forall e, no_effect (snd h e)) (Cover.tool_ladder c).
Proof. destruct c; cbn [Cover.tool_ladder]; autounfold with tools; handlers_pure. Qed.

(** C1, as amended.  Each create or update function of the Dataplex tools
    renames ['type'] to ['type_'] at the one place it hard-codes, and nowhere
    else.  The message it hands to the constructor has the fields of the
    caller's dictionary after that single rename ([tool_message]), read in
    the store after it; whatever the constructor decides, that store is the
    one the call leaves behind, and it differs from the caller's in at most
    one object.  So a ['type'] key at any other depth stays in the caller's
    dictionary and is handed to the constructor as it is: when the
    constructor accepts the message it is sent like that, and when it
    rejects the message its exception goes to the clauses of the tool and
    nothing is sent. *)
Theorem rename_only_at_hardcoded_place E c h tr m :
  client_init E client_class = None ->
  tool_message c h = Some m ->
  w_heap (snd (run_tool E c (World h tr))) = msg_store m /\
  (exists l0, forall l, l <> l0 -> msg_store m !! l = h !! l) /\
  match proto_init E m with
  | None =>
      sent_messages (snd (run_tool E c (World h tr)))
      = (sent_messages (World h tr) ++ [m])%list
  | Some e =>
      run_tool E c (World h tr)
      = dispatch (Cover.tool_ladder c) e (World (msg_store m) tr)
  end.
Proof.
  intros Hi Hm.
  assert (exists l0, forall l, l <> l0 -> msg_store m !! l = h !! l) as Hsingle
    by (eapply tool_message_store; eassumption).
  destruct (proto_init E m) as [e |] eqn:Hp.
  - rewrite (tool_message_rejected E c h tr m e Hi Hm Hp).
    rewrite (no_effect_dispatch _ e (tool_ladder_pure c)).
    split; [reflexivity |]. split; [exact Hsingle | reflexivity].
  - destruct (tool_message_world E c h tr m Hi Hm Hp) as (ev & -> & Hs).
    split; [reflexivity |]. split; [exact Hsingle | exact Hs].
Qed.

Lemma rename_only_at_hardcoded_place_witness :
  client_init accepting_env client_class = None /\
  tool_message zone_call zone_store = Some zone_message /\
  w_heap (snd (run_tool accepting_env zone_call (World zone_store []))) = msg_store zone_message /\
  (exists l0, forall l, l <> l0 -> msg_store zone_message !! l = zone_store !! l) /\
  sent_messages (snd (run_tool accepting_env zone_call (World zone_store [])))
    = (sent_messages (World zone_store []) ++ [zone_message])%list.
Proof.
  split; [reflexivity |]. split; [vm_compute; reflexivity |].
  pose proof (rename_only_at_hardcoded_place accepting_env zone_call zone_store [] zone_message
                eq_refl) as H.
  assert (proto_init accepting_env zone_message = None) as Hp by (vm_compute; reflexivity).
  rewrite Hp in H. apply H. vm_compute. reflexivity.
Defined.

(** C1, as stated, fails.  Handed [{'resource_spec': {'type': 'STORAGE_BUCKET'}}],
    create_dataplex_zone renames nothing: the message it hands to the
    constructor still has the nested ['type'], and so has the caller's
    dictionary after the call.  Behind the library's constructor, which
    rejects the key, nothing is sent and the answer is an error
    dictionary. *)
Lemma nested_type_not_renamed :
  let c := Create_dataplex_zone "p" "l" "lake" "z" (VRef 1%positive) in
  let m := Message "Zone" {["resource_spec" := VRef 2%positive]} asset_store in
  let after := run_tool accepting_env c (start asset_store) in
  tool_message c asset_store = Some m /\
  ~ type_free m /\
  w_heap (snd after) = asset_store /\
  ~ (forall l d, w_heap (snd after) !! l = Some (ODict d) -> d !! "type" = None) /\
  sent_messages (snd after) = [] /\
  exists r, fst after = Return r /\ is_error_shaped r = true.
Proof.
  intros c m after.
  assert (w_heap (snd after) = asset_store) as Hh by (vm_compute; reflexivity).
  split; [vm_compute; reflexivity |]. split; [| split; [exact Hh | split; [| split]]].
  - intros H. apply (H 1%nat).
    right. exists "resource_spec", 2%positive, {["type" := VStr "STORAGE_BUCKET"]}.
    split; [reflexivity |]. split; [reflexivity |].
    left. now exists (VStr "STORAGE_BUCKET").
  - intros H. rewrite Hh in H.
    specialize (H 2%positive {["type" := VStr "STORAGE_BUCKET"]} eq_refl).
    discriminate H.
  - vm_compute. reflexivity.
  - eexists. split; vm_compute; reflexivity.
Qed.

(** C6.  For the zone configuration
    [{'type': 'RAW', 'resource_spec': {'location_type': 'SINGLE_REGION'}}],
    create_dataplex_zone renames the top-level ['type'] to ['type_'] and
    leaves the dictionary under ['resource_spec'] as it is; for the asset
    configuration [{'resource_spec': {'type': 'STORAGE_BUCKET'}}],
    create_dataplex_asset renames the ['type'] inside ['resource_spec'] and
    leaves the top-level dictionary as it is.  The messages sent are built
    from the dictionaries so renamed. *)
Theorem example_configurations_renamed E p l k z a tr :
  client_init E client_class = None ->
  let wz := snd (create_dataplex_zone E p l k z (VRef 1%positive) (World zone_store tr)) in
  let wa := snd (create_dataplex_asset E p l k z a (VRef 1%positive) (World asset_store tr)) in
  w_heap wz !! 1%positive
    = Some (ODict (<["type_" := VStr "RAW"]> {["resource_spec" := VRef 2%positive]})) /\
  w_heap wz !! 2%positive = Some (ODict {["location_type" := VStr "SINGLE_REGION"]}) /\
  (proto_init E zone_message = None ->
   sent_messages wz = (sent_messages (World zone_store tr) ++ [zone_message])%list) /\
  w_heap wa !! 1%positive = Some (ODict {["resource_spec" := VRef 2%positive]}) /\
  w_heap wa !! 2%positive = Some (ODict {["type_" := VStr "STORAGE_BUCKET"]}) /\
  (proto_init E asset_message = None ->
   sent_messages wa = (sent_messages (World asset_store tr) ++ [asset_message])%list).
Proof.
  intros Hi wz wa.
  assert (w_heap wz = zone_store_after) as Hz.
  { subst wz.
    pose proof (tool_store E (Create_dataplex_zone p l k z (VRef 1%positive))
                  (World zone_store tr)) as Ht.
    cbn [run_tool tool_store_effect w_heap] in Ht. rewrite Ht, Hi. vm_compute. reflexivity. }
  assert (w_heap wa = asset_store_after) as Ha.
  { subst wa.
    pose proof (tool_store E (Create_dataplex_asset p l k z a (VRef 1%positive))
                  (World asset_store tr)) as Ht.
    cbn [run_tool tool_store_effect w_heap] in Ht. rewrite Ht, Hi. vm_compute. reflexivity. }
  rewrite Hz, Ha. repeat split; try (vm_compute; reflexivity).
  - intros Hp. subst wz.
    destruct (tool_message_world E (Create_dataplex_zone p l k z (VRef 1%positive))
                zone_store tr zone_message Hi) as (ev & Hw & Hs);
      [vm_compute; reflexivity | exact Hp |].
    cbn [run_tool] in Hw. rewrite Hw. exact Hs.
  - intros Hp. subst wa.
    destruct (tool_message_world E (Create_dataplex_asset p l k z a (VRef 1%positive))
                asset_store tr asset_message Hi) as (ev & Hw & Hs);
      [vm_compute; reflexivity | exact Hp |].
    cbn [run_tool] in Hw. rewrite Hw. exact Hs.
Qed.

Lemma example_configurations_renamed_witness :
  client_init accepting_env client_class = None /\
  w_heap (snd (create_dataplex_zone accepting_env "p" "l" "lake" "z" (VRef 1%positive)
                 (World zone_store []))) !! 1%positive
    = Some (ODict (<["type_" := VStr "RAW"]> {["resource_spec" := VRef 2%positive]})) /\
  w_heap (snd (create_dataplex_asset accepting_env "p" "l" "lake" "z" "a" (VRef 1%positive)
                 (World asset_store []))) !! 2%positive
    = Some (ODict {["type_" := VStr "STORAGE_BUCKET"]}).
Proof.
  split; [reflexivity |].
  pose proof (example_configurations_renamed accepting_env "p" "l" "lake" "z" "a" []
                eq_refl) as H.
  cbv zeta in H. destruct H as (H1 & _ & _ & _ & H5 & _). split; [exact H1 | exact H5].
Defined.

(** C7.  The rename is idempotent: running the rename step of the zone
    functions, or that of the asset and task functions, a second time
    changes nothing and gives the same outcome; and a dictionary that has
    no ['type'] key (one already carrying ['type_'], say) is left as it
    is. *)
Theorem rename_is_idempotent :
  (forall v w, rename_type v (snd (rename_type v w)) = rename_type v w) /\
  (forall v w,
     rename_nested_type "resource_spec" v (snd (rename_nested_type "resource_spec" v w))
     = rename_nested_type "resource_spec" v w) /\
  (forall v w,
     rename_nested_type "trigger_spec" v (snd (rename_nested_type "trigger_spec" v w))
     = rename_nested_type "trigger_spec" v w) /\
  (forall h tr l d,
     h !! l = Some (ODict d) -> d !! "type" = None ->
     rename_type (VRef l) (World h tr) = (Return tt, World h tr)).
Proof.
  split; [exact rename_type_idem |].
  split; [intros v w; apply rename_nested_type_idem; discriminate |].
  split; [intros v w; apply rename_nested_type_idem; discriminate |].
  intros h tr l d Hl Ht. rewrite (rename_type_dict h tr l d Hl).
  unfold renamed. rewrite Ht. now rewrite insert_id.
Qed.

Lemma rename_is_idempotent_witness :
  safe_store !! 1%positive = Some (ODict {["type_" := VStr "RAW"]}) /\
  ({["type_" := VStr "RAW"]} : gmap string pyval) !! "type" = None /\
  rename_type (VRef 1%positive) (World safe_store []) = (Return tt, World safe_store []).
Proof.
  split; [reflexivity |]. split; [reflexivity |].
  apply (proj2 (proj2 (proj2 rename_is_idempotent)) safe_store [] 1%positive
           {["type_" := VStr "RAW"]}); reflexivity.
Defined.

(** C8, as amended.  The caller's configuration is not read-only: the store
    a tool call leaves behind is [tool_store_effect], that is, the zone
    functions rename in the caller's dictionary itself and the asset and
    task functions in the caller's nested dictionary, as soon as the client
    has been constructed and whatever happens afterwards; every other tool
    leaves the store as it was.  No object other than that one dictionary
    changes, and it changes only by the rename of its ['type'] key. *)
Theorem caller_store_after_tool E c w :
  w_heap (snd (run_tool E c w)) = tool_store_effect E c (w_heap w) /\
  forall l,
    tool_store_effect E c (w_heap w) !! l = w_heap w !! l \/
    exists d, w_heap w !! l = Some (ODict d) /\
              tool_store_effect E c (w_heap w) !! l = Some (ODict (renamed d)).
Proof.
  split; [apply tool_store |].
  intros l.
  assert (forall v h, renamed_store v h !! l = h !! l \/
                      exists d, h !! l = Some (ODict d) /\
                                renamed_store v h !! l = Some (ODict (renamed d))) as Hr.
  { intros v h. destruct v as [| | | | l0]; try (now left). cbn [renamed_store].
    destruct (h !! l0) as [[d | ?] |] eqn:Hl0; try (now left).
    destruct (decide (l0 = l)) as [-> | Hne].
    - right. exists d. split; [exact Hl0 | apply lookup_insert_eq].
    - left. now rewrite lookup_insert_ne. }
  assert (forall sub v h, nested_renamed_store sub v h !! l = h !! l \/
                          exists d, h !! l = Some (ODict d) /\
                                    nested_renamed_store sub v h !! l = Some (ODict (renamed d)))
    as Hn.
  { intros sub v h. destruct v as [| | | | l0]; try (now left). cbn [nested_renamed_store].
    destruct (h !! l0) as [[d | ?] |]; try (now left).
    destruct (d !! sub); [apply Hr | now left]. }
  destruct c; cbn [tool_store_effect]; try (now left);
    destruct (client_init E client_class); try (now left); auto.
Qed.

(** C8, as stated, fails: after create_dataplex_zone the dictionary the
    caller passed in has lost its ['type'] key and gained ['type_']. *)
Lemma zone_details_mutated :
  w_heap (snd (run_tool accepting_env zone_call (start zone_store))) !! 1%positive
    = Some (ODict zone_fields_after) /\
  w_heap (snd (run_tool accepting_env zone_call (start zone_store))) !! 1%positive
    <> zone_store !! 1%positive.
Proof.
  split; [vm_compute; reflexivity |].
  intros H.
  apply (f_equal (fun o => match o with Some (ODict d) => d !! "type" | _ => None end)) in H.
  vm_compute in H. discriminate.
Qed.

(** The first [except] clause of the create functions turns an
    [InvalidArgument] of the service into an error dictionary. *)
Lemma invalid_argument_caught (body : M json) rest desc rpc w w' e :
  body w = bind (lift rpc) (fun op => _handle_lro op desc) w' ->
  rpc = Raise e ->
  e_class e = InvalidArgument ->
  try_ body
    (on Catch_InvalidArgument (fun e => ret (error_dict ("Invalid argument: " +:+ e_message e)))
       :: rest) w
  = (Return (error_dict ("Invalid argument: " +:+ e_message e)), w').
Proof.
  intros Hb -> Hc. unfold try_. rewrite Hb. unfold bind, lift, on. cbn [dispatch].
  unfold isinstance. now rewrite Hc.
Qed.

(** C3, as amended.  Building a resource name never fails and checks
    nothing: a tool that takes identifying strings only sends its request,
    with the name formatted from the strings as they are, as soon as the
    client is there, and create_dataplex_lake does so once the message is
    built.  Only search_dataplex_catalog looks at its strings: when one of
    them is empty it raises [ValueError], with no client built and no
    remote call. *)
Theorem empty_identifiers_are_not_checked :
  (forall E c ev w,
     plain_call c = Some ev ->
     client_init E client_class = None ->
     snd (run_tool E c w) = logged w ev) /\
  (forall E p l k lz h tr d,
     client_init E client_class = None ->
     h !! lz = Some (ODict d) ->
     proto_init E (Message "Lake" d h) = None ->
     snd (create_dataplex_lake E p l k (VRef lz) (World h tr))
     = logged (World h tr)
         (EvCall "create_lake"
            (Request "CreateLakeRequest"
               [("parent", common_location_path p l); ("lake_id", k)]
               (Some (Message "Lake" d h)) None))) /\
  (forall E p l q w,
     p = "" \/ l = "" \/ q = "" ->
     Catalog.search_dataplex_catalog E p l q w
     = (Raise (Exc ValueError "project_id, location_id, and query must be provided." ""), w)).
Proof.
  split; [exact plain_call_world |]. split.
  - intros E p l k lz h tr d Hi Hl Hp. unfold create_dataplex_lake.
    eapply snd_tool_of_body; [unfold create_dataplex_lake_handlers, on; handlers_pure |].
    now apply create_lake_body.
  - intros E p l q w H. unfold Catalog.search_dataplex_catalog. cbn [forallb].
    destruct H as [-> | [-> | ->]]; cbn [String.eqb negb andb];
      rewrite ?andb_false_r; reflexivity.
Qed.

Lemma empty_identifiers_are_not_checked_witness :
  plain_call (Get_dataplex_lake "p" "l" "") =
    Some (EvCall "get_lake" (named_request "GetLakeRequest" "projects/p/locations/l/lakes/")) /\
  client_init accepting_env client_class = None /\
  snd (run_tool accepting_env (Get_dataplex_lake "p" "l" "") (start ∅))
  = logged (start ∅)
      (EvCall "get_lake" (named_request "GetLakeRequest" "projects/p/locations/l/lakes/")).
Proof.
  split; [reflexivity |]. split; [reflexivity |].
  apply (proj1 empty_identifiers_are_not_checked accepting_env (Get_dataplex_lake "p" "l" ""));
    reflexivity.
Defined.

(** C3, as stated, fails: with an empty lake id get_dataplex_lake builds
    the name [projects/p/locations/l/lakes/], performs the remote call and
    returns what the service answers. *)
Lemma empty_lake_id_reaches_service :
  get_dataplex_lake accepting_env "p" "l" "" (start ∅)
  = (Return (JObj [("name", JStr "resource")]),
     World ∅ [EvCall "get_lake"
                (Request "GetLakeRequest" [("name", "projects/p/locations/l/lakes/")]
                   None None)]).
Proof. vm_compute. reflexivity. Qed.

(** C4, as amended.  The create functions do not look for the required
    sub-objects.  An asset configuration without ['resource_spec'] is
    turned into the message as it is and sent; so is a task configuration
    with none of ['spark'], ['notebook'], ['sql_script'] (after the rename in
    its ['trigger_spec'], when that is there).  The call fails only if the
    service rejects it, and an [InvalidArgument] of the service comes back
    as [{'error': 'Invalid argument: ...'}]. *)
Theorem required_sub_objects_not_checked :
  (forall E p l k z a lz h tr d,
     client_init E client_class = None ->
     h !! lz = Some (ODict d) ->
     d !! "resource_spec" = None ->
     proto_init E (Message "Asset" d h) = None ->
     let rq := Request "CreateAssetRequest" [("parent", zone_path p l k z); ("asset_id", a)]
                 (Some (Message "Asset" d h)) None in
     snd (create_dataplex_asset E p l k z a (VRef lz) (World h tr))
       = logged (World h tr) (EvCall "create_asset" rq) /\
     forall e,
       rpc_operation E "create_asset" rq = Raise e -> e_class e = InvalidArgument ->
       fst (create_dataplex_asset E p l k z a (VRef lz) (World h tr))
       = Return (error_dict ("Invalid argument: " +:+ e_message e))) /\
  (forall E p l k t lz h tr d fields,
     client_init E client_class = None ->
     h !! lz = Some (ODict d) ->
     d !! "spark" = None -> d !! "notebook" = None -> d !! "sql_script" = None ->
     (d !! "trigger_spec" = None \/
      exists l2 d2, d !! "trigger_spec" = Some (VRef l2) /\ h !! l2 = Some (ODict d2)) ->
     let h' := nested_renamed_store "trigger_spec" (VRef lz) h in
     h' !! lz = Some (ODict fields) ->
     proto_init E (Message "Task" fields h') = None ->
     let rq := Request "CreateTaskRequest" [("parent", lake_path p l k); ("task_id", t)]
                 (Some (Message "Task" fields h')) None in
     snd (create_dataplex_task E p l k t (VRef lz) (World h tr))
       = logged (World h' tr) (EvCall "create_task" rq) /\
     forall e,
       rpc_operation E "create_task" rq = Raise e -> e_class e = InvalidArgument ->
       fst (create_dataplex_task E p l k t (VRef lz) (World h tr))
       = Return (error_dict ("Invalid argument: " +:+ e_message e))).
Proof.
  split.
  - intros E p l k z a lz h tr d Hi Hl Hr Hp rq.
    assert (nested_renamed_store "resource_spec" (VRef lz) h = h) as Hs.
    { cbn [nested_renamed_store]. now rewrite Hl, Hr. }
    assert (create_dataplex_asset_body E p l k z a (VRef lz) (World h tr)
            = bind (lift (rpc_operation E "create_asset" rq))
                   (fun op => _handle_lro op
                      ("asset creation for '" +:+ a +:+ "' in zone '" +:+ z +:+ "'"))
                   (logged (World h tr) (EvCall "create_asset" rq))) as Hb.
    { pose proof (create_asset_body E h tr lz d Hi Hl "resource_spec" d) as H.
      rewrite Hs in H. apply H; auto; discriminate. }
    split.
    + unfold create_dataplex_asset.
      eapply snd_tool_of_body; [unfold create_dataplex_asset_handlers, on; handlers_pure |].
      exact Hb.
    + intros e He Hc. unfold create_dataplex_asset, create_dataplex_asset_handlers.
      erewrite invalid_argument_caught; [reflexivity | exact Hb | exact He | exact Hc].
  - intros E p l k t lz h tr d fields Hi Hl _ _ _ Hshape h' Hf Hp rq.
    assert (create_dataplex_task_body E p l k t (VRef lz) (World h tr)
            = bind (lift (rpc_operation E "create_task" rq))
                   (fun op => _handle_lro op
                      ("task creation for '" +:+ t +:+ "' in lake '" +:+ k +:+ "'"))
                   (logged (World h' tr) (EvCall "create_task" rq))) as Hb.
    { apply (create_task_body E h tr lz d Hi Hl "trigger_spec" fields); auto; discriminate. }
    split.
    + unfold create_dataplex_task.
      eapply snd_tool_of_body; [unfold create_dataplex_task_handlers, on; handlers_pure |].
      exact Hb.
    + intros e He Hc. unfold create_dataplex_task, create_dataplex_task_handlers.
      erewrite invalid_argument_caught; [reflexivity | exact Hb | exact He | exact Hc].
Qed.

Lemma required_sub_objects_not_checked_witness :
  client_init rejecting_env client_class = None /\
  bare_store !! 1%positive = Some (ODict {["display_name" := VStr "no spec"]}) /\
  ({["display_name" := VStr "no spec"]} : gmap string pyval) !! "resource_spec" = None /\
  snd (create_dataplex_asset rejecting_env "p" "l" "lake" "z" "a" (VRef 1%positive)
         (World bare_store []))
  = logged (World bare_store [])
      (EvCall "create_asset"
         (Request "CreateAssetRequest"
            [("parent", zone_path "p" "l" "lake" "z"); ("asset_id", "a")]
            (Some (Message "Asset" {["display_name" := VStr "no spec"]} bare_store)) None)) /\
  fst (create_dataplex_asset rejecting_env "p" "l" "lake" "z" "a" (VRef 1%positive)
         (World bare_store []))
  = Return (error_dict ("Invalid argument: " +:+ e_message invalid_argument)).
Proof.
  split; [reflexivity |]. split; [reflexivity |]. split; [reflexivity |].
  destruct (proj1 required_sub_objects_not_checked rejecting_env "p" "l" "lake" "z" "a"
              1%positive bare_store [] {["display_name" := VStr "no spec"]}
              eq_refl eq_refl eq_refl eq_refl) as [H1 H2].
  split; [exact H1 |]. apply H2; reflexivity.
Defined.

(** C4, as stated, fails: an asset configuration without ['resource_spec']
    and a task configuration without ['spark'], ['notebook'] and
    ['sql_script'] are sent to the service, and the tool reports what the
    service answers, here a pending operation. *)
Lemma incomplete_configurations_are_sent :
  fst (create_dataplex_asset accepting_env "p" "l" "lake" "z" "a" (VRef 1%positive)
         (start bare_store))
    = Return (JObj [("status", JStr "pending"); ("operation_name", JStr "operations/op-1");
                    ("metadata", JStr "OperationMetadata")]) /\
  remote_calls (snd (create_dataplex_asset accepting_env "p" "l" "lake" "z" "a"
                       (VRef 1%positive) (start bare_store))) = ["create_asset"] /\
  fst (create_dataplex_task accepting_env "p" "l" "lake" "t" (VRef 1%positive)
         (start bare_store))
    = Return (JObj [("status", JStr "pending"); ("operation_name", JStr "operations/op-1");
                    ("metadata", JStr "OperationMetadata")]) /\
  remote_calls (snd (create_dataplex_task accepting_env "p" "l" "lake" "t"
                       (VRef 1%positive) (start bare_store))) = ["create_task"].
Proof. repeat split; vm_compute; reflexivity. Qed.

(** ** Substrings *)

Lemma append_cons c a b : String c a +:+ b = String c (a +:+ b).
Proof. reflexivity. Qed.

Lemma lower_app a b : lower (a +:+ b) = lower a +:+ lower b.
Proof.
  induction a as [| c a IH]; [reflexivity |].
  rewrite append_cons. cbn [lower]. now rewrite IH.
Qed.

Lemma prefix_nil s : String.prefix "" s = true.
Proof. now destruct s. Qed.

Lemma prefix_app n s b : String.prefix n s = true -> String.prefix n (s +:+ b) = true.
Proof.
  revert n. induction s as [| c' s IH]; intros [| c n] H;
    try apply prefix_nil; try discriminate.
  rewrite append_cons. cbn [String.prefix] in *.
  destruct (ascii_dec c c'); [now apply IH | discriminate].
Qed.

Lemma contains_prefix n s : String.prefix n s = true -> contains n s = true.
Proof. intros H. destruct s; cbn [contains]; now rewrite H. Qed.

Lemma contains_app_r n s b : contains n s = true -> contains n (s +:+ b) = true.
Proof.
  induction s as [| c s IH]; cbn [contains].
  - rewrite orb_false_r. intros H. apply contains_prefix. now apply (prefix_app n "" b).
  - intros H. apply orb_true_iff in H as [H | H].
    + apply contains_prefix. now apply prefix_app.
    + rewrite append_cons. cbn [contains]. rewrite (IH H). apply orb_true_r.
Qed.

Lemma contains_app_l n a s : contains n s = true -> contains n (a +:+ s) = true.
Proof.
  intros H. induction a as [| c a IH]; [exact H |].
  rewrite append_cons. cbn [contains]. rewrite IH. apply orb_true_r.
Qed.

(** ** Cancelling a job *)

Lemma cancel_body_raises E p l k t j w e :
  client_init E client_class = None ->
  rpc_empty E "cancel_job" (named_request "CancelJobRequest" (job_path p l k t j)) = Some e ->
  cancel_dataplex_job_body E p l k t j w
  = (Raise e, logged w (EvCall "cancel_job"
                          (named_request "CancelJobRequest" (job_path p l k t j)))).
Proof.
  intros Hi He. unfold cancel_dataplex_job_body. cbv zeta.
  rewrite new_client_ok by assumption.
  unfold call_empty, named_request in *. unfold bind at 1 2, log. now rewrite He.
Qed.

Lemma code_400_not_found e : e_code e = Some 400 -> isinstance e Catch_NotFound = false.
Proof. unfold e_code, isinstance. now destruct (e_class e). Qed.

Lemma message_in_str n e :
  is_call_error (e_class e) = true ->
  contains n (lower (e_message e)) = true ->
  contains n (lower (exc_str e)) = true.
Proof.
  intros Hc Hm. unfold exc_str. rewrite Hc.
  rewrite !lower_app. do 2 apply contains_app_l. now apply contains_app_r.
Qed.

Lemma terminal_result_distinct j e : terminal_state_result j <> cancel_api_error_result e.
Proof.
  unfold terminal_state_result, cancel_api_error_result, error_dict.
  rewrite !append_cons. intros H. discriminate H.
Qed.

(** C5.  When the service answers a cancellation with a
    [GoogleAPICallError] of status 400 whose message mentions, in any
    letter case, "invalid state" or "terminal state", cancel_dataplex_job
    returns the terminal-state result.  Every other call error that is no
    [NotFound], that is one whose status is not 400 or whose printed form
    mentions neither phrase, comes back as the generic API-error result
    with the message of the service; and the terminal-state result is
    different from every generic one. *)
Theorem cancel_terminal_state_is_distinct E p l k t j w e E' w' e' :
  let rq := named_request "CancelJobRequest" (job_path p l k t j) in
  client_init E client_class = None ->
  rpc_empty E "cancel_job" rq = Some e ->
  is_call_error (e_class e) = true ->
  e_code e = Some 400 ->
  contains "invalid state" (lower (e_message e)) = true \/
  contains "terminal state" (lower (e_message e)) = true ->
  client_init E' client_class = None ->
  rpc_empty E' "cancel_job" rq = Some e' ->
  is_call_error (e_class e') = true ->
  isinstance e' Catch_NotFound = false ->
  e_code e' <> Some 400 \/
  (contains "invalid state" (lower (exc_str e')) = false /\
   contains "terminal state" (lower (exc_str e')) = false) ->
  fst (cancel_dataplex_job E p l k t j w) = Return (terminal_state_result j) /\
  fst (cancel_dataplex_job E' p l k t j w') = Return (cancel_api_error_result e') /\
  (forall e'', terminal_state_result j <> cancel_api_error_result e'').
Proof.
  intros rq Hi He Hc H400 Hm Hi' He' Hc' Hnf Hother.
  split; [| split; [| intros e''; apply terminal_result_distinct]].
  - unfold cancel_dataplex_job.
    erewrite try_raise by (apply cancel_body_raises; eassumption).
    unfold cancel_dataplex_job_handlers, on. cbn [dispatch].
    rewrite (code_400_not_found e H400).
    replace (isinstance e Catch_GoogleAPICallError) with true
      by (unfold isinstance; now rewrite Hc).
    assert (already_terminal e = true) as ->; [| reflexivity].
    unfold already_terminal. rewrite bool_decide_eq_true_2 by assumption.
    destruct Hm as [Hm | Hm]; rewrite (message_in_str _ e Hc Hm); [reflexivity |].
    apply orb_true_r.
  - unfold cancel_dataplex_job.
    erewrite try_raise by (apply cancel_body_raises; eassumption).
    unfold cancel_dataplex_job_handlers, on. cbn [dispatch]. rewrite Hnf.
    replace (isinstance e' Catch_GoogleAPICallError) with true
      by (unfold isinstance; now rewrite Hc').
    assert (already_terminal e' = false) as ->; [| reflexivity].
    unfold already_terminal. destruct Hother as [Hcode | [H1 H2]].
    + now rewrite bool_decide_eq_false_2.
    + rewrite H1, H2. apply andb_false_r.
Qed.

Lemma cancel_terminal_state_is_distinct_witness :
  fst (cancel_dataplex_job rejecting_env "p" "l" "lake" "t" "j" (start ∅))
  = Return (terminal_state_result "j") /\
  fst (cancel_dataplex_job malformed_env "p" "l" "lake" "t" "j" (start ∅))
  = Return (cancel_api_error_result malformed_name) /\
  (forall e'', terminal_state_result "j" <> cancel_api_error_result e'').
Proof.
  apply (cancel_terminal_state_is_distinct rejecting_env "p" "l" "lake" "t" "j" (start ∅)
           failed_precondition malformed_env (start ∅) malformed_name);
    [ reflexivity | reflexivity | reflexivity | reflexivity
    | right; vm_compute; reflexivity
    | reflexivity | reflexivity | reflexivity | reflexivity
    | right; split; vm_compute; reflexivity ].
Defined.

(** ** Failures inside a tool *)

Create HintDb wrappers.
Create HintDb ladders.

#[local] Hint Unfold create_dataplex_lake get_dataplex_lake list_dataplex_lakes update_dataplex_lake delete_dataplex_lake create_dataplex_zone get_dataplex_zone list_dataplex_zones update_dataplex_zone delete_dataplex_zone create_dataplex_asset get_dataplex_asset list_dataplex_assets update_dataplex_asset delete_dataplex_asset create_dataplex_task get_dataplex_task list_dataplex_tasks update_dataplex_task delete_dataplex_task run_dataplex_task get_dataplex_job list_dataplex_jobs cancel_dataplex_job Dataproc.create_dataproc_cluster_async Dataproc.get_dataproc_cluster_async Dataproc.list_dataproc_clusters_async Dataproc.update_dataproc_cluster_async Dataproc.delete_dataproc_cluster_async : wrappers.

#[local] Hint Unfold create_dataplex_lake_handlers get_dataplex_lake_handlers list_dataplex_lakes_handlers update_dataplex_lake_handlers delete_dataplex_lake_handlers create_dataplex_zone_handlers get_dataplex_zone_handlers list_dataplex_zones_handlers update_dataplex_zone_handlers delete_dataplex_zone_handlers create_dataplex_asset_handlers get_dataplex_asset_handlers list_dataplex_assets_handlers update_dataplex_asset_handlers delete_dataplex_asset_handlers create_dataplex_task_handlers get_dataplex_task_handlers list_dataplex_tasks_handlers update_dataplex_task_handlers delete_dataplex_task_handlers run_dataplex_task_handlers get_dataplex_job_handlers list_dataplex_jobs_handlers cancel_dataplex_job_handlers Dataproc.create_dataproc_cluster_async_handlers Dataproc.get_dataproc_cluster_async_handlers Dataproc.list_dataproc_clusters_async_handlers Dataproc.update_dataproc_cluster_async_handlers Dataproc.delete_dataproc_cluster_async_handlers Dataproc.list_dataproc_clusters_handlers on : ladders.

Lemma isinstance_exception e c : isinstance e c = true -> isinstance e Catch_Exception = true.
Proof. unfold isinstance. destruct c, (e_class e); intros; try reflexivity; discriminate. Qed.

Lemma dispatch_not_exception {A} (hs : list (handler A)) e w :
  isinstance e Catch_Exception = false -> dispatch hs e w = (Raise e, w).
Proof.
  intros He. induction hs as [| [c h] hs IH]; cbn [dispatch]; [reflexivity |].
  destruct (isinstance e c) eqn:Hc; [| exact IH].
  apply isinstance_exception in Hc. congruence.
Qed.

Lemma dispatch_caught (hs : list (handler json)) e w :
  Forall answers_with_error hs ->
  Exists (fun h => fst h = Catch_Exception) hs ->
  isinstance e Catch_Exception = true ->
  exists r, dispatch hs e w = (Return r, w) /\ is_error_shaped r = true.
Proof.
  intros Hall Hex He. induction Hex as [[c h] hs Hc | [c h] hs _ IH];
    apply Forall_cons in Hall as [Hh Hall]; cbn [dispatch].
  - cbn [fst] in Hc. subst c. rewrite He. apply Hh.
  - destruct (isinstance e c); [apply Hh | now apply IH].
Qed.

(** A body under a ladder whose clauses all answer with an error and whose
    last resort is [except Exception]. *)
Lemma guarded_body (body : M json) hs w :
  Forall answers_with_error hs ->
  Exists (fun h => fst h = Catch_Exception) hs ->
  match fst (try_ body hs w) with
  | Return _ => True
  | Raise e => isinstance e Catch_Exception = false
  end /\
  forall e w',
    body w = (Raise e, w') -> isinstance e Catch_Exception = true ->
    exists r, try_ body hs w = (Return r, w') /\ is_error_shaped r = true.
Proof.
  intros Hall Hex. unfold try_. destruct (body w) as [[a | e] w'] eqn:Hb.
  - split; [exact I | intros; discriminate].
  - destruct (isinstance e Catch_Exception) eqn:He.
    + destruct (dispatch_caught hs e w' Hall Hex He) as (r & Hr & Hs).
      rewrite Hr. split; [exact I |]. intros e' w'' [= <- <-] _. eauto.
    + rewrite dispatch_not_exception by assumption. split; [exact He |].
      intros e' w'' [= <- <-]. congruence.
Qed.

Ltac ladder_answers :=
  repeat (apply List.Forall_cons;
          [ intros ? ?; cbn [snd];
            repeat match goal with
                   | |- context [if ?b then _ else _] => destruct b
                   end;
            eexists; split; reflexivity |]);
  apply List.Forall_nil.

Ltac ladder_has_exception :=
  repeat first [ apply List.Exists_cons_hd; reflexivity | apply List.Exists_cons_tl ].

Lemma initialize_clients_outcome E w :
  match fst (Dataproc.initialize_clients E w) with
  | Return _ => True
  | Raise e => isinstance e Catch_Exception = false
  end.
Proof.
  unfold Dataproc.initialize_clients, try_.
  destruct (bind (new_client E "ClusterControllerClient") _ w) as [[b | e] w'];
    [exact I |].
  unfold on. cbn [dispatch]. destruct (isinstance e Catch_Exception) eqn:He; [exact I | exact He].
Qed.

Lemma registered_tool_guarded E c w :
  match fst (run_tool E c w) with
  | Return _ => True
  | Raise e => isinstance e Catch_Exception = false
  end /\
  forall e w',
    unguarded E c w = (Raise e, w') -> isinstance e Catch_Exception = true ->
    exists r, run_tool E c w = (Return r, w') /\ is_error_shaped r = true.
Proof.
  destruct c; cbn [run_tool unguarded]; autounfold with wrappers;
    try (apply guarded_body; autounfold with ladders;
         [ladder_answers | ladder_has_exception]).
  (* list_dataproc_clusters: the clients are initialised before the [try] *)
  unfold Dataproc.list_dataproc_clusters, bind.
  pose proof (initialize_clients_outcome E w) as Hi.
  destruct (Dataproc.initialize_clients E w) as [[[|] | e] w1]; cbn [fst negb] in *.
  - apply guarded_body; autounfold with ladders; [ladder_answers | ladder_has_exception].
  - split; [exact I | intros; discriminate].
  - split; [exact Hi |]. intros e' w' [= <- <-]. congruence.
Qed.

Lemma catalog_guard E p l q w :
  p = "" \/ l = "" \/ q = "" ->
  Catalog.search_dataplex_catalog E p l q w
  = (Raise (Exc ValueError "project_id, location_id, and query must be provided." ""), w).
Proof.
  intros H. unfold Catalog.search_dataplex_catalog. cbn [forallb].
  destruct H as [-> | [-> | ->]]; cbn [String.eqb negb andb];
    rewrite ?andb_false_r; reflexivity.
Qed.

Lemma eqb_nonempty s : s <> "" -> String.eqb s "" = false.
Proof. intros H. now apply String.eqb_neq. Qed.

(** C2, as amended.  Every tool registered with the two agents (the 24
    functions of dataplex_service_tools and the 6 of
    cluster_controller_tools) never lets an exception of class [Exception]
    out, and whenever its statements fail with one it returns a dictionary
    or a list with an ['error'] key.  The other functions of the tool
    modules do not follow the policy, as their docstrings say:
    search_dataplex_catalog raises [ValueError] on an empty argument and
    answers a failure of the remote call with the empty list, and
    get_lichess_rating lets every failure through. *)
Theorem registered_tools_answer_with_errors :
  (forall E c w,
     match fst (run_tool E c w) with
     | Return _ => True
     | Raise e => isinstance e Catch_Exception = false
     end /\
     forall e w',
       unguarded E c w = (Raise e, w') -> isinstance e Catch_Exception = true ->
       exists r, run_tool E c w = (Return r, w') /\ is_error_shaped r = true) /\
  (forall E p l q w,
     p = "" \/ l = "" \/ q = "" ->
     fst (Catalog.search_dataplex_catalog E p l q w)
     = Raise (Exc ValueError "project_id, location_id, and query must be provided." "")) /\
  (forall E p l q w e,
     p <> "" -> l <> "" -> q <> "" ->
     client_init E "MetadataServiceClient" = None ->
     rpc_pager E "search_resources"
       (Request "search_resources"
          [("name", "projects/" +:+ p +:+ "/locations/" +:+ l); ("query", q)] None None)
       = Raise e ->
     isinstance e Catch_Exception = true ->
     fst (Catalog.search_dataplex_catalog E p l q w) = Return (JArr [])) /\
  (forall E username w e,
     urlopen_read E ("http://en.lichess.org/api/user/" +:+ username) = Raise e ->
     fst (Dataproc.get_lichess_rating E username w) = Raise e).
Proof.
  split; [exact registered_tool_guarded |].
  split; [intros E p l q w H; now rewrite catalog_guard |].
  split.
  - intros E p l q w e Hp Hl Hq Hi Hr He.
    unfold Catalog.search_dataplex_catalog. cbn [forallb].
    rewrite !eqb_nonempty by assumption. cbn [negb andb]. cbv zeta.
    rewrite new_client_ok by assumption.
    destruct (has_method E "MetadataServiceClient" "search_resources"); [| reflexivity].
    unfold try_, call_pager, bind, log, lift, ret. rewrite Hr. unfold on. cbn [dispatch].
    destruct (isinstance e Catch_GoogleAPIError); [reflexivity |]. now rewrite He.
  - intros E username w e Hu. unfold Dataproc.get_lichess_rating. cbv zeta.
    unfold bind at 1 2, log, lift. now rewrite Hu.
Qed.

Lemma registered_tools_answer_with_errors_witness :
  unguarded rejecting_env (Get_dataplex_lake "p" "l" "lake") (start ∅)
  = (Raise invalid_argument,
     logged (start ∅)
       (EvCall "get_lake" (named_request "GetLakeRequest" (lake_path "p" "l" "lake")))) /\
  isinstance invalid_argument Catch_Exception = true /\
  exists r,
    run_tool rejecting_env (Get_dataplex_lake "p" "l" "lake") (start ∅)
    = (Return r,
       logged (start ∅)
         (EvCall "get_lake" (named_request "GetLakeRequest" (lake_path "p" "l" "lake")))) /\
    is_error_shaped r = true.
Proof.
  split; [reflexivity |]. split; [reflexivity |].
  apply (proj2 (proj1 registered_tools_answer_with_errors rejecting_env
                  (Get_dataplex_lake "p" "l" "lake") (start ∅)) invalid_argument);
    reflexivity.
Defined.

(** C2, as stated, fails: search_dataplex_catalog raises on an empty query,
    and answers a failing remote call with an empty list, which has no
    ['error'] key; get_lichess_rating lets the failure of the request
    through. *)
Lemma tools_outside_the_error_policy :
  fst (Catalog.search_dataplex_catalog accepting_env "p" "l" "" (start ∅))
    = Raise (Exc ValueError "project_id, location_id, and query must be provided." "") /\
  fst (Catalog.search_dataplex_catalog rejecting_env "p" "l" "table" (start ∅))
    = Return (JArr []) /\
  is_error_shaped (JArr []) = false /\
  fst (Dataproc.get_lichess_rating accepting_env "someone" (start ∅)) = Raise url_error.
Proof. repeat split; vm_compute; reflexivity. Qed.

(** ** The nested listing of list_dataproc_clusters_async *)

Lemma nested_listing_both E rq inner outer :
  (forall k, async_list_clusters E k rq
             = AwaitableAsyncPager (Return (Pager inner None)) (Pager outer None)) ->
  forall items k acc w,
    fst (Dataproc.nested_listing E rq k items acc w)
    = Return (acc ++ concat (map (fun _ => inner) items))%list.
Proof.
  intros Hall items. induction items as [| x items IH]; intros k acc w.
  - cbn. now rewrite app_nil_r.
  - cbn [Dataproc.nested_listing map concat].
    unfold bind at 1. unfold Dataproc.await_listing. rewrite Hall.
    unfold bind at 1 2, log, lift, iterate. cbn [pg_error pg_items ret].
    rewrite IH. now rewrite app_assoc.
Qed.

(** What list_dataproc_clusters_async does with each kind of listing
    object (C9).  It issues the same list request again inside the loop
    over its result, but it uses that result once as an async iterable
    ([async for]) and once as an awaitable ([await]).  With the coroutine an async client method gives, the outer
    loop raises [TypeError] at once: the tool returns one error dictionary,
    appends no cluster and calls nothing.  With an async pager, the [await]
    in the first round raises [TypeError] (an empty listing gives the empty
    list).  Only an object with both protocols lets the loops run, and then
    the whole inner listing is appended once for each element of the outer
    one. *)
Theorem nested_cluster_listing E p r f w :
  client_init E Dataproc.async_client_class = None ->
  let rq := Dataproc.list_clusters_request p r f in
  (forall res,
     async_list_clusters E 0 rq = Coroutine res ->
     Dataproc.list_dataproc_clusters_async E p r f w
     = (Return (Dataproc.async_listing_error Dataproc.aiter_message), w)) /\
  (forall pg c cs pg1,
     async_list_clusters E 0 rq = AsyncPager pg -> pg_items pg = c :: cs ->
     async_list_clusters E 1 rq = AsyncPager pg1 ->
     fst (Dataproc.list_dataproc_clusters_async E p r f w)
     = Return (Dataproc.async_listing_error Dataproc.await_message)) /\
  (forall pg,
     async_list_clusters E 0 rq = AsyncPager pg -> pg_items pg = [] -> pg_error pg = None ->
     fst (Dataproc.list_dataproc_clusters_async E p r f w) = Return (JArr [])) /\
  (forall outer inner,
     (forall k, async_list_clusters E k rq
                = AwaitableAsyncPager (Return (Pager inner None)) (Pager outer None)) ->
     fst (Dataproc.list_dataproc_clusters_async E p r f w)
     = Return (JArr (concat (map (fun _ => inner) outer)))).
Proof.
  intros Hi rq.
  unfold Dataproc.list_dataproc_clusters_async, Dataproc.list_dataproc_clusters_async_body.
  cbv zeta. fold rq. unfold try_. rewrite new_client_ok by assumption.
  repeat split.
  - intros res H0. unfold bind at 1. unfold Dataproc.aiter_listing. rewrite H0.
    reflexivity.
  - intros pg c cs pg1 H0 Hitems H1. unfold bind at 1. unfold Dataproc.aiter_listing.
    rewrite H0. unfold bind at 1, log, ret at 1. cbv beta iota. rewrite Hitems.
    cbn [Dataproc.nested_listing]. unfold bind at 1 2. unfold Dataproc.await_listing.
    rewrite H1. reflexivity.
  - intros pg H0 Hitems Herr. unfold bind at 1. unfold Dataproc.aiter_listing.
    rewrite H0. unfold bind at 1, log, ret at 1. cbv beta iota. rewrite Hitems, Herr.
    reflexivity.
  - intros outer inner Hall. unfold bind at 1. unfold Dataproc.aiter_listing.
    rewrite Hall. unfold bind at 1, log, ret at 1. cbv beta iota. cbn [pg_items pg_error].
    unfold bind at 1.
    match goal with
    | |- context [Dataproc.nested_listing E rq 0 outer [] ?w0] =>
        pose proof (nested_listing_both E rq inner outer Hall outer 0%nat [] w0) as Hn;
        destruct (Dataproc.nested_listing E rq 0 outer [] w0) as [o w1]
    end.
    cbn [fst] in Hn. subst o. reflexivity.
Qed.

Lemma nested_cluster_listing_witness :
  client_init accepting_env Dataproc.async_client_class = None /\
  async_list_clusters accepting_env 0 (Dataproc.list_clusters_request "p" "r" "")
    = Coroutine (Return (Pager two_clusters None)) /\
  Dataproc.list_dataproc_clusters_async accepting_env "p" "r" "" (start ∅)
    = (Return (Dataproc.async_listing_error Dataproc.aiter_message), start ∅) /\
  (forall k, async_list_clusters both_env k (Dataproc.list_clusters_request "p" "r" "")
             = AwaitableAsyncPager (Return (Pager two_clusters None)) (Pager two_clusters None)) /\
  fst (Dataproc.list_dataproc_clusters_async both_env "p" "r" "" (start ∅))
    = Return (JArr (concat (map (fun _ => two_clusters) two_clusters))).
Proof.
  split; [reflexivity |]. split; [reflexivity |]. split.
  - apply (proj1 (nested_cluster_listing accepting_env "p" "r" "" (start ∅) eq_refl)
             (Return (Pager two_clusters None))).
    reflexivity.
  - split; [reflexivity |].
    apply (proj2 (proj2 (proj2 (nested_cluster_listing both_env "p" "r" "" (start ∅) eq_refl)))
             two_clusters two_clusters).
    reflexivity.
Defined.

(** C9.  The code at the failing input: in a region with two clusters the
    async listing lists nothing.  Through an async client, whose
    [list_clusters] is a coroutine function, the outer [async for] runs over
    the coroutine that was never awaited, and the tool returns one error
    dictionary without any call; through a client whose listing is an async
    pager it fails at the [await] of the first round.  Neither the comment
    above the loop nor the sibling list_dataproc_clusters, which lists each
    cluster once, is followed. *)
Lemma async_listing_appends_nothing :
  Dataproc.list_dataproc_clusters_async accepting_env "p" "r" "" (start ∅)
    = (Return (JArr [error_dict
                       ("Unexpected error listing clusters async: "
                        +:+ "'async for' requires an object with __aiter__ method, got coroutine")]),
       start ∅) /\
  fst (Dataproc.list_dataproc_clusters_async pager_env "p" "r" "" (start ∅))
    = Return (JArr [error_dict
                      ("Unexpected error listing clusters async: "
                       +:+ "object ListClustersAsyncPager can't be used in 'await' expression")]).
Proof. split; vm_compute; reflexivity. Qed.

(** ** submit_dataproc_job *)

Lemma try_named_unbound {A} G (body : M A) n h hs w e w' :
  G !! n = None ->
  body w = (Raise e, w') ->
  Dataproc.try_named G body ((Some n, h) :: hs) w = (Raise (name_error n), w').
Proof.
  intros Hn Hb. unfold Dataproc.try_named. rewrite Hb. destruct h as [c h].
  cbn [Dataproc.dispatch_named]. unfold bind at 1 2, Dataproc.load_global. now rewrite Hn.
Qed.

(** C10.  Every call of submit_dataproc_job raises [NameError] for
    [job_client] at its first statement, whatever the arguments and the
    service, before any validation and without any remote call: the module
    binds neither [job_client] nor [InvalidArgument].  Were [job_client]
    bound, a failing submission would raise [NameError] for
    [InvalidArgument] when its first [except] clause is reached. *)
Theorem submit_job_raises_name_error :
  (forall E p r c jt jd prefix labels w,
     Dataproc.submit_dataproc_job Dataproc.common_tools_globals E p r c jt jd prefix labels w
     = (Raise (name_error "job_client"), w)) /\
  Dataproc.common_tools_globals !! "job_client" = None /\
  Dataproc.common_tools_globals !! "InvalidArgument" = None /\
  (forall E p r c prefix lz h tr d e,
     h !! lz = Some (ODict d) ->
     is_Some (d !! "main_python_file_uri") ->
     (forall rq, rpc_job E "submit_job" rq = Raise e) ->
     fst (Dataproc.submit_dataproc_job Dataproc.globals_with_job_client E p r c "pyspark"
            (VRef lz) prefix VNone (World h tr))
     = Raise (name_error "InvalidArgument")).
Proof.
  split; [intros; reflexivity |]. split; [reflexivity |]. split; [reflexivity |].
  intros E p r c prefix lz h tr d e Hl Hk Hr.
  unfold Dataproc.submit_dataproc_job.
  unfold bind at 1. unfold Dataproc.load_global at 1.
  replace (Dataproc.globals_with_job_client !! "job_client")
    with (Some (Dataproc.BValue (VBool true))) by reflexivity.
  unfold ret at 1. cbv beta iota.
  unfold bind at 1. cbn [Dataproc.binding_truthy py_truthy]. unfold ret at 1.
  cbv beta iota. cbn [negb].
  unfold bind at 1. unfold Dataproc.load_global at 1.
  replace (Dataproc.globals_with_job_client !! "uuid")
    with (Some Dataproc.BModule) by reflexivity.
  unfold ret at 1. cbv beta iota zeta.
  unfold bind at 1. cbn [py_truthy]. unfold ret at 1. cbv beta iota.
  replace (replace_char "-" "_" (str_lower (unicode_lower E) "pyspark")) with "pyspark"
    by reflexivity.
  replace (existsb (String.eqb ("pyspark" +:+ "_job")) Dataproc.supported_job_fields)
    with true by reflexivity.
  cbn [negb].
  unfold bind at 1. unfold Dataproc.dict_of. unfold bind at 1, get_heap at 1.
  cbn [w_heap]. rewrite Hl. unfold ret at 1. cbv beta iota.
  unfold bind at 1. unfold Dataproc.check_job_details.
  replace (String.eqb ("pyspark" +:+ "_job") "pyspark_job") with true by reflexivity.
  unfold Dataproc.in_dict. rewrite bool_decide_eq_true_2 by assumption.
  cbn [negb andb].
  replace (String.eqb ("pyspark" +:+ "_job") "spark_job") with false by reflexivity.
  cbn [andb].
  replace (existsb (String.eqb ("pyspark" +:+ "_job")) ["hive_job"; "pig_job"; "spark_sql_job"])
    with false by reflexivity.
  unfold ret at 1. cbv beta iota.
  match goal with
  | |- fst (Dataproc.try_named _ ?body _ ?w0) = _ =>
      assert (match fst (body w0) with Raise _ => True | Return _ => False end) as Hb;
        [| destruct (body w0) as [[a | e0] w1] eqn:Hbody; [destruct Hb |];
           erewrite try_named_unbound; [reflexivity | reflexivity | exact Hbody]]
  end.
  unfold bind at 1. unfold Dataproc.load_global at 1.
  replace (Dataproc.globals_with_job_client !! "dataproc")
    with (Some Dataproc.BModule) by reflexivity.
  unfold ret at 1. cbv beta iota.
  unfold bind at 1, new_message. unfold bind at 1, get_heap at 1. cbv beta iota zeta.
  destruct (proto_init E _) as [e' |]; [exact I |].
  unfold ret at 1. cbv beta iota.
  unfold call_job, bind, log, lift. rewrite Hr. exact I.
Qed.

Lemma submit_job_raises_name_error_witness :
  pyspark_store !! 1%positive
    = Some (ODict {["main_python_file_uri" := VStr "gs://b/job.py"]}) /\
  is_Some (({["main_python_file_uri" := VStr "gs://b/job.py"]} : gmap string pyval)
             !! "main_python_file_uri") /\
  (forall rq, rpc_job rejecting_env "submit_job" rq = Raise invalid_argument) /\
  fst (Dataproc.submit_dataproc_job Dataproc.globals_with_job_client rejecting_env
         "p" "r" "c" "pyspark" (VRef 1%positive) "agent-job" VNone (World pyspark_store []))
  = Raise (name_error "InvalidArgument").
Proof.
  split; [reflexivity |]. split; [now eexists |]. split; [reflexivity |].
  apply (proj2 (proj2 (proj2 submit_job_raises_name_error)) rejecting_env "p" "r" "c"
           "agent-job" 1%positive pyspark_store []
           {["main_python_file_uri" := VStr "gs://b/job.py"]} invalid_argument);
    [reflexivity | now eexists | reflexivity].
Defined.

(** With [job_client] bound, a submission the service accepts does not come
    back either: the answer is built by reading [submitted_job.type_case],
    which the job object of the library does not have, and the
    [AttributeError] of that read meets the first [except] clause, whose
    [InvalidArgument] the module does not bind. *)
Lemma accepted_submission_raises_name_error :
  Dataproc.submit_dataproc_job Dataproc.globals_with_job_client accepting_env
    "p" "us-central1" "c1" "pyspark" (VRef 1%positive) "agent-job" VNone
    (World pyspark_store [])
  = (Raise (name_error "InvalidArgument"),
     World pyspark_store
       [EvCall "submit_job"
          (Request "SubmitJobRequest"
             [("project_id", "p"); ("region", "us-central1");
              ("job.placement.cluster_name", "c1");
              ("job.reference.job_id", "agent-job-pyspark-12345678")]
             (Some (Message "Job" {["pyspark_job" := VRef 1%positive]} pyspark_store))
             None)]).
Proof. vm_compute. reflexivity. Qed.

(** * Further properties of the tools *)

Import Cover.

(** ** A client that cannot be constructed *)

(** X1.  Every registered tool constructs its client inside its own
    protection: when the constructor raises an exception, the tool answers
    with an error-shaped value and leaves the world as it found it, so that
    nothing has been sent and no dictionary of the caller has been written
    to. *)
Theorem client_failure_is_answered E c w e :
  client_init E (tool_client c) = Some e ->
  isinstance e Catch_Exception = true ->
  exists r, run_tool E c w = (Return r, w) /\ is_error_shaped r = true.
Proof.
  intros Hc He.
  destruct (registered_tool_guarded E c w) as [_ Hg].
  destruct c; cbn [tool_client] in Hc;
    try (apply (Hg e w); [| exact He];
         cbn [unguarded]; autounfold with tools; cbv zeta;
         apply new_client_fails; exact Hc).
  clear Hg. cbn [run_tool]. unfold Dataproc.list_dataproc_clusters.
  erewrite bind_return.
  2:{ unfold Dataproc.initialize_clients. erewrite try_raise.
      2:{ apply new_client_fails. exact Hc. }
      unfold on. cbn [dispatch]. rewrite He. reflexivity. }
  cbn [negb]. eexists. split; reflexivity.
Qed.

Lemma client_failure_is_answered_witness :
  exists r,
    run_tool offline_env (Update_dataplex_zone "p" "us" "lake" "raw" ["type"] (VRef 1%positive))
      (start zone_store) = (Return r, start zone_store) /\
    is_error_shaped r = true.
Proof.
  apply (client_failure_is_answered offline_env
           (Update_dataplex_zone "p" "us" "lake" "raw" ["type"] (VRef 1%positive))
           (start zone_store) no_credentials); reflexivity.
Defined.

(** ** The remote calls of a tool *)

Section Quiet.
Context {A B : Type}.

Lemma quiet_no_effect (m : M A) : no_effect m -> quiet m.
Proof. intros H w. now rewrite H. Qed.

Lemma quiet_bind (m : M A) (k : A -> M B) :
  quiet m -> (forall a, quiet (k a)) -> quiet (bind m k).
Proof.
  intros Hm Hk w. unfold bind. specialize (Hm w).
  destruct (m w) as [[a | e] w']; cbn [snd] in *; [| exact Hm].
  now rewrite Hk.
Qed.

Lemma quiet_dispatch (hs : list (handler A)) e :
  Forall (fun h => forall e, no_effect (snd h e)) hs -> quiet (dispatch hs e).
Proof. intros H. apply quiet_no_effect. now apply no_effect_dispatch. Qed.

Lemma calls_only_quiet meth (m : M A) : quiet m -> calls_only meth m.
Proof. intros H w. left. apply H. Qed.

Lemma calls_only_bind_l meth (m : M A) (k : A -> M B) :
  quiet m -> (forall a, calls_only meth (k a)) -> calls_only meth (bind m k).
Proof.
  intros Hm Hk w. unfold bind. specialize (Hm w).
  destruct (m w) as [[a | e] w']; cbn [snd] in *; [| now left].
  rewrite <- Hm. apply Hk.
Qed.

Lemma calls_only_bind_r meth (m : M A) (k : A -> M B) :
  calls_only meth m -> (forall a, quiet (k a)) -> calls_only meth (bind m k).
Proof.
  intros Hm Hk w. unfold bind. specialize (Hm w).
  destruct (m w) as [[a | e] w']; cbn [snd] in *; [| exact Hm].
  destruct Hm as [Hm | [rq Hm]]; [left | right; exists rq]; rewrite Hk; exact Hm.
Qed.

Lemma calls_only_try meth (m : M A) hs :
  calls_only meth m ->
  Forall (fun h => forall e, no_effect (snd h e)) hs ->
  calls_only meth (try_ m hs).
Proof.
  intros Hm Hhs w. unfold try_. specialize (Hm w).
  destruct (m w) as [[a | e] w']; cbn [snd] in *; [exact Hm |].
  rewrite (no_effect_dispatch hs e Hhs w'). exact Hm.
Qed.

End Quiet.

Lemma quiet_rename_type v : quiet (rename_type v).
Proof. intros w. now rewrite rename_type_world. Qed.

Lemma quiet_rename_nested_type sub v : sub <> "type" -> quiet (rename_nested_type sub v).
Proof. intros H w. now rewrite rename_nested_type_world. Qed.

Lemma calls_only_log meth rq : calls_only meth (log (EvCall meth rq)).
Proof. intros w. right. now exists rq. Qed.

Lemma calls_only_call_operation E meth rq : calls_only meth (call_operation E meth rq).
Proof.
  apply calls_only_bind_r; [apply calls_only_log |].
  intros _. apply quiet_no_effect, no_effect_lift.
Qed.

Lemma calls_only_call_message E meth rq : calls_only meth (call_message E meth rq).
Proof.
  apply calls_only_bind_r; [apply calls_only_log |].
  intros _. apply quiet_no_effect, no_effect_lift.
Qed.

Lemma calls_only_call_pager E meth rq : calls_only meth (call_pager E meth rq).
Proof.
  apply calls_only_bind_r; [apply calls_only_log |].
  intros _. apply quiet_no_effect, no_effect_lift.
Qed.

Lemma calls_only_call_empty E meth rq : calls_only meth (call_empty E meth rq).
Proof.
  apply calls_only_bind_r; [apply calls_only_log |].
  intros _. apply quiet_no_effect.
  destruct (rpc_empty E meth rq); [apply no_effect_raise | apply no_effect_ret].
Qed.

Ltac quiet_step :=
  first [ apply quiet_no_effect; solve [pure]
        | apply quiet_rename_type
        | apply quiet_rename_nested_type; discriminate ].

Ltac the_call :=
  first [ apply calls_only_call_operation | apply calls_only_call_message
        | apply calls_only_call_pager | apply calls_only_call_empty ].

Ltac calls :=
  cbv zeta;
  first
    [ the_call
    | apply calls_only_bind_r; [the_call | intros ?; solve [quiet_step]]
    | apply calls_only_bind_l; [solve [quiet_step] | intros ?; calls] ].

(** X2.  The code of a tool calls at most one API method of its client, at
    most once, and it is the tool's own method: no tool calls a second
    method (a create never reads first, a get never writes), and no call is
    repeated by the tool after a failure.  This holds for every registered
    tool but [list_dataproc_clusters_async], whose loop calls
    [list_clusters] again.  The traffic of the library behind such a call
    (paging, polling of an operation) is not counted. *)
Theorem tools_call_one_client_method E c :
  repeats_request c = false ->
  calls_only (tool_method c) (run_tool E c).
Proof.
  intros Hc.
  destruct c; try discriminate; cbn [run_tool tool_method]; autounfold with tools;
    try (apply calls_only_try; [calls | handlers_pure]).
  (* list_dataproc_clusters *)
  apply calls_only_bind_l.
  - apply quiet_no_effect, no_effect_try; [pure | handlers_pure].
  - intros [|]; cbn [negb].
    + apply calls_only_try; [calls | handlers_pure].
    + apply calls_only_quiet, quiet_no_effect, no_effect_ret.
Qed.

Lemma tools_call_one_client_method_witness :
  calls_only "update_zone"
    (run_tool accepting_env
       (Update_dataplex_zone "p" "us" "lake" "raw" ["type"] (VRef 1%positive))).
Proof.
  apply (tools_call_one_client_method accepting_env
           (Update_dataplex_zone "p" "us" "lake" "raw" ["type"] (VRef 1%positive))).
  reflexivity.
Defined.

(** ** The except clauses *)

(** Every tool but [list_dataproc_clusters], which first initialises its
    clients, is its statements under its clauses. *)
Lemma run_tool_ladder E c :
  tool_client c <> "ClusterControllerClient" ->
  run_tool E c = try_ (unguarded E c) (tool_ladder c).
Proof. destruct c; intros H; try reflexivity. now destruct H. Qed.

(** X3.  No [except] clause of a tool is dead: the clauses of every ladder
    are ordered from the narrowest class to [Exception], so each of them is
    the first to catch some exception. *)
Theorem every_clause_is_reachable c i :
  (i < length (tool_ladder c))%nat ->
  exists e, catching_clause (tool_ladder c) e = Some i.
Proof.
  intros Hi.
  destruct c; cbn in Hi;
    (destruct i as [| [| [| [| i]]]]; try (exfalso; cbn in Hi; lia));
    first [ exists (Exc NotFound "" ""); reflexivity
          | exists (Exc InvalidArgument "" ""); reflexivity
          | exists (Exc (ApiCallError None) "" ""); reflexivity
          | exists (Exc ValueError "" ""); reflexivity ].
Qed.

Lemma every_clause_is_reachable_witness :
  exists e, catching_clause (tool_ladder (Update_dataplex_lake "p" "us" "lake" [] VNone)) e
            = Some 1%nat.
Proof.
  apply (every_clause_is_reachable (Update_dataplex_lake "p" "us" "lake" [] VNone) 1).
  vm_compute. lia.
Defined.

(** X4.  The answer to a [NotFound] of the service is built from the
    arguments of the caller alone: in every tool with a [NotFound] clause,
    two such failures with different messages of the service are answered
    alike. *)
Theorem not_found_answer_ignores_service_text E1 E2 c w e1 e2 w1 w2 :
  has_clause Catch_NotFound (tool_ladder c) = true ->
  unguarded E1 c w = (Raise e1, w1) ->
  unguarded E2 c w = (Raise e2, w2) ->
  e_class e1 = NotFound -> e_class e2 = NotFound ->
  fst (run_tool E1 c w) = fst (run_tool E2 c w).
Proof.
  intros Hc H1 H2 Hn1 Hn2.
  assert (tool_client c <> "ClusterControllerClient") as Hne
    by (destruct c; try discriminate).
  rewrite !run_tool_ladder by exact Hne.
  rewrite (try_raise _ _ _ _ _ H1), (try_raise _ _ _ _ _ H2).
  destruct e1 as [k1 m1 d1], e2 as [k2 m2 d2]; cbn [e_class] in Hn1, Hn2; subst k1 k2.
  destruct c; try discriminate; reflexivity.
Qed.

Lemma not_found_answer_ignores_service_text_witness :
  fst (run_tool (missing_env "Resource 'lake' was not found") (Get_dataplex_lake "p" "us" "lake")
         (start ∅))
  = fst (run_tool (missing_env "404 lake") (Get_dataplex_lake "p" "us" "lake") (start ∅)).
Proof.
  eapply (not_found_answer_ignores_service_text
            (missing_env "Resource 'lake' was not found") (missing_env "404 lake")
            (Get_dataplex_lake "p" "us" "lake") (start ∅));
    [ reflexivity | vm_compute; reflexivity | vm_compute; reflexivity
    | reflexivity | reflexivity ].
Defined.

(** ** The shape of a listing *)

Lemma returns_ret {A} (P : A -> Prop) a : P a -> returns P (ret a).
Proof. intros H w. exact H. Qed.

Lemma returns_bind {A B} (P : B -> Prop) (m : M A) (k : A -> M B) :
  (forall a, returns P (k a)) -> returns P (bind m k).
Proof.
  intros Hk w. unfold bind. destruct (m w) as [[a | e] w']; [apply Hk | exact I].
Qed.

Lemma dispatch_answers (P : json -> Prop) (hs : list (handler json)) e w :
  Forall (fun h => forall e w, exists r, snd h e w = (Return r, w) /\ P r) hs ->
  Exists (fun h => fst h = Catch_Exception) hs ->
  isinstance e Catch_Exception = true ->
  exists r, dispatch hs e w = (Return r, w) /\ P r.
Proof.
  intros Hall Hex He. induction Hall as [| [c h] hs Hh Hall IH]; [inversion Hex |].
  cbn [dispatch]. destruct (isinstance e c) eqn:Hc; [apply Hh |].
  apply IH. inversion Hex as [? ? Hc' | ]; subst; [| assumption].
  cbn [fst] in Hc'. subst c. congruence.
Qed.

Lemma try_answers (P : json -> Prop) (body : M json) hs w :
  returns P body ->
  Forall (fun h => forall e w, exists r, snd h e w = (Return r, w) /\ P r) hs ->
  Exists (fun h => fst h = Catch_Exception) hs ->
  match fst (try_ body hs w) with
  | Return r => P r
  | Raise e => isinstance e Catch_Exception = false
  end.
Proof.
  intros Hb Hall Hex. unfold try_. specialize (Hb w).
  destruct (body w) as [[a | e] w']; cbn [fst] in *; [exact Hb |].
  destruct (isinstance e Catch_Exception) eqn:He.
  - destruct (dispatch_answers P hs e w' Hall Hex He) as (r & -> & Hr). exact Hr.
  - rewrite dispatch_not_exception by assumption. exact He.
Qed.

Ltac returns_list :=
  cbv zeta;
  repeat first [ apply returns_bind; intros ?
               | apply returns_ret; reflexivity ].

Ltac ladder_lists :=
  repeat (apply List.Forall_cons;
          [ intros ? ?; cbn [snd]; eexists; split; reflexivity |]);
  apply List.Forall_nil.

(** X5.  [list_dataplex_assets], [list_dataplex_tasks], [list_dataplex_jobs]
    and the two cluster listings hand back a list whatever happens: the
    clusters or entries found, or a list holding one error dictionary.  The
    only other outcome is an exception that is no [Exception]. *)
Theorem listings_answer_with_a_list E c w :
  list_in_every_clause c = true ->
  match fst (run_tool E c w) with
  | Return r => is_list r = true
  | Raise e => isinstance e Catch_Exception = false
  end.
Proof.
  intros Hc. destruct c; try discriminate; cbn [run_tool]; autounfold with wrappers;
    try (apply try_answers; autounfold with tools;
         [returns_list | ladder_lists | ladder_has_exception]).
  (* list_dataproc_clusters *)
  unfold Dataproc.list_dataproc_clusters, bind.
  pose proof (initialize_clients_outcome E w) as Hi.
  destruct (Dataproc.initialize_clients E w) as [[[|] | e] w1]; cbn [fst negb] in *.
  - apply try_answers; autounfold with tools;
      [returns_list | ladder_lists | ladder_has_exception].
  - reflexivity.
  - exact Hi.
Qed.

Lemma listings_answer_with_a_list_witness :
  match fst (run_tool rejecting_env (List_dataplex_jobs "p" "us" "lake" "task") (start ∅)) with
  | Return r => is_list r = true
  | Raise e => isinstance e Catch_Exception = false
  end.
Proof.
  apply (listings_answer_with_a_list rejecting_env
           (List_dataplex_jobs "p" "us" "lake" "task") (start ∅)).
  reflexivity.
Defined.

(** X6.  [list_dataplex_lakes] and [list_dataplex_zones] do not keep that
    shape: an exception that is no API call error (a client that cannot be
    constructed, say) is answered with a bare error dictionary, not with a
    list. *)
Theorem lake_and_zone_listings_answer_with_a_dictionary E c w e w' :
  dict_in_last_clause c = true ->
  unguarded E c w = (Raise e, w') ->
  isinstance e Catch_Exception = true ->
  isinstance e Catch_GoogleAPICallError = false ->
  exists r, run_tool E c w = (Return r, w') /\ is_list r = false /\ is_error_shaped r = true.
Proof.
  intros Hc Hb He Hapi.
  destruct c; try discriminate; cbn [run_tool unguarded] in *; autounfold with wrappers;
    rewrite (try_raise _ _ _ _ _ Hb); autounfold with ladders; cbn [dispatch].
  - rewrite Hapi, He. eexists. repeat split.
  - assert (isinstance e Catch_NotFound = false) as ->.
    { destruct e as [[] ? ?]; try reflexivity; discriminate. }
    rewrite Hapi, He. eexists. repeat split.
Qed.

Lemma lake_and_zone_listings_answer_with_a_dictionary_witness :
  exists r,
    run_tool offline_env (List_dataplex_lakes "p" "us" "") (start ∅) = (Return r, start ∅) /\
    is_list r = false /\ is_error_shaped r = true.
Proof.
  apply (lake_and_zone_listings_answer_with_a_dictionary offline_env
           (List_dataplex_lakes "p" "us" "") (start ∅) no_credentials (start ∅));
    reflexivity.
Defined.

(** ** Iterating over the pages of a listing *)

Lemma call_pager_returns {A} E meth rq pg (k : pager -> M A) w :
  rpc_pager E meth rq = Return pg ->
  bind (call_pager E meth rq) k w = k pg (logged w (EvCall meth rq)).
Proof.
  intros H. unfold call_pager, bind at 1 2, log, lift. rewrite H. reflexivity.
Qed.

Lemma initialize_clients_ok E w :
  (forall cls, client_init E cls = None) ->
  Dataproc.initialize_clients E w = (Return true, w).
Proof.
  intros H. unfold Dataproc.initialize_clients.
  apply try_return. now rewrite !new_client_ok by apply H.
Qed.

(** X7.  The pager-based listing tools hand back exactly the entries of the
    pager, in its order, when all pages arrive.  When a later page fails,
    the entries of the pages before it are dropped: the answer is the one
    the clauses of the tool give to the exception, and mentions no entry. *)
Theorem listing_is_all_or_nothing E c meth rq pg w :
  listing_call c = Some (EvCall meth rq) ->
  (forall cls, client_init E cls = None) ->
  rpc_pager E meth rq = Return pg ->
  run_tool E c w =
  match pg_error pg with
  | None => (Return (JArr (pg_items pg)), logged w (EvCall meth rq))
  | Some e => dispatch (tool_ladder c) e (logged w (EvCall meth rq))
  end.
Proof.
  intros Hc Hi Hp.
  destruct c; try discriminate; cbn [listing_call plain_call] in Hc;
    injection Hc as <- <-; cbn [run_tool tool_ladder];
    try (autounfold with wrappers;
         destruct (pg_error pg) as [e |] eqn:He;
         [ apply try_raise | apply try_return ];
         autounfold with tools; cbv zeta;
         rewrite new_client_ok by apply Hi;
         rewrite (call_pager_returns _ _ _ _ _ _ Hp);
         unfold iterate; rewrite He; reflexivity).
  unfold Dataproc.list_dataproc_clusters.
  rewrite (bind_return _ _ _ _ _ (initialize_clients_ok E w Hi)). cbn [negb].
  destruct (pg_error pg) as [e |] eqn:He;
    [ apply try_raise | apply try_return ];
    unfold Dataproc.list_dataproc_clusters_body; cbv zeta;
    rewrite (call_pager_returns _ _ _ _ _ _ Hp);
    unfold iterate; rewrite He; reflexivity.
Qed.

Lemma listing_is_all_or_nothing_witness :
  run_tool broken_page_env (List_dataplex_jobs "p" "us" "lake" "task") (start ∅)
  = (Return (JArr [error_dict "API Error listing jobs: The service is currently unavailable."]),
     logged (start ∅)
       (EvCall "list_jobs"
          (Request "ListJobsRequest" [("parent", task_path "p" "us" "lake" "task")] None None))).
Proof.
  apply (listing_is_all_or_nothing broken_page_env
           (List_dataplex_jobs "p" "us" "lake" "task") "list_jobs"
           (Request "ListJobsRequest" [("parent", task_path "p" "us" "lake" "task")] None None)
           (Pager two_clusters (Some unavailable)) (start ∅));
    [reflexivity | intros cls; reflexivity | reflexivity].
Defined.

(** ** Configurations the tools cannot unpack *)

Section NotADictionary.
Variables (h : gmap loc pyobj) (tr : list event) (v : pyval).
Hypothesis Hv : config_fields h v = None.

Lemma py_kwargs_not_dict : refuses (py_kwargs v) (World h tr).
Proof.
  unfold refuses. destruct v as [| b | z | s | l]; try (eexists; split; reflexivity).
  cbn [config_fields] in Hv. py_unfold.
  destruct (h !! l) as [[d | xs] |]; try discriminate; eexists; split; reflexivity.
Qed.

Lemma kwargs_with_name_not_dict E cls n : refuses (kwargs_with_name E cls n v) (World h tr).
Proof.
  destruct py_kwargs_not_dict as (e & He & Hx). exists e. split; [| exact Hx].
  unfold kwargs_with_name. now apply bind_raise.
Qed.

Lemma rename_type_not_dict :
  rename_type v (World h tr) = (Return tt, World h tr) \/ refuses (rename_type v) (World h tr).
Proof.
  unfold refuses, rename_type. destruct v as [| b | z | s | l];
    try (right; eexists; split; reflexivity).
  - py_unfold. destruct (contains "type" s); [right; eexists; split; reflexivity | now left].
  - cbn [config_fields] in Hv. py_unfold.
    destruct (h !! l) as [[d | xs] |] eqn:Hl; try discriminate.
    + destruct (existsb (is_str "type") xs); [| now left].
      py_unfold. rewrite Hl. right; eexists; split; reflexivity.
    + right; eexists; split; reflexivity.
Qed.

Lemma rename_nested_type_not_dict sub :
  rename_nested_type sub v (World h tr) = (Return tt, World h tr) \/
  refuses (rename_nested_type sub v) (World h tr).
Proof.
  unfold refuses, rename_nested_type. destruct v as [| b | z | s | l];
    try (right; eexists; split; reflexivity).
  - py_unfold. destruct (contains sub s); [right; eexists; split; reflexivity | now left].
  - cbn [config_fields] in Hv. py_unfold.
    destruct (h !! l) as [[d | xs] |] eqn:Hl; try discriminate.
    + destruct (existsb (is_str sub) xs); [| now left].
      py_unfold. rewrite Hl. right; eexists; split; reflexivity.
    + right; eexists; split; reflexivity.
Qed.

Lemma refuses_after {A B} (R : M unit) (K : M A) (k : A -> M B) :
  R (World h tr) = (Return tt, World h tr) \/ refuses R (World h tr) ->
  refuses K (World h tr) ->
  refuses (bind R (fun _ => bind K k)) (World h tr).
Proof.
  intros [HR | (e & HR & He)] (e' & HK & He').
  - exists e'. split; [| exact He'].
    rewrite (bind_return _ _ _ _ _ HR). now apply bind_raise.
  - exists e. split; [| exact He]. now apply bind_raise.
Qed.

End NotADictionary.

(** X8.  The tools that unpack their configuration with [**] refuse what is
    no dictionary ([None], a string, a number, a list): the failure is
    answered with an error-shaped value, nothing is sent, and the store is
    as before. *)
Theorem configuration_must_be_a_dictionary E c v h tr :
  unpacked_config c = Some v ->
  client_init E client_class = None ->
  config_fields h v = None ->
  exists r, run_tool E c (World h tr) = (Return r, World h tr) /\ is_error_shaped r = true.
Proof.
  intros Hc Hi Hv.
  destruct (registered_tool_guarded E c (World h tr)) as [_ Hg].
  assert (refuses (unguarded E c) (World h tr)) as (e & Hb & He); [| now apply (Hg e)].
  destruct c; try discriminate; injection Hc as ->;
    cbn [unguarded]; autounfold with tools; cbv zeta;
    unfold refuses; rewrite new_client_ok by assumption; fold (refuses (A := json)).
  - destruct (kwargs_with_name_not_dict h tr v Hv E "Lake" (lake_path project_id location lake_id))
      as (e & He & Hx).
    exists e. split; [now apply bind_raise | exact Hx].
  - apply refuses_after; [now apply rename_type_not_dict | now apply py_kwargs_not_dict].
  - apply refuses_after; [now apply rename_type_not_dict | now apply kwargs_with_name_not_dict].
  - apply refuses_after;
      [now apply rename_nested_type_not_dict | now apply py_kwargs_not_dict].
  - apply refuses_after;
      [now apply rename_nested_type_not_dict | now apply kwargs_with_name_not_dict].
  - apply refuses_after;
      [now apply rename_nested_type_not_dict | now apply py_kwargs_not_dict].
  - apply refuses_after;
      [now apply rename_nested_type_not_dict | now apply kwargs_with_name_not_dict].
Qed.

Lemma configuration_must_be_a_dictionary_witness :
  exists r,
    run_tool accepting_env (Create_dataplex_task "p" "us" "lake" "t" (VStr "{'trigger_spec': {}}"))
      (World zone_store []) = (Return r, World zone_store []) /\
    is_error_shaped r = true.
Proof.
  apply (configuration_must_be_a_dictionary accepting_env
           (Create_dataplex_task "p" "us" "lake" "t" (VStr "{'trigger_spec': {}}"))
           (VStr "{'trigger_spec': {}}") zone_store []); reflexivity.
Defined.

(** ** A details dictionary with a name of its own *)

Lemma kwargs_with_name_twice E cls n h tr l d x :
  h !! l = Some (ODict d) -> d !! "name" = Some x ->
  kwargs_with_name E cls n (VRef l) (World h tr)
  = (Raise (type_error (multiple_values E cls "name")), World h tr).
Proof.
  intros Hl Hn. unfold kwargs_with_name.
  erewrite bind_return by (apply py_kwargs_dict; eassumption).
  now rewrite Hn.
Qed.

(** X9.  The update tools pass the resource name next to the unpacked
    details, [Zone(name=..., **details)]: details that carry a ['name'] key
    of their own make that call a [TypeError], whatever the name is.  The
    text of the error is the class as the interpreter prints it, followed
    by [got multiple values for keyword argument 'name'].  Nothing is sent
    and the answer is the tool's unexpected-error dictionary with that
    text; yet [update_dataplex_zone] has renamed ['type'] in the caller's
    dictionary by then, while [update_dataplex_lake] has touched nothing. *)
Theorem name_key_in_update_details E p l k z mask lz d h tr x :
  client_init E client_class = None ->
  h !! lz = Some (ODict d) ->
  d !! "name" = Some x ->
  run_tool E (Update_dataplex_lake p l k mask (VRef lz)) (World h tr)
  = (Return (error_dict ("Unexpected error updating lake: " +:+
                         function_str E "Lake" +:+
                         " got multiple values for keyword argument 'name'")),
     World h tr) /\
  run_tool E (Update_dataplex_zone p l k z mask (VRef lz)) (World h tr)
  = (Return (error_dict ("Unexpected error updating zone: " +:+
                         function_str E "Zone" +:+
                         " got multiple values for keyword argument 'name'")),
     World (<[lz := ODict (renamed d)]> h) tr).
Proof.
  intros Hi Hl Hn. split; cbn [run_tool]; autounfold with wrappers.
  - rewrite (try_raise _ _ _ (type_error (multiple_values E "Lake" "name")) (World h tr));
      [reflexivity |].
    unfold update_dataplex_lake_body. cbv zeta. rewrite new_client_ok by assumption.
    apply bind_raise. eapply kwargs_with_name_twice; eassumption.
  - rewrite (try_raise _ _ _ (type_error (multiple_values E "Zone" "name"))
               (World (<[lz := ODict (renamed d)]> h) tr)); [reflexivity |].
    unfold update_dataplex_zone_body. cbv zeta. rewrite new_client_ok by assumption.
    erewrite bind_return by (apply rename_type_dict; eassumption).
    apply bind_raise. eapply kwargs_with_name_twice; [apply lookup_insert_eq |].
    rewrite renamed_other by discriminate. exact Hn.
Qed.

Lemma name_key_in_update_details_witness :
  run_tool accepting_env (Update_dataplex_lake "p" "us" "lake" ["labels"] (VRef 1%positive))
    (World named_store [])
  = (Return (error_dict
       ("Unexpected error updating lake: " +:+
        "google.cloud.dataplex_v1.types.resources.Lake()" +:+
        " got multiple values for keyword argument 'name'")),
     World named_store []) /\
  run_tool accepting_env (Update_dataplex_zone "p" "us" "lake" "raw" ["type"] (VRef 1%positive))
    (World named_store [])
  = (Return (error_dict
       ("Unexpected error updating zone: " +:+
        "google.cloud.dataplex_v1.types.resources.Zone()" +:+
        " got multiple values for keyword argument 'name'")),
     World (<[1%positive := ODict (renamed (<["name" := VStr "mine"]> {["type" := VStr "RAW"]}))]>
              named_store) []).
Proof.
  apply (name_key_in_update_details accepting_env "p" "us" "lake" "raw" ["type"] 1%positive
           (<["name" := VStr "mine"]> {["type" := VStr "RAW"]}) named_store [] (VStr "mine"));
    reflexivity.
Defined.

(** ** Both spellings of the key at once *)

(** X10.  When a zone configuration has a ['type'] key, the rename assigns
    its value to ['type_'] without looking at what is there: the message
    that goes out carries the value of ['type'] under ['type_'], and a
    ['type_'] entry the caller had given is lost. *)
Theorem type_value_replaces_safe_key E p l k z lz d h tr a :
  client_init E client_class = None ->
  h !! lz = Some (ODict d) ->
  d !! "type" = Some a ->
  proto_init E (Message "Zone" (renamed d) (<[lz := ODict (renamed d)]> h)) = None ->
  exists m,
    sent_messages (snd (run_tool E (Create_dataplex_zone p l k z (VRef lz)) (World h tr)))
    = (sent_messages (World h tr) ++ [m])%list /\
    msg_fields m !! "type_" = Some a /\ msg_fields m !! "type" = None.
Proof.
  intros Hi Hl Ha Hp.
  set (m := Message "Zone" (renamed d) (<[lz := ODict (renamed d)]> h)).
  assert (tool_message (Create_dataplex_zone p l k z (VRef lz)) h = Some m) as Hm.
  { cbn [tool_message renamed_store]. cbv zeta. rewrite Hl. cbn [config_fields].
    now rewrite lookup_insert_eq. }
  destruct (tool_message_world E _ h tr m Hi Hm Hp) as (ev & -> & Hs).
  exists m. split; [exact Hs |]. cbn [m msg_fields]. split.
  - unfold renamed. rewrite Ha. apply lookup_insert_eq.
  - apply renamed_no_type.
Qed.

Lemma type_value_replaces_safe_key_witness :
  exists m,
    sent_messages (snd (run_tool accepting_env
                          (Create_dataplex_zone "p" "us" "lake" "raw" (VRef 1%positive))
                          (World both_keys_store [])))
    = (sent_messages (World both_keys_store []) ++ [m])%list /\
    msg_fields m !! "type_" = Some (VStr "RAW") /\ msg_fields m !! "type" = None.
Proof.
  apply (type_value_replaces_safe_key accepting_env "p" "us" "lake" "raw" 1%positive
           (<["type" := VStr "RAW"]> {["type_" := VStr "CURATED"]}) both_keys_store []
           (VStr "RAW")); reflexivity.
Defined.

(** ** The clients of the Dataproc agent *)

(** X11.  [initialize_clients] hands back both clients or none.
    [list_dataproc_clusters] uses the cluster client only, yet when the job
    client is the one that cannot be constructed it answers that the
    cluster client is not initialised, and lists nothing. *)
Theorem job_client_failure_stops_the_listing E p r w e :
  client_init E "ClusterControllerClient" = None ->
  client_init E "JobControllerClient" = Some e ->
  isinstance e Catch_Exception = true ->
  run_tool E (List_dataproc_clusters p r) w
  = (Return (JArr [error_dict "Dataproc cluster client not initialized."]), w).
Proof.
  intros Hc Hj He. cbn [run_tool]. unfold Dataproc.list_dataproc_clusters.
  rewrite (bind_return _ _ _ false w); [reflexivity |].
  unfold Dataproc.initialize_clients.
  rewrite (try_raise _ _ _ e w).
  - unfold on. cbn [dispatch]. now rewrite He.
  - rewrite new_client_ok by assumption. now apply new_client_fails.
Qed.

Lemma job_client_failure_stops_the_listing_witness :
  run_tool no_job_client_env (List_dataproc_clusters "p" "us-central1") (start ∅)
  = (Return (JArr [error_dict "Dataproc cluster client not initialized."]), start ∅).
Proof.
  apply (job_client_failure_stops_the_listing no_job_client_env "p" "us-central1" (start ∅)
           no_credentials); reflexivity.
Defined.

(** ** The outcome of a long-running operation *)

Lemma call_operation_returns {A} E meth rq op (k : operation -> M A) w :
  rpc_operation E meth rq = Return op ->
  bind (call_operation E meth rq) k w = k op (logged w (EvCall meth rq)).
Proof.
  intros H. unfold call_operation, bind at 1 2, log, lift. rewrite H. reflexivity.
Qed.

(** X12.  An error the operation of a Dataplex deletion ended with is not
    raised, so the [except] clauses never see it: it comes back as
    [Error during ... deletion for '<id>': <str of the error>], also when it
    is a [NotFound], for which the clauses of the tool have another
    answer. *)
Theorem operation_error_bypasses_the_clauses E c desc meth rq op err w :
  deletion_description c = Some desc ->
  plain_call c = Some (EvCall meth rq) ->
  client_init E client_class = None ->
  rpc_operation E meth rq = Return op ->
  op_exception op = Return (Some err) ->
  run_tool E c w
  = (Return (error_dict ("Error during " +:+ desc +:+ ": " +:+ exc_str err)),
     logged w (EvCall meth rq)) /\
  (e_class err = NotFound ->
   fst (run_tool E c w) <> fst (dispatch (tool_ladder c) err (logged w (EvCall meth rq)))).
Proof.
  intros Hd Hc Hi Hop Herr.
  assert (run_tool E c w
          = (Return (error_dict ("Error during " +:+ desc +:+ ": " +:+ exc_str err)),
             logged w (EvCall meth rq))) as Hrun.
  { destruct c; try discriminate; injection Hd as <-; injection Hc as <- <-;
      cbn [run_tool]; autounfold with wrappers; apply try_return;
      autounfold with tools; cbv zeta; rewrite new_client_ok by assumption;
      rewrite (call_operation_returns _ _ _ _ _ _ Hop);
      unfold _handle_lro, bind, lift; rewrite Herr; reflexivity. }
  split; [exact Hrun |]. intros Hn. rewrite Hrun. cbn [fst].
  destruct err as [k m d]; cbn [e_class] in Hn; subst k.
  destruct c; try discriminate; cbn [tool_ladder]; autounfold with ladders;
    cbn [dispatch isinstance e_class fst ret]; unfold error_dict;
    rewrite !append_cons; intros H; discriminate H.
Qed.

Lemma operation_error_bypasses_the_clauses_witness :
  run_tool gone_env (Delete_dataplex_zone "p" "us" "lake" "raw") (start ∅)
  = (Return (error_dict ("Error during " +:+ "zone deletion for 'raw'" +:+ ": " +:+
                         exc_str (not_found "Resource not found"))),
     logged (start ∅)
       (EvCall "delete_zone" (named_request "DeleteZoneRequest" (zone_path "p" "us" "lake" "raw"))))
  /\
  (e_class (not_found "Resource not found") = NotFound ->
   fst (run_tool gone_env (Delete_dataplex_zone "p" "us" "lake" "raw") (start ∅))
   <> fst (dispatch (tool_ladder (Delete_dataplex_zone "p" "us" "lake" "raw"))
             (not_found "Resource not found")
             (logged (start ∅)
                (EvCall "delete_zone"
                   (named_request "DeleteZoneRequest" (zone_path "p" "us" "lake" "raw")))))).
Proof.
  apply (operation_error_bypasses_the_clauses gone_env
           (Delete_dataplex_zone "p" "us" "lake" "raw") "zone deletion for 'raw'" "delete_zone"
           (named_request "DeleteZoneRequest" (zone_path "p" "us" "lake" "raw"))
           gone_operation (not_found "Resource not found") (start ∅)); reflexivity.
Defined.



(** ** get_current_time *)

(** X14.  [get_current_time] never tells the time.  Its module imports
    neither [ZoneInfo] nor [datetime]: a query that mentions ["sf"] or
    ["san francisco"], in any letter case, ends in the [NameError] of
    [ZoneInfo], and every other query in the apology.  This holds for the
    copy of the function in either agent. *)
Theorem get_current_time_never_tells_the_time G now query w :
  G = Dataproc.common_tools_globals \/ G = Common.dataplex_common_globals ->
  Common.get_current_time G now query w
  = if contains "sf" (lower query) || contains "san francisco" (lower query)
    then (Raise (name_error "ZoneInfo"), w)
    else (Return ("Sorry, I don't have timezone information for query: " +:+ query +:+ "."), w).
Proof.
  intros HG. unfold Common.get_current_time.
  destruct (contains "sf" (lower query) || contains "san francisco" (lower query));
    [| reflexivity].
  cbv zeta. apply bind_raise. unfold Dataproc.load_global.
  assert (G !! "ZoneInfo" = None) as ->; [| reflexivity].
  destruct HG as [-> | ->]; vm_compute; reflexivity.
Qed.

Lemma get_current_time_never_tells_the_time_witness :
  Common.get_current_time Dataproc.common_tools_globals "2025-01-01 09:00:00 PST-0800"
    "Transfer window" (start ∅)
  = (Raise (name_error "ZoneInfo"), start ∅).
Proof.
  apply (get_current_time_never_tells_the_time Dataproc.common_tools_globals
           "2025-01-01 09:00:00 PST-0800" "Transfer window" (start ∅)).
  left. reflexivity.
Defined.

(** ** search_dataplex_catalog *)

(** X15.  [search_dataplex_catalog], called with non-empty arguments,
    constructs its client before its [try]: a client that cannot be
    constructed is not answered but raised, unlike in the registered tools.
    Inside the [try] every failure that is an [Exception] is answered with
    the empty list: the lookup of [search_resources] on a client class that
    does not have it, before any request; a failing request; a failing
    later page, the entries read before it being dropped.  The entries of
    the pager come back only when the lookup, the request and every page
    succeed. *)
Theorem catalog_search_outside_and_inside_try E p l q w :
  p <> "" -> l <> "" -> q <> "" ->
  let rq := Request "search_resources"
              [("name", "projects/" +:+ p +:+ "/locations/" +:+ l); ("query", q)] None None in
  let sent := logged w (EvCall "search_resources" rq) in
  let answer e :=
    if isinstance e Catch_Exception then (Return (JArr []), sent) else (Raise e, sent) in
  Catalog.search_dataplex_catalog E p l q w =
  match client_init E "MetadataServiceClient" with
  | Some e => (Raise e, w)
  | None =>
      if has_method E "MetadataServiceClient" "search_resources" then
        match rpc_pager E "search_resources" rq with
        | Return pg =>
            match pg_error pg with
            | None => (Return (JArr (pg_items pg)), sent)
            | Some e => answer e
            end
        | Raise e => answer e
        end
      else (Return (JArr []), w)
  end.
Proof.
  intros Hp Hl Hq rq sent answer. unfold Catalog.search_dataplex_catalog. cbn [forallb].
  rewrite !eqb_nonempty by assumption. cbn [negb andb]. cbv zeta. fold rq.
  destruct (client_init E "MetadataServiceClient") as [e |] eqn:Hi;
    [now apply new_client_fails |].
  rewrite new_client_ok by assumption.
  assert (forall e, dispatch [on Catch_GoogleAPIError (fun _ => ret (JArr []));
                              on Catch_Exception (fun _ => ret (JArr []))] e sent
                    = answer e) as Hd.
  { intros e. unfold on, answer. cbn [dispatch].
    destruct (isinstance e Catch_GoogleAPIError) eqn:Hg.
    - now rewrite (isinstance_exception _ _ Hg).
    - now destruct (isinstance e Catch_Exception). }
  destruct (has_method E "MetadataServiceClient" "search_resources"); [| reflexivity].
  assert (forall k : unit -> M json, bind (ret tt) k w = k tt w) as Hret by reflexivity.
  destruct (rpc_pager E "search_resources" rq) as [pg | e] eqn:Hr.
  - destruct (pg_error pg) as [e |] eqn:He.
    + rewrite <- Hd. apply try_raise. rewrite Hret.
      rewrite (call_pager_returns _ _ _ _ _ _ Hr). unfold iterate. now rewrite He.
    + apply try_return. rewrite Hret. rewrite (call_pager_returns _ _ _ _ _ _ Hr).
      unfold iterate. now rewrite He.
  - rewrite <- Hd. apply try_raise. rewrite Hret.
    unfold call_pager, bind, log, lift. now rewrite Hr.
Qed.

Lemma catalog_search_outside_and_inside_try_witness :
  Catalog.search_dataplex_catalog accepting_env "p" "us" "orders" (start ∅)
    = (Return (JArr []), start ∅) /\
  Catalog.search_dataplex_catalog offline_env "p" "us" "orders" (start ∅)
    = (Raise no_credentials, start ∅).
Proof.
  split.
  - apply (catalog_search_outside_and_inside_try accepting_env "p" "us" "orders" (start ∅));
      discriminate.
  - apply (catalog_search_outside_and_inside_try offline_env "p" "us" "orders" (start ∅));
      discriminate.
Defined.

(** ** get_lichess_rating *)

Lemma assoc_in k kvs v : Dataproc.assoc k kvs = Some v -> In v (map snd kvs).
Proof.
  induction kvs as [| [k' v'] kvs IH]; cbn [Dataproc.assoc map snd]; [discriminate |].
  destruct (String.eqb k' k); [intros [= ->]; now left | intros H; right; auto].
Qed.

Lemma assoc_here kvs all k v :
  incl kvs all -> In (k, v) kvs -> exists v', Dataproc.assoc k all = Some v'.
Proof.
  intros Hincl Hin. apply Hincl in Hin. clear Hincl kvs.
  induction all as [| [k' v'] all IH]; [destruct Hin |].
  cbn [Dataproc.assoc]. destruct (String.eqb k' k) eqn:Hk; [eauto |].
  destruct Hin as [[= -> ->] | Hin]; [| auto].
  rewrite String.eqb_refl in Hk. discriminate.
Qed.

Lemma perfs_loop_objects all w : forall kvs,
  incl kvs all ->
  forallb is_object (map snd all) = true ->
  Dataproc.for_each
    (fun kv => bind (Dataproc.json_getitem (JObj all) (fst kv)) Dataproc.json_get_rating)
    kvs w
  = (Return tt, w).
Proof.
  intros kvs Hincl Hall. induction kvs as [| [k v] kvs IH]; [reflexivity |].
  cbn [Dataproc.for_each fst].
  destruct (assoc_here ((k, v) :: kvs) all k v Hincl) as (v' & Hv'); [now left |].
  assert (is_object v' = true) as Hobj.
  { rewrite forallb_forall in Hall. apply Hall. eapply assoc_in; eassumption. }
  rewrite (bind_return _ _ w tt w).
  - apply IH. intros x Hx. apply Hincl. now right.
  - unfold Dataproc.json_getitem. rewrite Hv'.
    rewrite (bind_return _ _ w v' w) by reflexivity.
    destruct v'; try discriminate. reflexivity.
Qed.

(** X16.  [get_lichess_rating] sends one request, to the address made of
    the fixed prefix and the user name as given.  When the answer parses to
    an object whose ['perfs'] entry is an object of objects, it hands that
    entry back as it is, whether or not the entries have a rating; when the
    answer has no ['perfs'] entry the [KeyError] goes to the caller. *)
Theorem lichess_rating_returns_perfs E username body kvs w :
  let url := "http://en.lichess.org/api/user/" +:+ username in
  let sent := logged w (EvCall "urlopen" (Request "GET" [("url", url)] None None)) in
  urlopen_read E url = Return body ->
  json_loads E body = Return (JObj kvs) ->
  match Dataproc.assoc "perfs" kvs with
  | None => Dataproc.get_lichess_rating E username w = (Raise (key_error "perfs"), sent)
  | Some (JObj perfs) =>
      forallb is_object (map snd perfs) = true ->
      Dataproc.get_lichess_rating E username w = (Return (JObj perfs), sent)
  | Some _ => True
  end.
Proof.
  intros url sent Hu Hj. unfold Dataproc.get_lichess_rating. cbv zeta. fold url.
  rewrite (bind_return (log _) _ w tt sent) by reflexivity.
  rewrite (bind_return _ _ sent body sent) by (unfold lift; now rewrite Hu).
  rewrite (bind_return _ _ sent (JObj kvs) sent) by (unfold lift; now rewrite Hj).
  destruct (Dataproc.assoc "perfs" kvs) as [[| | | | perfs |] |] eqn:Hp; try exact I.
  - intros Hall.
    rewrite (bind_return _ _ sent (JObj perfs) sent)
      by (unfold Dataproc.json_getitem; now rewrite Hp).
    rewrite (bind_return _ _ sent tt sent); [reflexivity |].
    cbn [Dataproc.perfs_loop]. apply perfs_loop_objects; [apply incl_refl | exact Hall].
  - apply bind_raise. unfold Dataproc.json_getitem. now rewrite Hp.
Qed.

Lemma lichess_rating_returns_perfs_witness :
  Dataproc.get_lichess_rating lichess_env "someone" (start ∅)
  = (Return (JObj lichess_perfs),
     logged (start ∅)
       (EvCall "urlopen"
          (Request "GET" [("url", "http://en.lichess.org/api/user/" +:+ "someone")] None None))).
Proof.
  apply (lichess_rating_returns_perfs lichess_env "someone" "{...}"
           [("id", JStr "someone"); ("perfs", JObj lichess_perfs)] (start ∅));
    reflexivity.
Defined.

(** ** _parse_cluster_response *)

Lemma last_segment_no_slash s : Common.has_slash (Common.last_segment s) = false.
Proof.
  induction s as [| c s IH]; [reflexivity |]. cbn [Common.last_segment].
  destruct (Common.has_slash s) eqn:Hs; [exact IH |].
  destruct (Ascii.eqb c "/") eqn:Hc; [exact Hs |].
  cbn [Common.has_slash]. now rewrite Hc, Hs.
Qed.

Lemma last_segment_suffix s :
  exists pre, s = pre +:+ Common.last_segment s /\ (pre = "" \/ exists p, pre = p +:+ "/").
Proof.
  induction s as [| c s IH]; [exists ""; split; [reflexivity | now left] |].
  cbn [Common.last_segment].
  destruct (Common.has_slash s) eqn:Hs.
  - destruct IH as (pre & Heq & [-> | (p & ->)]).
    + change (s = Common.last_segment s) in Heq.
      pose proof (last_segment_no_slash s) as Hn. rewrite <- Heq in Hn. congruence.
    + exists (String c p +:+ "/"). split; [| right; now exists (String c p)].
      rewrite !append_cons. now rewrite <- Heq.
  - destruct (Ascii.eqb c "/") eqn:Hc.
    + apply Ascii.eqb_eq in Hc as ->. exists "/". split; [reflexivity |].
      right. now exists "".
    + exists "". split; [reflexivity | now left].
Qed.

(** X17.  The zone and the two machine types in the summary of
    [_parse_cluster_response] are what follows the last slash of the
    address the cluster carries: the entry has no slash, the address ends
    with it, and what is cut off is empty or ends with a slash, so a bare
    name is kept whole.  An empty address gives [None]. *)
Theorem parsed_cluster_entries_are_last_segments c key uri :
  In (key, uri) (shortened_entries c) ->
  match Common._parse_cluster_response (Some c) with
  | JObj kvs =>
      if String.eqb uri "" then Dataproc.assoc key kvs = Some JNull
      else exists pre t,
             Dataproc.assoc key kvs = Some (JStr t) /\ uri = pre +:+ t /\
             Common.has_slash t = false /\ (pre = "" \/ exists p, pre = p +:+ "/")
  | _ => False
  end.
Proof.
  intros Hin. cbn [Common._parse_cluster_response].
  assert (Dataproc.assoc key
            [("name", JStr (Common.cluster_name c));
             ("status", JStr (Common.status_state_name c));
             ("uuid", JStr (Common.cluster_uuid c));
             ("project_id", JStr (Common.project_id c));
             ("zone", Common.uri_tail (Common.zone_uri c));
             ("image_version", JStr (Common.image_version c));
             ("master_nodes", JNum (Common.master_num_instances c));
             ("master_machine_type", Common.uri_tail (Common.master_machine_type_uri c));
             ("worker_nodes", JNum (Common.worker_num_instances c));
             ("worker_machine_type", Common.uri_tail (Common.worker_machine_type_uri c));
             ("creation_timestamp", Common.optional_str (Common.creation_time_rfc3339 c));
             ("endpoint_uri", Common.optional_str (Common.web_ui_port c))]
          = Some (Common.uri_tail uri)) as ->.
  { destruct Hin as [[= <- <-] | [[= <- <-] | [[= <- <-] | []]]]; reflexivity. }
  unfold Common.uri_tail. destruct (String.eqb uri ""); [reflexivity |].
  destruct (last_segment_suffix uri) as (pre & Heq & Hpre).
  exists pre, (Common.last_segment uri). repeat split; try assumption.
  apply last_segment_no_slash.
Qed.

Lemma parsed_cluster_entries_are_last_segments_witness :
  match Common._parse_cluster_response (Some example_cluster) with
  | JObj kvs =>
      exists pre t,
        Dataproc.assoc "zone" kvs = Some (JStr t) /\
        Common.zone_uri example_cluster = pre +:+ t /\
        Common.has_slash t = false /\ (pre = "" \/ exists p, pre = p +:+ "/")
  | _ => False
  end.
Proof.
  apply (parsed_cluster_entries_are_last_segments example_cluster "zone"
           (Common.zone_uri example_cluster)).
  left. reflexivity.
Defined.

(** ** The checks of submit_dataproc_job *)

Lemma rejects_ret_error msg w : rejects (ret (error_dict msg)) w.
Proof. split; reflexivity. Qed.

Lemma rejects_bind {A} (m : M A) (k : A -> M json) w :
  no_effect m -> (forall a, rejects (k a) w) -> rejects (bind m k) w.
Proof.
  intros Hm Hk. unfold rejects, bind. specialize (Hm w).
  destruct (m w) as [[a | e] w']; cbn [snd] in Hm; subst w'.
  - apply Hk.
  - split; [reflexivity | exact I].
Qed.

Lemma no_effect_load_global G n : no_effect (Dataproc.load_global G n).
Proof. unfold Dataproc.load_global. destruct (G !! n); [apply no_effect_ret | apply no_effect_raise]. Qed.

Lemma no_effect_binding_truthy b : no_effect (Dataproc.binding_truthy b).
Proof. destruct b; try apply no_effect_ret. apply no_effect_py_truthy. Qed.

Lemma no_effect_dict_of v : no_effect (Dataproc.dict_of v).
Proof.
  intros [h tr]. destruct v as [| | | | l]; try reflexivity.
  unfold Dataproc.dict_of. py_unfold. now destruct (h !! l) as [[? | ?] |].
Qed.

Lemma dict_of_not_dict h tr v :
  config_fields h v = None ->
  forall d, fst (Dataproc.dict_of v (World h tr)) <> Return (Some d).
Proof.
  intros Hv d. destruct v as [| | | | l]; try discriminate.
  cbn [config_fields] in Hv. unfold Dataproc.dict_of. py_unfold.
  destruct (h !! l) as [[? | ?] |]; discriminate.
Qed.

(** X18.  [submit_dataproc_job], run where [job_client] is bound, sends
    nothing for a job it does not accept: a job type that, lower-cased as
    Python does it and with hyphens replaced by underscores, is not one of
    the nine supported ones, and details that are no dictionary, end the
    call before any request, with an error-shaped answer or an exception
    and with the store unchanged. *)
Theorem rejected_jobs_are_not_submitted G E p r cn jt jd pre labels h tr :
  existsb (String.eqb (replace_char "-" "_" (str_lower (unicode_lower E) jt) +:+ "_job"))
    Dataproc.supported_job_fields = false \/
  config_fields h jd = None ->
  rejects (Dataproc.submit_dataproc_job G E p r cn jt jd pre labels) (World h tr).
Proof.
  intros Hrej. unfold Dataproc.submit_dataproc_job.
  apply rejects_bind; [apply no_effect_load_global |]. intros jc.
  apply rejects_bind; [apply no_effect_binding_truthy |]. intros [|]; cbn [negb];
    [| apply rejects_ret_error].
  apply rejects_bind; [apply no_effect_load_global |]. intros _. cbv zeta.
  apply rejects_bind; [apply no_effect_py_truthy |]. intros wl.
  destruct (existsb _ Dataproc.supported_job_fields) eqn:Hs; cbn [negb];
    [| apply rejects_ret_error].
  destruct Hrej as [Hrej | Hv]; [congruence |].
  pose proof (no_effect_dict_of jd (World h tr)) as Hw.
  pose proof (dict_of_not_dict h tr jd Hv) as Hd.
  unfold rejects, bind.
  destruct (Dataproc.dict_of jd (World h tr)) as [[[d |] | e] w']; cbn [snd fst] in *;
    subst w'.
  - now destruct (Hd d).
  - split; reflexivity.
  - split; auto.
Qed.

(** The lower-casing is Python's: with the Kelvin sign for its last letter,
    a job type is the supported [spark] all the same. *)
Lemma kelvin_sign_job_type :
  let kelvin := String (ascii_of_nat 226) (String (ascii_of_nat 132)
                  (String (ascii_of_nat 170) "")) in
  str_lower (unicode_lower accepting_env) ("SPAR" +:+ kelvin) = "spark" /\
  existsb (String.eqb (replace_char "-" "_"
                         (str_lower (unicode_lower accepting_env) ("SPAR" +:+ kelvin))
                       +:+ "_job"))
    Dataproc.supported_job_fields = true.
Proof. split; vm_compute; reflexivity. Qed.

Lemma rejected_jobs_are_not_submitted_witness :
  rejects (Dataproc.submit_dataproc_job Dataproc.globals_with_job_client accepting_env
             "p" "us-central1" "c1" "Flink" (VRef 1%positive) "agent-job" VNone)
    (World pyspark_store []).
Proof.
  apply (rejected_jobs_are_not_submitted Dataproc.globals_with_job_client accepting_env
           "p" "us-central1" "c1" "Flink" (VRef 1%positive) "agent-job" VNone pyspark_store []).
  left. reflexivity.
Defined.

(** ** No success without a request *)

Section Sends.
Context {A B : Type}.

Lemma sends_bind_l meth (m : M A) (k : A -> M B) :
  quiet m -> (forall a, sends_or_raises meth (k a)) -> sends_or_raises meth (bind m k).
Proof.
  intros Hm Hk w. unfold bind. specialize (Hm w).
  destruct (m w) as [[a | e] w']; cbn [snd fst] in *.
  - rewrite <- Hm. apply Hk.
  - right. split; [exact Hm | now exists e].
Qed.

Lemma sends_bind_r meth (m : M A) (k : A -> M B) :
  sends_or_raises meth m -> (forall a, quiet (k a)) -> sends_or_raises meth (bind m k).
Proof.
  intros Hm Hk w. unfold bind. specialize (Hm w).
  destruct (m w) as [[a | e] w']; cbn [snd fst] in *.
  - destruct Hm as [(rq & Hm) | (_ & e & He)]; [| discriminate].
    left. exists rq. rewrite Hk. exact Hm.
  - destruct Hm as [(rq & Hm) | (Hm & _)]; [left; now exists rq |].
    right. split; [exact Hm | now exists e].
Qed.

End Sends.

Lemma sends_log meth rq : sends_or_raises meth (log (EvCall meth rq)).
Proof. intros w. left. now exists rq. Qed.

Lemma sends_call_operation E meth rq : sends_or_raises meth (call_operation E meth rq).
Proof.
  apply sends_bind_r; [apply sends_log |]. intros _. apply quiet_no_effect, no_effect_lift.
Qed.

Lemma sends_call_message E meth rq : sends_or_raises meth (call_message E meth rq).
Proof.
  apply sends_bind_r; [apply sends_log |]. intros _. apply quiet_no_effect, no_effect_lift.
Qed.

Lemma sends_call_pager E meth rq : sends_or_raises meth (call_pager E meth rq).
Proof.
  apply sends_bind_r; [apply sends_log |]. intros _. apply quiet_no_effect, no_effect_lift.
Qed.

Lemma sends_call_empty E meth rq : sends_or_raises meth (call_empty E meth rq).
Proof.
  apply sends_bind_r; [apply sends_log |]. intros _. apply quiet_no_effect.
  destruct (rpc_empty E meth rq); [apply no_effect_raise | apply no_effect_ret].
Qed.

Lemma app_one_not_self {T} (l : list T) x : (l ++ [x])%list <> l.
Proof.
  intros H. apply (f_equal (@length T)) in H. rewrite length_app in H. cbn in H. lia.
Qed.

Lemma try_without_request meth (body : M json) hs w :
  sends_or_raises meth body ->
  Forall answers_with_error hs ->
  Exists (fun h => fst h = Catch_Exception) hs ->
  w_trace (snd (try_ body hs w)) = w_trace w ->
  match fst (try_ body hs w) with
  | Return r => is_error_shaped r = true
  | Raise e => isinstance e Catch_Exception = false
  end.
Proof.
  intros Hb Hall Hex. destruct (guarded_body body hs w Hall Hex) as [_ Hg].
  specialize (Hb w). unfold try_ in *.
  destruct (body w) as [[a | e] w'] eqn:Hbw; cbn [snd fst] in *.
  - intros Htr. destruct Hb as [(rq & Hb) | (_ & e & He)]; [| discriminate].
    rewrite Hb in Htr. now apply app_one_not_self in Htr.
  - destruct (isinstance e Catch_Exception) eqn:He.
    + destruct (Hg e w' eq_refl He) as (r & -> & Hr). cbn [snd fst].
      intros Htr. exact Hr.
    + rewrite dispatch_not_exception by assumption. intros _. exact He.
Qed.

Ltac the_send :=
  first [ apply sends_call_operation | apply sends_call_message
        | apply sends_call_pager | apply sends_call_empty ].

Ltac sends :=
  cbv zeta;
  first
    [ the_send
    | apply sends_bind_r; [the_send | intros ?; solve [quiet_step]]
    | apply sends_bind_l; [solve [quiet_step] | intros ?; sends] ].

(** X19.  No tool reports success without having called the service: when
    a call of a registered tool leaves no request in the trace, its answer
    is error-shaped (or an exception that is no [Exception] has gone
    through).  Stated for every tool but [list_dataproc_clusters_async]. *)
Theorem no_success_without_request E c w :
  repeats_request c = false ->
  w_trace (snd (run_tool E c w)) = w_trace w ->
  match fst (run_tool E c w) with
  | Return r => is_error_shaped r = true
  | Raise e => isinstance e Catch_Exception = false
  end.
Proof.
  intros Hc.
  destruct c; try discriminate; cbn [run_tool]; autounfold with wrappers;
    try (eapply try_without_request; autounfold with tools;
         [sends | ladder_answers | ladder_has_exception]).
  (* list_dataproc_clusters *)
  unfold Dataproc.list_dataproc_clusters, bind.
  pose proof (initialize_clients_outcome E w) as Hi.
  assert (snd (Dataproc.initialize_clients E w) = w) as Hw.
  { unfold Dataproc.initialize_clients, on. apply no_effect_try; [pure | handlers_pure]. }
  destruct (Dataproc.initialize_clients E w) as [[[|] | e] w1]; cbn [fst snd negb] in *;
    subst w1.
  - apply (try_without_request "list_clusters"); autounfold with tools;
      [sends | ladder_answers | ladder_has_exception].
  - reflexivity.
  - intros _. exact Hi.
Qed.

Lemma no_success_without_request_witness :
  match fst (run_tool offline_env (Get_dataplex_task "p" "us" "lake" "t") (start ∅)) with
  | Return r => is_error_shaped r = true
  | Raise e => isinstance e Catch_Exception = false
  end.
Proof.
  apply (no_success_without_request offline_env (Get_dataplex_task "p" "us" "lake" "t")
           (start ∅)); reflexivity.
Defined.

(** ** The requests of list_dataproc_clusters_async *)

Lemma repeats_quiet {A} ev (m : M A) : quiet m -> repeats ev m.
Proof. intros H w. exists 0%nat. cbn [repeat]. rewrite app_nil_r. apply H. Qed.

Lemma repeats_log ev : repeats ev (log ev).
Proof. intros w. now exists 1%nat. Qed.

Lemma repeats_bind {A B} ev (m : M A) (k : A -> M B) :
  repeats ev m -> (forall a, repeats ev (k a)) -> repeats ev (bind m k).
Proof.
  intros Hm Hk w. unfold bind. destruct (Hm w) as (n & Hn).
  destruct (m w) as [[a | e] w']; cbn [snd] in *; [| now exists n].
  destruct (Hk a w') as (n' & Hn'). exists (n + n')%nat.
  rewrite Hn', Hn, repeat_app. now rewrite app_assoc.
Qed.

Lemma repeats_try {A} ev (m : M A) hs :
  repeats ev m -> Forall (fun h => forall e, no_effect (snd h e)) hs -> repeats ev (try_ m hs).
Proof.
  intros Hm Hhs w. unfold try_. destruct (Hm w) as (n & Hn).
  destruct (m w) as [[a | e] w']; cbn [snd] in *; [now exists n |].
  exists n. now rewrite (no_effect_dispatch hs e Hhs w').
Qed.

Lemma repeats_await_listing E k rq :
  repeats (EvCall "list_clusters" rq) (Dataproc.await_listing E k rq).
Proof.
  unfold Dataproc.await_listing.
  destruct (async_list_clusters E k rq);
    try (apply repeats_bind; [apply repeats_log | intros _];
         apply repeats_quiet, quiet_no_effect, no_effect_lift).
  apply repeats_quiet, quiet_no_effect, no_effect_raise.
Qed.

Lemma repeats_aiter_listing E k rq :
  repeats (EvCall "list_clusters" rq) (Dataproc.aiter_listing E k rq).
Proof.
  unfold Dataproc.aiter_listing.
  destruct (async_list_clusters E k rq);
    try (apply repeats_bind; [apply repeats_log | intros _];
         apply repeats_quiet, quiet_no_effect, no_effect_ret).
  apply repeats_quiet, quiet_no_effect, no_effect_raise.
Qed.

Lemma repeats_nested_listing E rq outer : forall k acc,
  repeats (EvCall "list_clusters" rq) (Dataproc.nested_listing E rq k outer acc).
Proof.
  induction outer as [| x outer IH]; intros k acc; cbn [Dataproc.nested_listing].
  - apply repeats_quiet, quiet_no_effect, no_effect_ret.
  - apply repeats_bind; [apply repeats_await_listing |]. intros it.
    apply repeats_bind; [apply repeats_quiet, quiet_no_effect, no_effect_iterate |].
    intros inner. apply IH.
Qed.

(** X20.  However often the loop of [list_dataproc_clusters_async] goes
    round, all it sends is one and the same [list_clusters] request, built
    once from the arguments: it calls no other method and changes no
    parameter between the requests. *)
Theorem async_listing_repeats_one_request E p r f :
  repeats (EvCall "list_clusters" (Dataproc.list_clusters_request p r f))
    (run_tool E (List_dataproc_clusters_async p r f)).
Proof.
  cbn [run_tool]. unfold Dataproc.list_dataproc_clusters_async.
  apply repeats_try; [| autounfold with tools; handlers_pure].
  unfold Dataproc.list_dataproc_clusters_async_body. cbv zeta.
  apply repeats_bind; [apply repeats_quiet, quiet_no_effect, no_effect_new_client |].
  intros _. apply repeats_bind; [apply repeats_aiter_listing |]. intros outer.
  apply repeats_bind; [apply repeats_nested_listing |]. intros xs.
  apply repeats_quiet, quiet_no_effect. pure.
Qed.
